(** * Organic-traffic predictor: data preparation and forecast post-processing

    A shallow embedding of the Python sources

      - [src/data_loader.py]   (TrafficDataLoader)
      - [src/preprocessor.py]  (TrafficPreprocessor)
      - [src/analyzer.py]      (TrafficAnalyzer)
      - [src/model.py]         (TrafficProphetModel)
      - [src/config.py]        (Config)

    Modelling conventions.

    - A pandas [DataFrame] is a list of column names together with a list of
      rows, each row a finite map from column name to cell.  Every frame
      that flows through the pipeline carries pandas' default positional
      index 0..n-1 (it comes from [read_csv], from [reset_index(drop=True)]
      or from the forecasting library), so the index is left implicit: the
      label of a row is its position.
    - A finite float64 is idealised as the rational it denotes; the
      non-finite values inf, -inf and NaN are kept, because pandas produces
      them instead of raising (division by zero, coerced parse failures).
    - Exceptions are values of [exn]; code that can raise returns [result].
      Code that mutates objects runs in a state-and-exception monad whose
      state survives an exception, as a Python object does.
    - pandas, the file system, the forecasting library and the metric
      functions are external: they are interfaces (type classes), and every
      theorem holds for all their implementations.
    - [print] calls write to standard output only and are left out. *)

From Stdlib Require Import ZArith QArith Qround Qabs Reals Qreals Psatz Lia Ascii String.
From stdpp Require Import base option list gmap sets strings sorting pretty.

Open Scope string_scope.
Open Scope Z_scope.

(* ================================================================== *)
(** * Part I. Definitions                                              *)
(* ================================================================== *)

(** ** Exceptions and results *)

Inductive exn :=
  | FileNotFoundError (msg : string)
  | ValueError (msg : string)
  (* ValueError(f"Missing required columns: {missing_columns}") *)
  | ValueError_missing (missing_columns : gset string)
  | KeyError (column : string)
  | TypeError (msg : string)
  | AttributeError (msg : string)
  | IndexError (msg : string)
  (* an exception that escapes from a call into an external library,
     whatever its class *)
  | LibraryError (msg : string).

Definition is_ValueError (e : exn) : bool :=
  match e with
  | ValueError _ | ValueError_missing _ => true
  | _ => false
  end.

Inductive result (A : Type) :=
  | Ok (a : A)
  | Raise (e : exn).
Arguments Ok {A} a.
Arguments Raise {A} e.

#[global] Instance result_ret : MRet result := @Ok.
#[global] Instance result_bind : MBind result := λ A B f m,
  match m with
  | Ok a => f a
  | Raise e => Raise e
  end.
#[global] Instance result_fmap : FMap result := λ A B f m,
  match m with
  | Ok a => Ok (f a)
  | Raise e => Raise e
  end.

(** The outcome of a call into an external library. *)
Inductive lib (A : Type) :=
  | Done (a : A)
  | Fails (msg : string).
Arguments Done {A} a.
Arguments Fails {A} msg.

Definition from_lib {A} (r : lib A) : result A :=
  match r with
  | Done a => Ok a
  | Fails msg => Raise (LibraryError msg)
  end.

(** [o] or else raise [e]. *)
Definition or_raise {A} (e : exn) (o : option A) : result A :=
  match o with
  | Some a => Ok a
  | None => Raise e
  end.

(** [f] on every entry, left to right, stopping at the first exception. *)
Definition mapR {A B} (f : A → result B) (l : list A) : result (list B) :=
  mapM f l.

(** State and exceptions: the state reached when the exception is raised is
    kept. *)
Definition SE (S A : Type) : Type := S → result A * S.

#[global] Instance SE_ret {S} : MRet (SE S) := λ A a s, (Ok a, s).
#[global] Instance SE_bind {S} : MBind (SE S) := λ A B f m s,
  match m s with
  | (Ok a, s') => f a s'
  | (Raise e, s') => (Raise e, s')
  end.

Definition get {S} : SE S S := λ s, (Ok s, s).
Definition put {S} (s : S) : SE S unit := λ _, (Ok tt, s).
Definition lift {S A} (r : result A) : SE S A := λ s, (r, s).
Definition call {S A} (r : lib A) : SE S A := lift (from_lib r).

(** ** Floats and cells *)

Inductive float :=
  | Fin (q : Q)
  | PInf
  | NInf
  | NaN.

Definition Qeqb (x y : Q) : bool := Qeq_bool x y.
Definition Qltb (x y : Q) : bool := negb (Qle_bool y x).

(** IEEE-754 division, on idealised finite values. The branch [y == 0] is
    the division-by-zero branch: it yields an infinity or NaN. *)
Definition fdiv (a b : float) : float :=
  match a, b with
  | NaN, _ | _, NaN => NaN
  | Fin x, Fin y =>
      if Qeqb y 0 then
        (if Qeqb x 0 then NaN else if Qltb 0 x then PInf else NInf)
      else Fin (x / y)
  | Fin _, (PInf | NInf) => Fin 0
  | PInf, Fin y => if Qle_bool 0 y then PInf else NInf
  | NInf, Fin y => if Qle_bool 0 y then NInf else PInf
  | (PInf | NInf), (PInf | NInf) => NaN
  end.

Definition fsub (a b : float) : float :=
  match a, b with
  | NaN, _ | _, NaN => NaN
  | Fin x, Fin y => Fin (x - y)
  | Fin _, PInf => NInf
  | Fin _, NInf => PInf
  | PInf, PInf | NInf, NInf => NaN
  | PInf, _ => PInf
  | NInf, _ => NInf
  end.

Definition fmul (a b : float) : float :=
  match a, b with
  | NaN, _ | _, NaN => NaN
  | Fin x, Fin y => Fin (x * y)
  | Fin x, PInf | PInf, Fin x =>
      if Qeqb x 0 then NaN else if Qltb 0 x then PInf else NInf
  | Fin x, NInf | NInf, Fin x =>
      if Qeqb x 0 then NaN else if Qltb 0 x then NInf else PInf
  | PInf, PInf | NInf, NInf => PInf
  | PInf, NInf | NInf, PInf => NaN
  end.


(** A timestamp is a number of nanoseconds since 1970-01-01T00:00 (pandas'
    datetime64[ns]). *)
Abbreviation Timestamp := Z.

Inductive cell :=
  | CInt (z : Z)
  | CFloat (x : float)
  | CStr (s : string)
  | CTime (t : Timestamp)
  | CBool (b : bool).

(** ** Data frames *)

Record DataFrame := mkDataFrame {
  columns : list string;
  rows : list (gmap string cell)
}.

(** A [Series] is one column: the list of its cells. *)
Definition Series := list cell.

(** [len(df)] *)
Definition len (df : DataFrame) : nat := length (rows df).

(** [df[c]]: KeyError when the frame has no such column. *)
Definition getcol (c : string) (df : DataFrame) : result Series :=
  if decide (c ∈ columns df)
  then or_raise (KeyError c) (mapM (λ r : gmap string cell, r !! c) (rows df))
  else Raise (KeyError c).

(** The column names after an assignment to column [c]. *)
Definition add_column (c : string) (cols : list string) : list string :=
  if decide (c ∈ cols) then cols else (cols ++ [c])%list.

(** [df[c] = s] on a frame value: the column is replaced, or appended when
    new. pandas refuses a column of the wrong length. *)
Definition setcol (c : string) (s : Series) (df : DataFrame) : result DataFrame :=
  if decide (length s = len df)
  then Ok {| columns := add_column c (columns df);
             rows := zip_with (λ (r : gmap string cell) v, <[c := v]> r) (rows df) s |}
  else Raise (ValueError "Length of values does not match length of index").

(** [df[[c1, ..., ck]]]: the sub-frame of the listed columns. *)
Definition project_row (cs : list string) (r : gmap string cell) : gmap string cell :=
  filter (λ kv, kv.1 ∈ cs) r.

Definition select (cs : list string) (df : DataFrame) : result DataFrame :=
  match list_find (λ c, c ∉ columns df) cs with
  | Some (_, c) => Raise (KeyError c)
  | None => Ok {| columns := cs; rows := project_row cs <$> rows df |}
  end.

(** [df[mask]] for a boolean mask of the frame's length. *)
Fixpoint mask_filter {A} (mask : list bool) (l : list A) : list A :=
  match mask, l with
  | b :: mask', x :: l' => if b then x :: mask_filter mask' l' else mask_filter mask' l'
  | _, _ => []
  end.

Definition bool_index (mask : list bool) (df : DataFrame) : result DataFrame :=
  if decide (length mask = len df)
  then Ok {| columns := columns df; rows := mask_filter mask (rows df) |}
  else Raise (ValueError "Item wrong length").

(** Python slices [l[:k]] and [l[k:]]: a negative bound counts from the end,
    and bounds are clamped to the list. *)
Definition slice_bound (k : Z) (n : nat) : nat :=
  if k <? 0 then Z.to_nat (Z.max 0 (Z.of_nat n + k)) else Z.to_nat k.

Definition iloc_to (k : Z) (df : DataFrame) : DataFrame :=
  {| columns := columns df; rows := take (slice_bound k (len df)) (rows df) |}.
Definition iloc_from (k : Z) (df : DataFrame) : DataFrame :=
  {| columns := columns df; rows := drop (slice_bound k (len df)) (rows df) |}.

(** Typed views of cells. *)
Definition cell_time (c : cell) : result Timestamp :=
  match c with
  | CTime t => Ok t
  | _ => Raise (TypeError "datetime64 expected")
  end.

(** A finite number, from an int64 or a float64 cell. *)
Definition cell_num (c : cell) : result Q :=
  match c with
  | CInt z => Ok (inject_Z z)
  | CFloat (Fin q) => Ok q
  | _ => Raise (TypeError "finite number expected")
  end.

(** A float64, from an int64 or a float64 cell (numpy's promotion). *)
Definition cell_float (c : cell) : result float :=
  match c with
  | CInt z => Ok (Fin (inject_Z z))
  | CFloat x => Ok x
  | _ => Raise (TypeError "number expected")
  end.

Definition cell_str (c : cell) : result string :=
  match c with
  | CStr s => Ok s
  | _ => Raise (AttributeError "Can only use .str accessor with string values")
  end.

(** ** The external world *)

(** The file system and pandas' readers and parsers. *)
Class Pandas := {
  (* Path(p).exists() *)
  path_exists : string → bool;
  (* pd.read_csv(p) *)
  read_csv : string → lib DataFrame;
  (* pd.to_datetime on one entry; raises on a string it cannot parse *)
  to_datetime : string → lib Timestamp;
  (* pd.to_numeric(errors='coerce') on one entry: NaN when it cannot parse *)
  to_numeric_coerce : string → float
}.

(** ** src/data_loader.py *)

Record TrafficDataLoader := { file_path : string }.

Section Loader.
Context `{Pandas}.

(** [TrafficDataLoader.__init__] *)
Definition TrafficDataLoader_init (path : string) : result TrafficDataLoader :=
  if path_exists path
  then Ok {| file_path := path |}
  else Raise (FileNotFoundError ("Data file not found: " +:+ path)).

Definition required_columns : list string :=
  ["Date"; "Clicks"; "Impressions"; "CTR"; "Position"].

(** [TrafficDataLoader.load] *)
Definition load (self : TrafficDataLoader) : result DataFrame :=
  df ← from_lib (read_csv (file_path self));
  let missing_columns : gset string :=
    list_to_set required_columns ∖ list_to_set (columns df) in
  if decide (missing_columns ≠ ∅)
  then Raise (ValueError_missing missing_columns)
  else Ok df.
End Loader.

(** ** src/config.py *)

Record Config := {
  growth : string;
  changepoint_prior_scale : Q;
  changepoint_range : Q;
  yearly_seasonality : bool;
  weekly_seasonality : bool;
  daily_seasonality : bool;
  seasonality_mode : string;
  interval_width : Q;
  uncertainty_samples : Z;
  monthly_seasonality_period : Q;
  monthly_seasonality_fourier : Z;
  validation_days : Z;
  date_column : string;
  clicks_column : string;
  impressions_column : string;
  ctr_column : string;
  position_column : string;
  export_html : bool;
  export_png : bool;
  export_svg : bool;
  export_pdf : bool;
  create_dashboard : bool;
  chart_width : Z;
  chart_height : Z;
  dashboard_width : Z;
  dashboard_height : Z;
  image_scale : Q;
  plotly_theme : string
}.

(** [Config()]: the dataclass defaults. *)
Definition Config_default : Config := {|
  growth := "linear";
  changepoint_prior_scale := 5 # 100;
  changepoint_range := 9 # 10;
  yearly_seasonality := true;
  weekly_seasonality := true;
  daily_seasonality := false;
  seasonality_mode := "multiplicative";
  interval_width := 95 # 100;
  uncertainty_samples := 1000;
  monthly_seasonality_period := 305 # 10;
  monthly_seasonality_fourier := 5;
  validation_days := 60;
  date_column := "Date";
  clicks_column := "Clicks";
  impressions_column := "Impressions";
  ctr_column := "CTR";
  position_column := "Position";
  export_html := true;
  export_png := true;
  export_svg := false;
  export_pdf := false;
  create_dashboard := true;
  chart_width := 1000;
  chart_height := 600;
  dashboard_width := 1200;
  dashboard_height := 700;
  image_scale := 2;
  plotly_theme := "plotly_white"
|}.

(** The keyword arguments of [Config.prophet_params]. *)
Record ProphetParams := {
  pp_growth : string;
  pp_changepoint_prior_scale : Q;
  pp_changepoint_range : Q;
  pp_yearly_seasonality : bool;
  pp_weekly_seasonality : bool;
  pp_daily_seasonality : bool;
  pp_seasonality_mode : string;
  pp_interval_width : Q;
  pp_uncertainty_samples : Z
}.

Definition prophet_params (self : Config) : ProphetParams := {|
  pp_growth := growth self;
  pp_changepoint_prior_scale := changepoint_prior_scale self;
  pp_changepoint_range := changepoint_range self;
  pp_yearly_seasonality := yearly_seasonality self;
  pp_weekly_seasonality := weekly_seasonality self;
  pp_daily_seasonality := daily_seasonality self;
  pp_seasonality_mode := seasonality_mode self;
  pp_interval_width := interval_width self;
  pp_uncertainty_samples := uncertainty_samples self
|}.

(** ** src/model.py *)

(** The forecasting library. A [Prophet] value is the state of a model
    object; [Prophet_fit] and [add_seasonality] return the state the object
    is left in. *)
Class ProphetLib := {
  Prophet : Type;
  (* the constructor, called with the keyword arguments *)
  Prophet_new : ProphetParams → lib Prophet;
  (* m.add_seasonality(name=, period=, fourier_order=) *)
  add_seasonality : string → Q → Z → Prophet → lib Prophet;
  (* m.fit(df) *)
  Prophet_fit : DataFrame → Prophet → lib Prophet;
  (* m.make_future_dataframe(periods=) *)
  make_future_dataframe : Z → Prophet → lib DataFrame;
  (* m.predict(df) *)
  Prophet_predict : DataFrame → Prophet → lib DataFrame;
  (* prophet.diagnostics.cross_validation(m, initial=, period=, horizon=) *)
  cross_validation : Prophet → string → string → string → lib DataFrame;
  (* prophet.diagnostics.performance_metrics(cv) *)
  performance_metrics : DataFrame → lib DataFrame
}.

(** numpy and scikit-learn, as [_validate] uses them. The subtraction of two
    pandas Series aligns them on their index labels, so [np_mean_abs_sub]
    receives each Series with its labels; the scikit-learn metrics take
    their arguments by position. *)
Class MetricsLib := {
  (* np.mean(np.abs(a - b)) *)
  np_mean_abs_sub : list (nat * cell) → list (nat * cell) → lib float;
  mean_absolute_percentage_error : Series → Series → lib float;
  mean_squared_error : Series → Series → lib float;
  np_sqrt : float → float
}.

(** The labels a Series keeps when it is cut out of a frame at row [start]. *)
Definition with_index (start : nat) (s : Series) : list (nat * cell) :=
  zip (seq start (length s)) s.

(** [Series.max()] of a datetime column: NaT ([None]) when it is empty. *)
Definition series_max (ts : list Timestamp) : option Timestamp :=
  match ts with
  | [] => None
  | t :: ts' => Some (foldl Z.max t ts')
  end.

(** [ts > bound], elementwise; every comparison with NaT is False. *)
Definition gt_mask (ts : list Timestamp) (bound : option Timestamp) : list bool :=
  match bound with
  | Some m => (λ t, m <? t) <$> ts
  | None => (λ _, false) <$> ts
  end.

(** numpy's [round]: to the nearest integer, ties to the even one. *)
Definition round_half_even (q : Q) : Z :=
  let f := Qfloor q in
  let d := (q - inject_Z f)%Q in
  if Qltb d (1 # 2) then f
  else if Qltb (1 # 2) d then f + 1
  else if Z.even f then f else f + 1.

(** [Series.round()] on one entry. *)
Definition round_cell (c : cell) : result cell :=
  match c with
  | CInt z => Ok (CInt z)
  | CFloat (Fin q) => Ok (CFloat (Fin (inject_Z (round_half_even q))))
  | CFloat x => Ok (CFloat x)
  | _ => Raise (TypeError "round: number expected")
  end.

(** [Series.astype(int)] on one entry: truncation towards zero; pandas
    refuses NaN and the infinities. (int64 wrap-around is not modelled.) *)
Definition astype_int_cell (c : cell) : result cell :=
  match c with
  | CInt z => Ok (CInt z)
  | CBool b => Ok (CInt (if b then 1 else 0))
  | CFloat (Fin q) => Ok (CInt (Z.quot (Qnum q) (Z.pos (Qden q))))
  | CFloat _ =>
      Raise (ValueError "Cannot convert non-finite values (NA or inf) to integer")
  | _ => Raise (TypeError "astype(int): number expected")
  end.

(** [s.round().astype(int)] *)
Definition round_astype_int (s : Series) : result Series :=
  rounded ← mapR round_cell s;
  mapR astype_int_cell rounded.

Section Model.
Context `{ProphetLib} `{MetricsLib}.

Record TrafficProphetModel := {
  config : Config;
  model : option Prophet;
  validation_metrics : gmap string float
}.

(** [TrafficProphetModel.__init__] *)
Definition TrafficProphetModel_init (config : Config) : TrafficProphetModel :=
  {| config := config; model := None; validation_metrics := ∅ |}.

Definition set_model (m : Prophet) : SE TrafficProphetModel unit :=
  λ self, (Ok tt, {| config := config self; model := Some m;
                     validation_metrics := validation_metrics self |}).

Definition set_validation_metrics (vm : gmap string float)
    : SE TrafficProphetModel unit :=
  λ self, (Ok tt, {| config := config self; model := model self;
                     validation_metrics := vm |}).

(** [_create_model] *)
Definition _create_model (self : TrafficProphetModel) : result Prophet :=
  m ← from_lib (Prophet_new (prophet_params (config self)));
  from_lib (add_seasonality "monthly"
              (monthly_seasonality_period (config self))
              (monthly_seasonality_fourier (config self)) m).

(** [int(len(df) * 0.8)]. The double nearest to 0.8 exceeds 0.8 by
    0.8 * 2^-54, and for a row count n below 2^50 the product n * 0.8
    rounds to a double whose integer part is that of 4n/5. *)
Definition int_mul_0_8 (n : Z) : Z := n * 4 / 5.

(** [_split_data] *)
Definition _split_data (self : TrafficProphetModel) (df : DataFrame)
    : DataFrame * DataFrame :=
  let train_size := Z.of_nat (len df) - validation_days (config self) in
  let train_size := Z.max train_size (int_mul_0_8 (Z.of_nat (len df))) in
  let train_df := iloc_to train_size df in
  let test_df := iloc_from train_size df in
  (train_df, test_df).

(** The metrics [_validate] computes from the forecast of the test rows.
    [start] is the position of the first test row in the frame it was cut
    from: the test rows keep their labels, the forecast is labelled from
    0. *)
Definition validation_of (start : nat) (test_forecast test_df : DataFrame)
    : result (gmap string float) :=
  yhat ← getcol "yhat" test_forecast;
  y ← getcol "y" test_df;
  mae ← from_lib (np_mean_abs_sub (with_index 0 yhat) (with_index start y));
  mape ← (λ x, fmul x (Fin 100)) <$> from_lib (mean_absolute_percentage_error y yhat);
  rmse ← np_sqrt <$> from_lib (mean_squared_error y yhat);
  Ok ({[ "mae" := mae; "mape" := mape; "rmse" := rmse ]} : gmap string float).

(** [_validate] *)
Definition _validate (train_df test_df : DataFrame) : SE TrafficProphetModel unit :=
  self ← get;
  m ← lift (or_raise (AttributeError "'NoneType' object has no attribute 'predict'")
              (model self));
  ds ← lift (select ["ds"] test_df);
  test_forecast ← call (Prophet_predict ds m);
  vm ← lift (validation_of (len train_df) test_forecast test_df);
  set_validation_metrics vm.

(** [fit] *)
Definition fit (df : DataFrame) : SE TrafficProphetModel unit :=
  self ← get;
  let '(train_df, test_df) := _split_data self df in
  m ← lift (_create_model self);
  set_model m;;
  train_ds_y ← lift (select ["ds"; "y"] train_df);
  m ← call (Prophet_fit train_ds_y m);
  set_model m;;
  (if decide (0 < len test_df)%nat then _validate train_df test_df else mret tt);;
  m ← lift (_create_model self);
  set_model m;;
  ds_y ← lift (select ["ds"; "y"] df);
  m ← call (Prophet_fit ds_y m);
  set_model m.

Definition not_fitted_predict : exn :=
  ValueError "Model must be fitted before prediction".
Definition not_fitted_cross_validation : exn :=
  ValueError "Model must be fitted before cross-validation".

(** [predict] *)
Definition predict (periods : Z) : SE TrafficProphetModel DataFrame :=
  self ← get;
  match model self with
  | None => lift (Raise not_fitted_predict)
  | Some m =>
      future ← call (make_future_dataframe periods m);
      forecast ← call (Prophet_predict future m);
      mret forecast
  end.

(** [get_future_predictions] *)
Definition get_future_predictions (forecast historical_df : DataFrame)
    : result DataFrame :=
  hist_ds ← getcol "ds" historical_df;
  hist_ts ← mapR cell_time hist_ds;
  let max_historical_date := series_max hist_ts in
  forecast_ds ← getcol "ds" forecast;
  forecast_ts ← mapR cell_time forecast_ds;
  future_forecast ← bool_index (gt_mask forecast_ts max_historical_date) forecast;
  predicted ← getcol "yhat" future_forecast ≫= round_astype_int;
  future_forecast ← setcol "predicted" predicted future_forecast;
  lower_bound ← getcol "yhat_lower" future_forecast ≫= round_astype_int;
  future_forecast ← setcol "lower_bound" lower_bound future_forecast;
  upper_bound ← getcol "yhat_upper" future_forecast ≫= round_astype_int;
  future_forecast ← setcol "upper_bound" upper_bound future_forecast;
  select ["ds"; "predicted"; "lower_bound"; "upper_bound"] future_forecast.

(** [cross_validate] *)
Definition cross_validate (initial_days period_days horizon_days : Z)
    : SE TrafficProphetModel DataFrame :=
  self ← get;
  match model self with
  | None => lift (Raise not_fitted_cross_validation)
  | Some m =>
      cv_results ← call (cross_validation m
                           (pretty initial_days +:+ " days")
                           (pretty period_days +:+ " days")
                           (pretty horizon_days +:+ " days"));
      metrics_df ← call (performance_metrics cv_results);
      (* the two prints read metrics_df['mape'] and metrics_df['coverage'] *)
      _ ← lift (getcol "mape" metrics_df);
      _ ← lift (getcol "coverage" metrics_df);
      mret cv_results
  end.
End Model.

(** ** Calendar accessors of pandas' [Series.dt] *)

Definition ns_per_day : Z := 86400 * 1000000000.

(** Whole days since 1970-01-01 (a Thursday). *)
Definition days_of (t : Timestamp) : Z := t / ns_per_day.

(** [dt.dayofweek]: Monday is 0, Sunday is 6. *)
Definition dayofweek (t : Timestamp) : Z := (days_of t + 3) mod 7.

Definition day_order : list string :=
  ["Monday"; "Tuesday"; "Wednesday"; "Thursday"; "Friday"; "Saturday"; "Sunday"].

(** [dt.day_name()] *)
Definition day_name (t : Timestamp) : string :=
  default "" (day_order !! Z.to_nat (dayofweek t)).

(** The proleptic Gregorian date (year, month, day) of a day number. *)
Definition civil_of_days (days : Z) : Z * Z * Z :=
  let z := days + 719468 in
  let era := z / 146097 in
  let doe := z - era * 146097 in
  let yoe := (doe - doe / 1460 + doe / 36524 - doe / 146096) / 365 in
  let doy := doe - (365 * yoe + yoe / 4 - yoe / 100) in
  let mp := (5 * doy + 2) / 153 in
  let d := doy - (153 * mp + 2) / 5 + 1 in
  let m := if mp <? 10 then mp + 3 else mp - 9 in
  let y := yoe + era * 400 + (if m <=? 2 then 1 else 0) in
  (y, m, d).

Definition dt_year (t : Timestamp) : Z := (civil_of_days (days_of t)).1.1.
Definition dt_month (t : Timestamp) : Z := (civil_of_days (days_of t)).1.2.
Definition dt_day (t : Timestamp) : Z := (civil_of_days (days_of t)).2.
Definition dt_quarter (t : Timestamp) : Z := (dt_month t - 1) / 3 + 1.

Definition is_leap_year (y : Z) : bool :=
  (y mod 4 =? 0) && (negb (y mod 100 =? 0) || (y mod 400 =? 0)).

Definition days_in_month (y m : Z) : Z :=
  if m =? 2 then (if is_leap_year y then 29 else 28)
  else if (m =? 4) || (m =? 6) || (m =? 9) || (m =? 11) then 30
  else 31.

Definition is_month_start (t : Timestamp) : bool := dt_day t =? 1.
Definition is_month_end (t : Timestamp) : bool :=
  dt_day t =? days_in_month (dt_year t) (dt_month t).

(** Day number of the first of January of year [y]. *)
Definition days_of_jan1 (y : Z) : Z :=
  let p := y - 1 in
  365 * p + p / 4 - p / 100 + p / 400 - 719162.

(** Number of ISO weeks of year [y]. *)
Definition iso_weeks_in_year (y : Z) : Z :=
  let p (y : Z) := (y + y / 4 - y / 100 + y / 400) mod 7 in
  if (p y =? 4) || (p (y - 1) =? 3) then 53 else 52.

(** [dt.isocalendar().week] *)
Definition iso_week (t : Timestamp) : Z :=
  let y := dt_year t in
  let ordinal := days_of t - days_of_jan1 y + 1 in
  let w := (ordinal - (dayofweek t + 1) + 10) / 7 in
  if w <? 1 then iso_weeks_in_year (y - 1)
  else if iso_weeks_in_year y <? w then 1
  else w.

(** ** The object store

    A [DataFrame] object lives at a reference; a Python variable holds the
    reference, so two names can alias one frame. *)

Abbreviation Ref := positive.
Abbreviation Heap := (gmap positive DataFrame).

(** A new object. *)
Definition new_frame (df : DataFrame) : SE Heap Ref :=
  λ h, let l := fresh (dom h) in (Ok l, <[l := df]> h).

Definition deref (l : Ref) : SE Heap DataFrame :=
  λ h, (or_raise (KeyError "no such object") (h !! l), h).

(** [df.copy()] *)
Definition df_copy (l : Ref) : SE Heap Ref :=
  df ← deref l;
  new_frame df.

(** [df[c]] *)
Definition col (l : Ref) (c : string) : SE Heap Series :=
  df ← deref l;
  lift (getcol c df).

Definition store (l : Ref) (df : DataFrame) : SE Heap unit :=
  λ h, (Ok tt, <[l := df]> h).

(** [df[c] = s], in place. *)
Definition assign (l : Ref) (c : string) (s : Series) : SE Heap unit :=
  df ← deref l;
  df' ← lift (setcol c s df);
  store l df'.

(** ** Elementwise column operations *)

(** [pd.to_datetime] of one entry. *)
Definition to_datetime_cell `{Pandas} (c : cell) : result cell :=
  match c with
  | CStr s => CTime <$> from_lib (to_datetime s)
  | CTime t => Ok (CTime t)
  | CInt z => Ok (CTime z)
  | _ => Raise (TypeError "to_datetime: cannot convert")
  end.

(** [str.rstrip(ch)]: drop the trailing run of [ch]. *)
Fixpoint rstrip (ch : ascii) (s : string) : string :=
  match s with
  | EmptyString => EmptyString
  | String a s' =>
      match rstrip ch s' with
      | EmptyString => if Ascii.eqb a ch then EmptyString else String a EmptyString
      | r => String a r
      end
  end.

Definition str_rstrip_cell (ch : ascii) (c : cell) : result cell :=
  (λ s, CStr (rstrip ch s)) <$> cell_str c.

(** [pd.to_numeric(..., errors='coerce')] of one entry. *)
Definition to_numeric_cell `{Pandas} (c : cell) : result cell :=
  match c with
  | CStr s => Ok (CFloat (to_numeric_coerce s))
  | CInt z => Ok (CInt z)
  | CFloat x => Ok (CFloat x)
  | CBool b => Ok (CBool b)
  | CTime _ => Raise (TypeError "Invalid object type")
  end.

(** [x / y], [k / x] and [x / k] on entries: true division in float64. *)
Definition div_cell (a b : cell) : result cell :=
  x ← cell_float a;
  y ← cell_float b;
  Ok (CFloat (fdiv x y)).

(** [s1 / s2] for two columns of one frame. *)
Definition series_div (s1 s2 : Series) : result Series :=
  if decide (length s1 = length s2)
  then mapR (λ ab, div_cell ab.1 ab.2) (zip s1 s2)
  else Raise (ValueError "operands could not be broadcast together").

(** A [.dt] accessor on one entry. *)
Definition dt_cell (f : Timestamp → cell) (c : cell) : result cell :=
  match c with
  | CTime t => Ok (f t)
  | _ => Raise (AttributeError "Can only use .dt accessor with datetimelike values")
  end.

(** [x >= k] on one entry. *)
Definition ge_cell (k : Z) (c : cell) : result cell :=
  match c with
  | CInt z => Ok (CBool (k <=? z))
  | CFloat (Fin q) => Ok (CBool (Qle_bool (inject_Z k) q))
  | CFloat PInf => Ok (CBool true)
  | CFloat _ => Ok (CBool false)
  | CBool b => Ok (CBool (k <=? (if b then 1 else 0)))
  | _ => Raise (TypeError "'>=' not supported")
  end.

(** Rows paired with their sort key, compared by key. *)
Definition key_le (a b : Z * gmap string cell) : Prop := a.1 ≤ b.1.
#[global] Instance key_le_dec : RelDecision key_le := λ a b, Z_le_dec a.1 b.1.

(** [df.sort_values(c)] for a datetime column [c]: a new frame with the rows
    in nondecreasing order of [c]. *)
Definition sort_values (c : string) (df : DataFrame) : result DataFrame :=
  s ← getcol c df;
  keys ← mapR cell_time s;
  Ok {| columns := columns df;
        rows := (merge_sort key_le (zip keys (rows df))).*2 |}.

(** [df.reset_index(drop=True)]: the rows are relabelled 0..n-1, which the
    positional index of the model already says. *)
Definition reset_index_drop (df : DataFrame) : DataFrame := df.

(** ** src/preprocessor.py *)

Section Preprocessor.
Context `{Pandas}.

(** [_add_features]: every assignment is made in place, on the frame the
    argument refers to, and the same reference is returned. *)
Definition _add_features (df : Ref) : SE Heap Ref :=
  ds ← col df "ds";
  s ← lift (mapR (dt_cell (CInt ∘ dayofweek)) ds);
  assign df "day_of_week" s;;
  ds ← col df "ds";
  s ← lift (mapR (dt_cell (CInt ∘ dt_day)) ds);
  assign df "day_of_month" s;;
  ds ← col df "ds";
  s ← lift (mapR (dt_cell (CInt ∘ iso_week)) ds);
  assign df "week_of_year" s;;
  ds ← col df "ds";
  s ← lift (mapR (dt_cell (CInt ∘ dt_month)) ds);
  assign df "month" s;;
  ds ← col df "ds";
  s ← lift (mapR (dt_cell (CInt ∘ dt_quarter)) ds);
  assign df "quarter" s;;
  ds ← col df "ds";
  s ← lift (mapR (dt_cell (CInt ∘ dt_year)) ds);
  assign df "year" s;;
  dow ← col df "day_of_week";
  b ← lift (mapR (ge_cell 5) dow);
  s ← lift (mapR astype_int_cell b);
  assign df "is_weekend" s;;
  ds ← col df "ds";
  b ← lift (mapR (dt_cell (CBool ∘ is_month_end)) ds);
  s ← lift (mapR astype_int_cell b);
  assign df "is_month_end" s;;
  ds ← col df "ds";
  b ← lift (mapR (dt_cell (CBool ∘ is_month_start)) ds);
  s ← lift (mapR astype_int_cell b);
  assign df "is_month_start" s;;
  y ← col df "y";
  impressions ← col df "Impressions";
  s ← lift (series_div y impressions);
  assign df "clicks_per_impression" s;;
  position ← col df "position";
  s ← lift (mapR (div_cell (CInt 1)) position);
  assign df "position_impact" s;;
  mret df.

(** [process] *)
Definition process (df : Ref) : SE Heap Ref :=
  df_processed ← df_copy df;
  date ← col df_processed "Date";
  ds ← lift (mapR to_datetime_cell date);
  assign df_processed "ds" ds;;
  clicks ← col df_processed "Clicks";
  assign df_processed "y" clicks;;
  ctr ← col df_processed "CTR";
  stripped ← lift (mapR (str_rstrip_cell "%") ctr);
  numeric ← lift (mapR to_numeric_cell stripped);
  ctr ← lift (mapR (λ c, div_cell c (CInt 100)) numeric);
  assign df_processed "ctr" ctr;;
  position ← col df_processed "Position";
  assign df_processed "position" position;;
  sorted ← (d ← deref df_processed; lift (sort_values "ds" d));
  df_processed ← new_frame (reset_index_drop sorted);
  _add_features df_processed.
End Preprocessor.

(** ** Statistics over the reals

    Means, standard deviations and z-scores are float64 computations; they
    are modelled over the real numbers, with NaN as [None]. A standard
    deviation is NaN when there are too few entries for its [ddof]; a
    quotient is NaN when the divisor is 0 (the dividend is then 0 as well:
    see [dev_zero_of_ssd_zero]). *)

#[global] Instance Rlt_decision : RelDecision Rlt := Rlt_dec.
#[global] Instance Req_decision : EqDecision R := Req_dec_T.

Definition Rsum (l : list R) : R := foldr Rplus 0%R l.

(** [mean()] *)
Definition Rmean (l : list R) : R := (Rsum l / INR (length l))%R.

(** Sum of the squared deviations from the mean. *)
Definition ssd (l : list R) : R := Rsum ((λ x, Rsqr (x - Rmean l)) <$> l).

(** [std(ddof=ddof)] *)
Definition std (ddof : nat) (l : list R) : option R :=
  if decide (length l ≤ ddof)%nat then None
  else Some (sqrt (ssd l / INR (length l - ddof))).

Definition nan_div (a b : R) : option R :=
  if decide (b = 0%R) then None else Some (a / b)%R.

(** [(s - s.mean()) / s.std(ddof=ddof)] *)
Definition standardize (ddof : nat) (l : list R) : list (option R) :=
  (λ x, std ddof l ≫= nan_div (x - Rmean l)) <$> l.

(** pandas' [Series.std()] has [ddof=1]. *)
Definition pandas_ddof : nat := 1.

Definition np_abs (z : option R) : option R := Rabs <$> z.

(** [z > threshold]; a comparison with NaN is False. *)
Definition gt_threshold (threshold : R) (z : option R) : bool :=
  match z with
  | Some z => bool_decide (threshold < z)%R
  | None => false
  end.

(** [handle_outliers] *)
Definition handle_outliers (df : Ref) (z_threshold : Q) : SE Heap Ref :=
  df ← df_copy df;
  y ← col df "y";
  ys ← lift (mapR cell_num y);
  let z_scores := np_abs <$> standardize pandas_ddof (Q2R <$> ys) in
  assign df "is_outlier" (CBool ∘ gt_threshold (Q2R z_threshold) <$> z_scores);;
  mret df.

(** ** src/analyzer.py *)

Definition Qsum (l : list Q) : Q := foldr Qplus 0%Q l.
Definition Qmean (l : list Q) : Q := (Qsum l / inject_Z (Z.of_nat (length l)))%Q.

#[global] Instance Q_eq_dec : EqDecision Q.
Proof. solve_decision. Defined.
#[global] Instance float_eq_dec : EqDecision float.
Proof. solve_decision. Defined.
#[global] Instance cell_eq_dec : EqDecision cell.
Proof. solve_decision. Defined.

Definition fadd (a b : float) : float :=
  match a, b with
  | NaN, _ | _, NaN => NaN
  | Fin x, Fin y => Fin (x + y)
  | PInf, NInf | NInf, PInf => NaN
  | PInf, _ | _, PInf => PInf
  | NInf, _ | _, NInf => NInf
  end.

(** [Series.mean()] of a float column: NaN entries are skipped, and the
    mean of nothing is NaN. *)
Definition mean_skipna (l : list float) : float :=
  let xs := filter (λ x, x ≠ NaN) l in
  fdiv (foldr fadd (Fin 0) xs) (Fin (inject_Z (Z.of_nat (length xs)))).

(** The values of the rows whose key is [k]. *)
Definition group_values (keys : list cell) (vals : list Q) (k : cell) : list Q :=
  (filter (λ kv, kv.1 = k) (zip keys vals)).*2.

(** [df.groupby(key)[val].mean()]: one entry per distinct key, labelled with
    the key. (pandas orders the entries by key; nothing below depends on
    their order.) *)
Definition groupby_mean (key val : string) (df : DataFrame)
    : result (list (cell * Q)) :=
  keys ← getcol key df;
  vals ← getcol val df ≫= mapR cell_num;
  Ok ((λ k, (k, Qmean (group_values keys vals k))) <$> remove_dups keys).

(** The entry labelled [k] of a labelled Series. *)
Fixpoint series_get (k : cell) (s : list (cell * Q)) : option Q :=
  match s with
  | [] => None
  | (k', v) :: s' => if decide (k' = k) then Some v else series_get k s'
  end.

(** [s.reindex(labels).values]: NaN where [s] has no such label. *)
Definition reindex (labels : list cell) (s : list (cell * Q)) : list float :=
  (λ k, from_option Fin NaN (series_get k s)) <$> labels.

(** [pd.DataFrame({c1: s1, ..., ck: sk})] for columns of one length. *)
Definition DataFrame_of_dict (d : list (string * Series)) : DataFrame :=
  let n := from_option (λ cs, length cs.2) 0%nat (head d) in
  {| columns := d.*1;
     rows := foldl (λ rs cs, zip_with (λ (r : gmap string cell) v, <[cs.1 := v]> r) rs cs.2)
               (replicate n ∅) d |}.

(** [(x / m - 1) * 100] *)
Definition relative_strength_of (m x : float) : float :=
  fmul (fsub (fdiv x m) (Fin 1)) (Fin 100).

Definition month_names : list string :=
  ["Jan"; "Feb"; "Mar"; "Apr"; "May"; "Jun";
   "Jul"; "Aug"; "Sep"; "Oct"; "Nov"; "Dec"].

(** [range(n)] *)
Definition range (n : nat) : list Z := Z.of_nat <$> seq 0 n.



(** [_analyze_weekly_pattern]: the 'day_name' column is added to the
    caller's frame. *)
Definition _analyze_weekly_pattern (df : Ref) : SE Heap DataFrame :=
  ds ← col df "ds";
  names ← lift (mapR (dt_cell (CStr ∘ day_name)) ds);
  assign df "day_name" names;;
  d ← deref df;
  weekly_avg ← lift (groupby_mean "day_name" "y" d);
  let weekly_avg := reindex (CStr <$> day_order) weekly_avg in
  let weekly_pattern := DataFrame_of_dict [
    ("day", CStr <$> day_order);
    ("average_clicks", CFloat <$> weekly_avg);
    ("relative_strength",
       CFloat ∘ relative_strength_of (mean_skipna weekly_avg) <$> weekly_avg)
  ] in
  mret weekly_pattern.

(** [monthly_avg.get(i, 0)] *)
Definition get_or_0 (s : list (cell * Q)) (i : Z) : cell :=
  from_option (CFloat ∘ Fin) (CInt 0) (series_get (CInt i) s).

(** [_analyze_monthly_pattern] *)
Definition _analyze_monthly_pattern (df : DataFrame) : result DataFrame :=
  monthly_avg ← groupby_mean "month" "y" df;
  let monthly_mean := mean_skipna (Fin <$> monthly_avg.*2) in
  relative_strength ←
    mapR (λ i, x ← cell_float (get_or_0 monthly_avg (i + 1));
               Ok (CFloat (relative_strength_of monthly_mean x))) (range 12);
  Ok (DataFrame_of_dict [
    ("month", CStr <$> month_names);
    ("average_clicks", (λ i, get_or_0 monthly_avg (i + 1)) <$> range 12);
    ("relative_strength", relative_strength)
  ]).



(** ** Vocabulary of the statements about [fit] *)

Section Model_vocabulary.
Context `{ProphetLib} `{MetricsLib}.

(** [m] is the state of a model object that [_create_model] built and that
    was then fitted on the 'ds' and 'y' columns of [df]. *)
Definition fitted_on (self : TrafficProphetModel) (df : DataFrame) (m : Prophet) : Prop :=
  ∃ m0 ds_y, _create_model self = Ok m0 ∧ select ["ds"; "y"] df = Ok ds_y ∧
             Prophet_fit ds_y m0 = Done m.

(** [vm] holds the metrics of the model fitted on [train_df], computed from
    its forecast of the 'ds' column of [test_df]. *)
Definition validated_on (self : TrafficProphetModel) (train_df test_df : DataFrame)
    (vm : gmap string float) : Prop :=
  ∃ m ds test_forecast,
    fitted_on self train_df m ∧ select ["ds"] test_df = Ok ds ∧
    Prophet_predict ds m = Done test_forecast ∧
    validation_of (len train_df) test_forecast test_df = Ok vm.

End Model_vocabulary.

(** ** Vocabulary of the statements about [get_future_predictions] *)

(** The row is dated strictly after [m]. *)
Definition is_future (m : Timestamp) (r : gmap string cell) : bool :=
  match r !! "ds" with
  | Some (CTime t) => m <? t
  | _ => false
  end.

(** The row has a timestamp in column [c]. *)
Definition has_time (c : string) (r : gmap string cell) : Prop :=
  ∃ t, r !! c = Some (CTime t).

(** The row has a finite number in column [c]. *)
Definition has_num (c : string) (r : gmap string cell) : Prop :=
  ∃ v q, r !! c = Some v ∧ cell_num v = Ok q.


(** A row of a forecast: a date and three finite estimates. *)
Definition forecast_row (r : gmap string cell) : Prop :=
  has_time "ds" r ∧ has_num "yhat" r ∧ has_num "yhat_lower" r ∧ has_num "yhat_upper" r.

(** The number in column [c], rounded, as an int64 cell. *)
Definition rounded_at (c : string) (r : gmap string cell) : cell :=
  match r !! c with
  | Some v => match cell_num v with
              | Ok q => CInt (round_half_even q)
              | Raise _ => CInt 0
              end
  | None => CInt 0
  end.


(** ** Vocabulary of the statements about the preprocessor *)

(** The row with column [c] set to what [g] makes of the row. *)
Definition set_col (c : string) (g : gmap string cell → cell) (r : gmap string cell)
    : gmap string cell :=
  <[c := g r]> r.

(** The frame with column [c] set, row by row, to [g]. *)
Definition with_column (c : string) (g : gmap string cell → cell) (df : DataFrame)
    : DataFrame :=
  {| columns := add_column c (columns df);
     rows := set_col c g <$> rows df |}.

(** The cell that the elementwise operation [f] makes of column [c0]. *)
Definition cell_via (c0 : string) (f : cell → result cell) (r : gmap string cell)
    : cell :=
  match r !! c0 with
  | Some v => match f v with Ok w => w | Raise _ => CInt 0 end
  | None => CInt 0
  end.

(** The quotient of columns [c1] and [c2]. *)
Definition cell_div (c1 c2 : string) (r : gmap string cell) : cell :=
  match r !! c1, r !! c2 with
  | Some a, Some b => match div_cell a b with Ok w => w | Raise _ => CInt 0 end
  | _, _ => CInt 0
  end.

(** Column [c0] holds a cell on which [f] succeeds. *)
Definition col_ok (c0 : string) (f : cell → result cell) (r : gmap string cell) : Prop :=
  ∃ v w, r !! c0 = Some v ∧ f v = Ok w.

(** The timestamp in column 'ds' (0 when there is none). *)
Definition time_of (r : gmap string cell) : Timestamp :=
  match r !! "ds" with
  | Some (CTime t) => t
  | _ => 0
  end.

(** The rows in the order [sort_values "ds"] puts them in. *)
Definition sorted_by_ds (rs : list (gmap string cell)) : list (gmap string cell) :=
  (merge_sort key_le (zip (time_of <$> rs) rs)).*2.

(** Columns [c1] and [c2] hold numbers that can be divided. *)
Definition div_ok (c1 c2 : string) (r : gmap string cell) : Prop :=
  ∃ a b w, r !! c1 = Some a ∧ r !! c2 = Some b ∧ div_cell a b = Ok w.

(** Column [c] holds a float64 or an int64. *)
Definition has_float (c : string) (r : gmap string cell) : Prop :=
  ∃ v x, r !! c = Some v ∧ cell_float v = Ok x.

(** What [_add_features] needs of a row. *)
Definition base_row_ok (r : gmap string cell) : Prop :=
  has_time "ds" r ∧ has_float "y" r ∧ has_float "Impressions" r ∧
  has_float "position" r.

(** The row [_add_features] makes of a row: its eleven assignments, the
    first innermost. *)
Definition features_row (r : gmap string cell) : gmap string cell :=
  set_col "position_impact" (cell_via "position" (div_cell (CInt 1)))
    (set_col "clicks_per_impression" (cell_div "y" "Impressions")
    (set_col "is_month_start"
       (cell_via "ds" (λ v, dt_cell (CBool ∘ is_month_start) v ≫= astype_int_cell))
    (set_col "is_month_end"
       (cell_via "ds" (λ v, dt_cell (CBool ∘ is_month_end) v ≫= astype_int_cell))
    (set_col "is_weekend"
       (cell_via "day_of_week" (λ v, ge_cell 5 v ≫= astype_int_cell))
    (set_col "year" (cell_via "ds" (dt_cell (CInt ∘ dt_year)))
    (set_col "quarter" (cell_via "ds" (dt_cell (CInt ∘ dt_quarter)))
    (set_col "month" (cell_via "ds" (dt_cell (CInt ∘ dt_month)))
    (set_col "week_of_year" (cell_via "ds" (dt_cell (CInt ∘ iso_week)))
    (set_col "day_of_month" (cell_via "ds" (dt_cell (CInt ∘ dt_day)))
    (set_col "day_of_week" (cell_via "ds" (dt_cell (CInt ∘ dayofweek))) r)))))))))).

Definition features_columns (cols : list string) : list string :=
  foldl (λ cs c, add_column c cs) cols
    ["day_of_week"; "day_of_month"; "week_of_year"; "month"; "quarter"; "year";
     "is_weekend"; "is_month_end"; "is_month_start"; "clicks_per_impression";
     "position_impact"].

Section Preprocessor_vocabulary.
Context `{Pandas}.

(** What [process] needs of a row of its input: a date that parses, numbers
    for clicks, impressions and position, and a string for the rate. *)
Definition raw_row_ok (r : gmap string cell) : Prop :=
  col_ok "Date" to_datetime_cell r ∧ has_float "Clicks" r ∧
  has_float "Impressions" r ∧ (∃ s, r !! "CTR" = Some (CStr s)) ∧
  has_float "Position" r.

(** 'CTR' as a fraction: the percent sign stripped, parsed, over 100. *)
Definition ctr_of (v : cell) : result cell :=
  (str_rstrip_cell "%" v ≫= to_numeric_cell) ≫= λ c, div_cell c (CInt 100).

(** The row [process] makes of an input row before it sorts: its four
    assignments, the first innermost. *)
Definition base_row (r : gmap string cell) : gmap string cell :=
  set_col "position" (cell_via "Position" Ok)
    (set_col "ctr" (cell_via "CTR" ctr_of)
    (set_col "y" (cell_via "Clicks" Ok)
    (set_col "ds" (cell_via "Date" to_datetime_cell) r))).

Definition base_columns (cols : list string) : list string :=
  foldl (λ cs c, add_column c cs) cols ["ds"; "y"; "ctr"; "position"].

End Preprocessor_vocabulary.

(** Running [m] changes no frame that is in the store, whatever the outcome,
    and a value it returns satisfies [Q]. *)
Definition keeps {A} (l : Ref) (m : SE Heap A) (Q : A → Prop) : Prop :=
  ∀ h : Heap, is_Some (h !! l) →
    (m h).2 !! l = h !! l ∧ ∀ a, (m h).1 = Ok a → Q a.




(** ** Example data *)

(** A frame from its column names and its rows of cells. *)
Definition table (cols : list string) (data : list (list cell)) : DataFrame :=
  {| columns := cols;
     rows := (λ cells, list_to_map (zip cols cells)) <$> data |}.

(** Midnight of day number [d]. *)
Definition midnight (d : Z) : Timestamp := d * ns_per_day.

(** Four days of traffic, as exported: not in date order. *)
Definition example_csv : DataFrame :=
  table ["Date"; "Clicks"; "Impressions"; "CTR"; "Position"]
    [ [CStr "2024-01-07"; CInt 120; CInt 1000; CStr "12%"; CFloat (Fin (35 # 10))];
      [CStr "2024-01-05"; CInt 80; CInt 900; CStr "8.9%"; CFloat (Fin 4)];
      [CStr "2024-01-06"; CInt 95; CInt 950; CStr "10%"; CFloat (Fin 2)];
      [CStr "2024-01-08"; CInt 60; CInt 500; CStr "12%"; CFloat (Fin 8)] ].


(** A pandas that knows one file and parses the strings of the examples. *)
Definition example_pandas : Pandas := {|
  path_exists p := bool_decide (p = "traffic.csv");
  read_csv p :=
    if decide (p = "traffic.csv") then Done example_csv
    else Fails "No such file or directory";
  to_datetime s :=
    match list_to_map (M := gmap string Z)
            [("2024-01-05", 19727); ("2024-01-06", 19728);
             ("2024-01-07", 19729); ("2024-01-08", 19730)] !! s with
    | Some d => Done (midnight d)
    | None => Fails "Unknown datetime string format"
    end;
  to_numeric_coerce s :=
    match list_to_map (M := gmap string Q)
            [("12", 12 # 1); ("8.9", 89 # 10); ("10", 10 # 1); ("0", 0 # 1)] !! s with
    | Some q => Fin q
    | None => NaN
    end
|}.


Definition example_heap (df : DataFrame) : Heap := {[ 1%positive := df ]}.


(** ** Vocabulary of the statements about z-scores *)

(** The finite number in column [c] (0 when there is none). *)
Definition num_of (c : string) (r : gmap string cell) : Q :=
  match r !! c with
  | Some v => match cell_num v with Ok q => q | Raise _ => 0%Q end
  | None => 0%Q
  end.

(** The cell in column [c] (an int64 0 when there is none). *)
Definition cell_at (c : string) (r : gmap string cell) : cell :=
  default (CInt 0) (r !! c).

(** The variance with [ddof] degrees of freedom removed. *)
Definition variance (ddof : nat) (l : list R) : R :=
  (ssd l / INR (length l - ddof))%R.

(** The population standard deviation: the square root of the mean squared
    deviation from the mean. *)
Definition population_std (l : list R) : R := sqrt (variance 0 l).

(** |y - mean| / std, with the population standard deviation. *)
Definition abs_zscore (l : list R) (y : R) : R :=
  (Rabs (y - Rmean l) / population_std l)%R.

(** The z-score of [y] is a number, and its absolute value exceeds [T]. *)
Definition is_anomalous (l : list R) (T : R) (y : R) : Prop :=
  population_std l ≠ 0%R ∧ (T < abs_zscore l y)%R.




#[global] Instance is_anomalous_dec (l : list R) (T y : R) :
  Decision (is_anomalous l T y).
Proof. unfold is_anomalous. apply _. Defined.



(** Eleven days of steady traffic with one busier day at the end. *)
Definition example_series : DataFrame :=
  table ["ds"; "y"]
    ((λ dy : Z * Z, [CTime (midnight dy.1); CInt dy.2]) <$>
       [(19723, 100); (19724, 101); (19725, 100); (19726, 101); (19727, 100);
        (19728, 101); (19729, 100); (19730, 101); (19731, 100); (19732, 101);
        (19733, 106)]).


(** ** Vocabulary of the statements about the weekly and monthly patterns *)

(** The average of 'y' over the rows whose key is [k]. *)
Definition group_average (key : gmap string cell → cell) (k : cell)
    (rs : list (gmap string cell)) : Q :=
  Qmean (num_of "y" <$> filter (λ r, key r = k) rs).

(** The keys that occur, each once, in the order they first occur. *)
Definition group_keys (key : gmap string cell → cell) (rs : list (gmap string cell))
    : list cell :=
  remove_dups (key <$> rs).


(** The mean of 'y' over all the rows. *)
Definition overall_mean (rs : list (gmap string cell)) : Q :=
  Qmean (num_of "y" <$> rs).

(** The name of the weekday of the row's date, as a cell. *)
Definition weekday_key (r : gmap string cell) : cell := CStr (day_name (time_of r)).

(** The row's 'month' cell. *)
Definition month_key : gmap string cell → cell := cell_at "month".


(** Eight days, a Monday to the Monday after, with quiet Mondays. *)
Definition example_week : DataFrame :=
  table ["ds"; "y"; "month"]
    ((λ dy : Z * Z, [CTime (midnight dy.1); CInt dy.2; CInt 1]) <$>
       [(19723, 10); (19724, 20); (19725, 20); (19726, 20); (19727, 20);
        (19728, 20); (19729, 20); (19730, 10)]).

(** Three days of January and one of February. *)
Definition example_months : DataFrame :=
  table ["ds"; "y"; "month"]
    [ [CTime (midnight 19723); CInt 10; CInt 1];
      [CTime (midnight 19724); CInt 10; CInt 1];
      [CTime (midnight 19725); CInt 10; CInt 1];
      [CTime (midnight 19754); CInt 30; CInt 2] ].

(** The average reported for a weekday: NaN when the weekday does not
    occur. *)
Definition weekday_average (rs : list (gmap string cell)) (k : cell) : float :=
  if decide (k ∈ weekday_key <$> rs) then Fin (group_average weekday_key k rs) else NaN.

(** The weekly pattern, from the averages of the seven weekdays. *)
Definition weekly_pattern_of (rs : list (gmap string cell)) : DataFrame :=
  let weekly_avg := weekday_average rs <$> (CStr <$> day_order) in
  DataFrame_of_dict [
    ("day", CStr <$> day_order);
    ("average_clicks", CFloat <$> weekly_avg);
    ("relative_strength",
       CFloat ∘ relative_strength_of (mean_skipna weekly_avg) <$> weekly_avg)
  ].

(** The average reported for month [i]: 0 when the month does not occur. *)
Definition month_average (rs : list (gmap string cell)) (i : Z) : cell :=
  if decide (CInt i ∈ month_key <$> rs)
  then CFloat (Fin (group_average month_key (CInt i) rs))
  else CInt 0.

(** The monthly pattern, from the averages of the twelve months. *)
Definition monthly_pattern_of (rs : list (gmap string cell)) : DataFrame :=
  let monthly_mean :=
    mean_skipna (Fin <$> ((λ k, group_average month_key k rs) <$> group_keys month_key rs)) in
  DataFrame_of_dict [
    ("month", CStr <$> month_names);
    ("average_clicks", (λ i, month_average rs (i + 1)) <$> range 12);
    ("relative_strength",
       (λ i, CFloat (relative_strength_of monthly_mean
                       (match month_average rs (i + 1) with
                        | CFloat x => x
                        | _ => Fin 0
                        end))) <$> range 12)
  ].

(** ** Example libraries *)

(** A forecasting library whose model is the frame it was last fitted on,
    and which forecasts 100, between 90 and 110, for every date it is
    asked; it has no diagnostics. *)
Definition example_prophet : ProphetLib := {|
  Prophet := option DataFrame;
  Prophet_new _ := Done None;
  add_seasonality _ _ _ m := Done m;
  Prophet_fit df _ := Done (Some df);
  make_future_dataframe _ _ := Fails "no history";
  Prophet_predict df _ :=
    Done {| columns := (columns df ++ ["yhat"; "yhat_lower"; "yhat_upper"])%list;
            rows := (λ r, <["yhat_upper" := CFloat (Fin 110)]>
                            (<["yhat_lower" := CFloat (Fin 90)]>
                               (<["yhat" := CFloat (Fin 100)]> r))) <$> rows df |};
  cross_validation _ _ _ _ := Fails "less data than the horizon";
  performance_metrics df := Done df
|}.

(** Metrics that find no error at all; the square root is exact on the
    squares of integers. *)
Definition example_metrics : MetricsLib := {|
  np_mean_abs_sub _ _ := Done (Fin 0);
  mean_absolute_percentage_error _ _ := Done (Fin 0);
  mean_squared_error _ _ := Done (Fin 0);
  np_sqrt x :=
    match x with
    | Fin q => if Qltb q 0 then NaN else Fin (inject_Z (Z.sqrt (Qfloor q)))
    | PInf => PInf
    | _ => NaN
    end
|}.

(** A forecast of three days: the last day of [example_series] and the two
    days after it. *)
Definition example_forecast : DataFrame :=
  table ["ds"; "yhat"; "yhat_lower"; "yhat_upper"]
    [ [CTime (midnight 19733); CFloat (Fin (1049 # 10)); CFloat (Fin 95); CFloat (Fin 115)];
      [CTime (midnight 19734); CFloat (Fin (1005 # 10)); CFloat (Fin (903 # 10));
       CFloat (Fin (1107 # 10))];
      [CTime (midnight 19735); CFloat (Fin (1015 # 10)); CFloat (Fin (-5 # 10));
       CFloat (Fin (1125 # 10))] ].

(** ** Example objects *)

(** The loader of the one file [example_pandas] knows. *)
Definition example_loader : TrafficDataLoader := {| file_path := "traffic.csv" |}.

(** A model object as [__init__] leaves it, with the default configuration,
    and the same object after [fit] on [example_series]. *)
Definition example_model : TrafficProphetModel (H := example_prophet) :=
  TrafficProphetModel_init Config_default.

Definition example_fitted : TrafficProphetModel (H := example_prophet) :=
  (fit (H := example_prophet) (H0 := example_metrics) example_series example_model).2.

(** ** Arithmetic of labelled Series

    [_validate] subtracts two Series that carry different labels. pandas
    aligns the operands of a binary operation on their labels: the result
    has the union of the labels, and NaN at a label that one operand lacks.
    [np.abs] keeps the labels, and [np.mean] of a Series is its [mean()],
    which skips NaN. *)

(** The absolute value of a float64. *)
Definition fabs (x : float) : float :=
  match x with
  | Fin q => Fin (Qabs q)
  | PInf | NInf => PInf
  | NaN => NaN
  end.

(** The entry labelled [i]. *)
Definition label_get (i : nat) (s : list (nat * float)) : option float :=
  (list_to_map s : gmap nat float) !! i.

(** [a - b] for two float64 Series. (pandas sorts the labels of the result
    when the operands differ in them; a mean does not depend on the
    order.) *)
Definition series_sub_aligned (a b : list (nat * float)) : list (nat * float) :=
  (λ i, (i, match label_get i a, label_get i b with
            | Some x, Some y => fsub x y
            | _, _ => NaN
            end)) <$> remove_dups (a.*1 ++ b.*1).

(** [np.mean(np.abs(a - b))] for two Series of numbers. *)
Definition pandas_mean_abs_sub (a b : list (nat * cell)) : lib float :=
  match mapR cell_float a.*2, mapR cell_float b.*2 with
  | Ok xs, Ok ys =>
      Done (mean_skipna
              (fabs <$> (series_sub_aligned (zip a.*1 xs) (zip b.*1 ys)).*2))
  | _, _ => Fails "unsupported operand type(s) for -"
  end.

(** The metrics of [example_metrics], with numpy's mean of the absolute
    difference. *)
Definition pandas_metrics : MetricsLib := {|
  np_mean_abs_sub := pandas_mean_abs_sub;
  mean_absolute_percentage_error := mean_absolute_percentage_error (MetricsLib := example_metrics);
  mean_squared_error := mean_squared_error (MetricsLib := example_metrics);
  np_sqrt := np_sqrt (MetricsLib := example_metrics)
|}.

(** [example_model] after [fit] on [example_series], with [pandas_metrics]. *)
Definition example_validated : TrafficProphetModel (H := example_prophet) :=
  (fit (H := example_prophet) (H0 := pandas_metrics) example_series example_model).2.

(** ** The calendar, day by day *)

(** The date after (year, month, day). *)
Definition next_date (ymd : Z * Z * Z) : Z * Z * Z :=
  let '(y, m, d) := ymd in
  if d <? days_in_month y m then (y, m, d + 1)
  else if m <? 12 then (y, m + 1, 1)
  else (y + 1, 1, 1).

(** [civil_of_days] works in eras of 400 years (146097 days) that start on a
    first of March. Year [y] of an era, counted from 0, ends with a 29th of
    February when [leap_end y]. *)
Definition leap_end (y : Z) : Prop :=
  (y + 1) mod 4 = 0 ∧ ((y + 1) mod 100 ≠ 0 ∨ y = 399).

#[global] Instance leap_end_dec (y : Z) : Decision (leap_end y).
Proof. unfold leap_end. apply _. Defined.

(** The first day of year [y] of the era. *)
Definition era_year_start (y : Z) : Z := 365 * y + y / 4 - y / 100.

(** [doy] is day [doe] of the era, counted within its year [yoe]. *)
Definition in_era_year (doe yoe doy : Z) : Prop :=
  0 ≤ yoe ≤ 399 ∧ doy = doe - era_year_start yoe ∧
  0 ≤ doy ≤ 365 ∧ (doy = 365 → leap_end yoe).

(** The date of day [doy] of year [yoe] of era [era]. *)
Definition date_in_era (era yoe doy : Z) : Z * Z * Z :=
  let mp := (5 * doy + 2) / 153 in
  let d := doy - (153 * mp + 2) / 5 + 1 in
  let m := if mp <? 10 then mp + 3 else mp - 9 in
  let y := yoe + era * 400 + (if m <=? 2 then 1 else 0) in
  (y, m, d).

(** ** Vocabulary of the statements about the processed table *)

(** The columns [process] adds, in the order it adds them. *)
Definition processed_columns : list string :=
  ["ds"; "y"; "ctr"; "position"; "day_of_week"; "day_of_month"; "week_of_year";
   "month"; "quarter"; "year"; "is_weekend"; "is_month_end"; "is_month_start";
   "clicks_per_impression"; "position_impact"].

(** The characters of a string. *)
Fixpoint chars (s : string) : list ascii :=
  match s with
  | EmptyString => []
  | String a s' => a :: chars s'
  end.

(** ** Growth metrics (src/analyzer.py) *)

(** [s.mean()] for a column of finite numbers: NaN for an empty column. *)
Definition series_mean (s : Series) : result float :=
  ys ← mapR cell_num s;
  Ok (mean_skipna (Fin <$> ys)).

(** The month of [t] as [to_period('M')] numbers the months: 0 is January
    1970. *)
Definition to_period_M (t : Timestamp) : Z := (dt_year t - 1970) * 12 + (dt_month t - 1).

(** [.dt.to_period('M')] on one entry. *)
Definition period_cell (c : cell) : result Z :=
  match c with
  | CTime t => Ok (to_period_M t)
  | _ => Raise (AttributeError "Can only use .dt accessor with datetimelike values")
  end.

(** [df.groupby(df['ds'].dt.to_period('M'))['y'].mean()]: one entry per
    month that occurs, in the order of the months. *)
Definition groupby_period_mean (df : DataFrame) : result (list (Z * Q)) :=
  periods ← getcol "ds" df ≫= mapR period_cell;
  vals ← getcol "y" df ≫= mapR cell_num;
  Ok ((λ k, (k, Qmean (filter (λ kv : Z * Q, kv.1 = k) (zip periods vals)).*2)) <$>
        merge_sort Z.le (remove_dups periods)).

(** [s.pct_change()]: the change from the entry before, as a fraction of
    it; the first entry has none. *)
Definition pct_change (xs : list float) : list float :=
  match xs with
  | [] => []
  | _ :: rest => NaN :: zip_with (λ prev x, fsub (fdiv x prev) (Fin 1)) xs rest
  end.

(** The dict that [_calculate_growth_metrics] returns. *)
Record GrowthMetrics := {
  total_growth_pct : float;
  avg_monthly_growth_pct : float;
  first_30_days_avg : float;
  last_30_days_avg : float
}.

(** [_calculate_growth_metrics] *)
Definition _calculate_growth_metrics (df : DataFrame) : result GrowthMetrics :=
  first_30_days ← getcol "y" (iloc_to 30 df) ≫= series_mean;
  last_30_days ← getcol "y" (iloc_from (-30) df) ≫= series_mean;
  monthly_growth ← groupby_period_mean df;
  let avg_monthly_growth := mean_skipna (pct_change (Fin <$> monthly_growth.*2)) in
  Ok {| total_growth_pct := fmul (fsub (fdiv last_30_days first_30_days) (Fin 1)) (Fin 100);
        avg_monthly_growth_pct := fmul avg_monthly_growth (Fin 100);
        first_30_days_avg := first_30_days;
        last_30_days_avg := last_30_days |}.

(** ** Further example tables *)


(** [example_series] with the 'day_name' column the analyzer adds. *)
Definition example_named : DataFrame :=
  with_column "day_name" (cell_via "ds" (dt_cell (CStr ∘ day_name))) example_series.

(** [example_csv] as [process] hands it to [_add_features], before the
    sort. *)
Definition example_base : DataFrame :=
  {| columns := base_columns (columns example_csv);
     rows := base_row (H := example_pandas) <$> rows example_csv |}.
(* ================================================================== *)
(** * Part II. Theorems                                                *)
(* ================================================================== *)

(** ** Lists of results, columns of frames *)

Lemma mapR_Ok {A B} (f : A → result B) (l : list A) (k : list B) :
  mapR f l = Ok k ↔ Forall2 (λ x y, f x = Ok y) l k.
Proof.
  unfold mapR. revert k. induction l as [|x l IH]; intros k; cbn.
  - split; [intros [= <-]; constructor | by inversion 1].
  - destruct (f x) as [y|e] eqn:Hfx; cbn.
    + destruct (mapM f l) as [k'|e] eqn:Hl; cbn.
      * split.
        -- intros [= <-]. constructor; [done | by apply IH].
        -- inversion 1 as [|? y' ? k'' Hy Hk]; subst.
           apply IH in Hk. unfold mret, result_ret. congruence.
      * split; [done|]. inversion 1 as [|? y' ? k'' Hy Hk]; subst.
        apply IH in Hk. discriminate.
    + split; [done|]. inversion 1; congruence.
Qed.

Lemma mapR_total {A B} (f : A → result B) (g : A → B) (l : list A) :
  Forall (λ x, f x = Ok (g x)) l → mapR f l = Ok (g <$> l).
Proof.
  intros Hl. apply mapR_Ok. induction Hl; cbn; by constructor.
Qed.

Lemma mapR_length {A B} (f : A → result B) (l : list A) (k : list B) :
  mapR f l = Ok k → length k = length l.
Proof. intros Hk%mapR_Ok. symmetry. by eapply Forall2_length. Qed.

Lemma getcol_Ok (c : string) (df : DataFrame) (s : Series) :
  getcol c df = Ok s ↔
  c ∈ columns df ∧ Forall2 (λ (r : gmap string cell) v, r !! c = Some v) (rows df) s.
Proof.
  unfold getcol. case_decide as Hc.
  - destruct (mapM _ (rows df)) as [s'|] eqn:Hs; cbn.
    + split.
      * intros [= <-]. by apply mapM_Some in Hs.
      * intros [_ Hs']. apply mapM_Some in Hs'.
        cut (Some s' = Some s); [by intros [= ->] |].
        etrans; [symmetry; exact Hs | exact Hs'].
    + split; [done|]. intros [_ Hs'%mapM_Some].
      cut (@None (list cell) = Some s); [done|].
      etrans; [symmetry; exact Hs | exact Hs'].
  - split; [done | tauto].
Qed.

Lemma getcol_total (c : string) (df : DataFrame) (g : gmap string cell → cell) :
  c ∈ columns df →
  Forall (λ r : gmap string cell, r !! c = Some (g r)) (rows df) →
  getcol c df = Ok (g <$> rows df).
Proof.
  intros Hc Hrows. apply getcol_Ok. split; [done|].
  induction Hrows; cbn; by constructor.
Qed.

Lemma getcol_length (c : string) (df : DataFrame) (s : Series) :
  getcol c df = Ok s → length s = len df.
Proof. intros [_ Hs]%getcol_Ok. symmetry. by eapply Forall2_length. Qed.

(** Assigning a column computed row by row. *)
Lemma setcol_fmap (c : string) (df : DataFrame) (g : gmap string cell → cell) :
  setcol c (g <$> rows df) df =
    Ok {| columns := add_column c (columns df);
          rows := (λ r, <[c := g r]> r) <$> rows df |}.
Proof.
  unfold setcol, len. rewrite length_fmap. case_decide; [|done].
  do 2 f_equal. induction (rows df) as [|r l IH]; cbn; [done | by rewrite IH].
Qed.

Lemma mask_filter_fmap {A} (f : A → bool) (l : list A) :
  mask_filter (f <$> l) l = filter (λ x, f x) l.
Proof.
  induction l as [|x l IH]; [done|].
  rewrite fmap_cons. cbn [mask_filter]. rewrite IH.
  destruct (f x) eqn:Hfx.
  - rewrite filter_cons_True; [done | by apply Is_true_true].
  - rewrite filter_cons_False; [done | by apply Is_true_false].
Qed.

Lemma project_row_lookup (cs : list string) (r : gmap string cell) (k : string) :
  project_row cs r !! k = if decide (k ∈ cs) then r !! k else None.
Proof.
  unfold project_row. rewrite map_lookup_filter.
  destruct (r !! k) as [v|] eqn:Hk; cbn; [|by case_decide].
  case_decide.
  - by rewrite option_guard_True.
  - by rewrite option_guard_False.
Qed.

Lemma select_Ok (cs : list string) (df : DataFrame) :
  cs ⊆ columns df →
  select cs df = Ok {| columns := cs; rows := project_row cs <$> rows df |}.
Proof.
  intros Hcs. unfold select.
  destruct (list_find _ cs) as [[i c]|] eqn:Hfind; [|done].
  apply list_find_Some in Hfind as (Hi & Hc & _).
  destruct Hc. apply Hcs. by eapply list_elem_of_lookup_2.
Qed.

(** ** The loader *)

Section Loader_spec.
Context `{Pandas}.

Lemma load_unfold (self : TrafficDataLoader) (df : DataFrame) :
  read_csv (file_path self) = Done df →
  load self =
    if decide (list_to_set required_columns ∖ list_to_set (columns df) ≠@{gset string} ∅)
    then Raise (ValueError_missing
                  (list_to_set required_columns ∖ list_to_set (columns df)))
    else Ok df.
Proof. intros Hcsv. unfold load. rewrite Hcsv. reflexivity. Qed.

Lemma missing_columns_spec (cols : list string) :
  list_to_set required_columns ∖ list_to_set cols ≠@{gset string} ∅ ↔
  ∃ c, c ∈ required_columns ∧ c ∉ cols.
Proof.
  split.
  - intros Hne. apply set_choose_L in Hne as [c Hc].
    exists c. set_solver.
  - intros (c & Hreq & Hcol) Hempty.
    assert (c ∈@{gset string} list_to_set required_columns ∖ list_to_set cols)
      as Hin by set_solver.
    rewrite Hempty in Hin. set_solver.
Qed.

(** C3. [load] raises ValueError exactly when one of 'Date', 'Clicks',
    'Impressions', 'CTR', 'Position' is not a column of the table that was
    read; when the five are there, it returns that table as it is. *)
Theorem load_raises_iff_column_missing (self : TrafficDataLoader) (df : DataFrame) :
  read_csv (file_path self) = Done df →
  ((∃ e, load self = Raise e ∧ is_ValueError e = true) ↔
   (∃ c, c ∈ ["Date"; "Clicks"; "Impressions"; "CTR"; "Position"] ∧ c ∉ columns df))
  ∧ ((∀ c, c ∈ ["Date"; "Clicks"; "Impressions"; "CTR"; "Position"] → c ∈ columns df) →
     load self = Ok df).
Proof.
  intros Hcsv. rewrite (load_unfold _ _ Hcsv).
  change ["Date"; "Clicks"; "Impressions"; "CTR"; "Position"] with required_columns.
  pose proof (missing_columns_spec (columns df)) as Hspec.
  case_decide as Hmiss.
  - split.
    + split; [intros _; by apply Hspec | intros _; eexists; split; [reflexivity | done]].
    + intros Hall. apply Hspec in Hmiss as (c & Hreq & Hcol). by destruct Hcol; apply Hall.
  - split; [| done].
    split.
    + intros (e & Heq & _). discriminate.
    + intros Hex. by apply Hspec in Hex.
Qed.

End Loader_spec.

(** ** The forecast model wrapper: fitting *)

Ltac se_unfold :=
  unfold mbind, SE_bind, mret, SE_ret, call, lift, get, put, set_model,
    set_validation_metrics, store, new_frame, deref in *.

Lemma floor_0_8 (n : Z) : Qfloor ((8 # 10) * inject_Z n) = int_mul_0_8 n.
Proof.
  unfold int_mul_0_8, Qfloor, Qmult, inject_Z. cbn [Qnum Qden].
  change (Z.pos (10 * 1)) with 10.
  rewrite <- (Z.div_mul_cancel_r (n * 4) 5 2) by lia.
  f_equal. lia.
Qed.

Section Model_fit_spec.
Context `{ProphetLib} `{MetricsLib}.


Lemma fitted_on_inj self df m m' : fitted_on self df m → fitted_on self df m' → m = m'.
Proof. intros (?&?&?&?&?) (?&?&?&?&?). congruence. Qed.

Lemma fit_inv self df self' :
  fit df self = (Ok tt, self') →
  let train_df := (_split_data self df).1 in
  let test_df := (_split_data self df).2 in
  config self' = config self ∧
  (∃ m, fitted_on self df m ∧ model self' = Some m) ∧
  (∃ m, fitted_on self train_df m) ∧
  (if decide (0 < len test_df)%nat
   then validated_on self train_df test_df (validation_metrics self')
   else validation_metrics self' = validation_metrics self).
Proof.
  unfold fit, _validate. se_unfold. cbv beta iota.
  destruct (_split_data self df) as [train_df test_df] eqn:Hsplit.
  cbn [fst snd]. intros Hfit.
  destruct (_create_model self) as [m0|] eqn:Hm0; cbv beta iota in Hfit; [|discriminate].
  destruct (select ["ds"; "y"] train_df) as [tr|] eqn:Htr; cbv beta iota in Hfit; [|discriminate].
  destruct (Prophet_fit tr m0) as [m1|] eqn:Hm1; cbv beta iota in Hfit; [|discriminate].
  cbn [from_lib] in Hfit.
  assert (fitted_on self train_df m1) as Htrain by (by exists m0, tr).
  destruct (decide (0 < len test_df)%nat) as [Hpos|Hpos].
  - cbn [model or_raise] in Hfit.
    destruct (select ["ds"] test_df) as [ds|] eqn:Hds; cbv beta iota in Hfit; [|discriminate].
    destruct (Prophet_predict ds m1) as [fc|] eqn:Hfc; cbv beta iota in Hfit; [|discriminate].
    cbn [from_lib] in Hfit.
    destruct (validation_of (len train_df) fc test_df) as [vm|] eqn:Hvm;
      cbv beta iota in Hfit; [|discriminate].
    destruct (select ["ds"; "y"] df) as [full|] eqn:Hfull; cbv beta iota in Hfit; [|discriminate].
    destruct (Prophet_fit full m0) as [m2|] eqn:Hm2; cbv beta iota in Hfit; [|discriminate].
    cbn in Hfit. inversion Hfit; subst self'; clear Hfit. cbn.
    split; [done|]. split; [exists m2; split; [by exists m0, full | done] |].
    split; [by exists m1 |]. by exists m1, ds, fc.
  - destruct (select ["ds"; "y"] df) as [full|] eqn:Hfull; cbv beta iota in Hfit; [|discriminate].
    destruct (Prophet_fit full m0) as [m2|] eqn:Hm2; cbv beta iota in Hfit; [|discriminate].
    cbn in Hfit. inversion Hfit; subst self'; clear Hfit. cbn.
    split; [done|]. split; [exists m2; split; [by exists m0, full | done] |].
    split; [by exists m1 | done].
Qed.

Lemma fit_intro self df m vm :
  let train_df := (_split_data self df).1 in
  let test_df := (_split_data self df).2 in
  fitted_on self df m →
  (∃ m1, fitted_on self train_df m1) →
  (if decide (0 < len test_df)%nat
   then validated_on self train_df test_df vm
   else vm = validation_metrics self) →
  fit df self = (Ok tt, {| config := config self; model := Some m;
                           validation_metrics := vm |}).
Proof.
  unfold fit, _validate. se_unfold. cbv beta iota.
  destruct (_split_data self df) as [train_df test_df] eqn:Hsplit.
  cbn [fst snd].
  intros (m0 & full & Hm0 & Hfull & Hm) (m1 & m0' & tr & Hm0' & Htr & Hm1) Hval.
  rewrite Hm0 in Hm0' |- *. injection Hm0' as <-.
  rewrite Htr, Hm1. cbn [from_lib].
  destruct (decide (0 < len test_df)%nat) as [Hpos|Hpos].
  - destruct Hval as (m1' & ds & fc & Hfit1 & Hds & Hfc & Hvm).
    assert (m1' = m1) as -> by (eapply fitted_on_inj; [done | by exists m0, tr]).
    cbn [model or_raise]. rewrite Hds, Hfc. cbn [from_lib]. rewrite Hvm, Hfull, Hm.
    reflexivity.
  - subst vm. rewrite Hfull, Hm. reflexivity.
Qed.


End Model_fit_spec.

(** ** The forecast model wrapper: the not-fitted guard *)

Section Model_guard_spec.
Context `{ProphetLib} `{MetricsLib}.

Lemma predict_fitted (self : TrafficProphetModel) (m : Prophet) (periods : Z) :
  model self = Some m →
  predict periods self =
    (from_lib (make_future_dataframe periods m) ≫= λ future,
       from_lib (Prophet_predict future m), self).
Proof.
  intros Hm. unfold predict. se_unfold. cbv beta iota. rewrite Hm.
  destruct (make_future_dataframe periods m) as [future|]; cbn; [|done].
  by destruct (Prophet_predict future m).
Qed.

Lemma cross_validate_fitted (self : TrafficProphetModel) (m : Prophet)
    (initial_days period_days horizon_days : Z) :
  model self = Some m →
  cross_validate initial_days period_days horizon_days self =
    (cv_results ← from_lib (cross_validation m
                             (pretty initial_days +:+ " days")
                             (pretty period_days +:+ " days")
                             (pretty horizon_days +:+ " days"));
     metrics_df ← from_lib (performance_metrics cv_results);
     _ ← getcol "mape" metrics_df;
     _ ← getcol "coverage" metrics_df;
     Ok cv_results, self).
Proof.
  intros Hm. unfold cross_validate. se_unfold. cbv beta iota. rewrite Hm.
  destruct (cross_validation _ _ _ _) as [cv|]; cbn; [|done].
  destruct (performance_metrics cv) as [md|]; cbn; [|done].
  destruct (getcol "mape" md); cbn; [|done].
  by destruct (getcol "coverage" md).
Qed.



End Model_guard_spec.

(** ** Rounding *)

Lemma Qltb_lt (x y : Q) : Qltb x y = true ↔ (x < y)%Q.
Proof.
  unfold Qltb. rewrite negb_true_iff. split.
  - intros Hb. apply Qnot_le_lt. intros Hle%Qle_bool_iff. congruence.
  - intros Hlt. destruct (Qle_bool y x) eqn:Hb; [|done].
    apply Qle_bool_iff in Hb. by apply Qlt_not_le in Hlt.
Qed.




Lemma round_half_even_inject_Z (z : Z) : round_half_even (inject_Z z) = z.
Proof.
  unfold round_half_even. rewrite Qfloor_Z.
  replace (Qltb (inject_Z z - inject_Z z) (1 # 2)) with true; [done|].
  symmetry. apply Qltb_lt. lra.
Qed.

(** ** Future predictions *)

Lemma foldl_max_spec (a : Z) (l : list Z) :
  let m := foldl Z.max a l in
  (m = a ∨ m ∈ l) ∧ a ≤ m ∧ ∀ t, t ∈ l → t ≤ m.
Proof.
  revert a. induction l as [|x l IH]; intros a; cbn.
  - split; [by left|]. split; [lia|]. intros t Ht. by apply elem_of_nil in Ht.
  - destruct (IH (Z.max a x)) as (Hin & Hge & Hall).
    split; [|split; [lia|]].
    + destruct Hin as [Heq|Hin]; [|right; by right].
      rewrite Heq. destruct (Z.max_spec a x) as [[_ ->]|[_ ->]];
        [right; by left | by left].
    + intros t [->|Ht]%elem_of_cons; [lia | by apply Hall].
Qed.

Lemma series_max_spec (l : list Timestamp) :
  l ≠ [] → ∃ m, series_max l = Some m ∧ m ∈ l ∧ ∀ t, t ∈ l → t ≤ m.
Proof.
  destruct l as [|a l]; [done|]. intros _. cbn.
  destruct (foldl_max_spec a l) as (Hin & Hge & Hall).
  eexists. split; [done|]. split.
  - destruct Hin as [->|Hin]; [by left | by right].
  - intros t [->|Ht]%elem_of_cons; [done | by apply Hall].
Qed.

Lemma round_astype_int_cell (v : cell) (q : Q) :
  cell_num v = Ok q →
  round_cell v ≫= astype_int_cell = Ok (CInt (round_half_even q)).
Proof.
  destruct v as [z|[q'| | |]| | |]; cbn; try done; intros [= <-].
  - by rewrite round_half_even_inject_Z.
  - by rewrite Z.quot_1_r.
Qed.

Lemma round_astype_int_Ok (s : Series) (k : Series) :
  Forall2 (λ v o, ∃ q, cell_num v = Ok q ∧ o = CInt (round_half_even q)) s k →
  round_astype_int s = Ok k.
Proof.
  intros Hsk. unfold round_astype_int.
  assert (∃ mid, mapR round_cell s = Ok mid ∧ mapR astype_int_cell mid = Ok k)
    as (mid & -> & Hk); [|done].
  induction Hsk as [|v o s k (q & Hq & ->) _ (mid & Hmid & Hk)].
  - by exists [].
  - pose proof (round_astype_int_cell v q Hq) as Hv.
    destruct (round_cell v) as [v'|] eqn:Hv'; [|done]. cbn in Hv.
    exists (v' :: mid). apply mapR_Ok in Hmid, Hk.
    split; apply mapR_Ok; by constructor.
Qed.

Lemma add_column_elem (c c' : string) (cols : list string) :
  c' ∈ add_column c cols ↔ c' = c ∨ c' ∈ cols.
Proof.
  unfold add_column. case_decide as Hc.
  - split; [by right | by intros [->|?]].
  - rewrite elem_of_app, list_elem_of_singleton. tauto.
Qed.

(** [df[src].round().astype(int)] *)
Lemma round_column (src : string) (df : DataFrame) :
  src ∈ columns df →
  Forall (has_num src) (rows df) →
  getcol src df ≫= round_astype_int = Ok (rounded_at src <$> rows df).
Proof.
  intros Hsrc Hnum.
  { assert (∃ s, getcol src df = Ok s ∧
                 Forall2 (λ v o, ∃ q, cell_num v = Ok q ∧ o = CInt (round_half_even q))
                   s (rounded_at src <$> rows df)) as (s & -> & Hs).
    { exists ((λ r, default (CInt 0) (r !! src)) <$> rows df). split.
      - apply getcol_total; [done|].
        eapply Forall_impl; [exact Hnum|]. intros r (v & q & -> & _). done.
      - apply Forall2_fmap, Forall_Forall2_diag.
        eapply Forall_impl; [exact Hnum|]. intros r (v & q & Hv & Hq).
        exists q. unfold rounded_at. rewrite Hv. cbn. by rewrite Hq. }
    cbn. by apply round_astype_int_Ok. }
Qed.


Ltac in_list := repeat first [apply list_elem_of_here | apply list_elem_of_further].


(** ** Lookups in rows *)

Lemma string_ne_by_eqb (a b : string) : String.eqb a b = false → a ≠ b.
Proof. intros Hab ->. by rewrite String.eqb_refl in Hab. Qed.

Ltac str_ne := apply string_ne_by_eqb; vm_compute; reflexivity.

Lemma set_col_lookup_eq (c : string) (g : gmap string cell → cell) (r : gmap string cell) :
  set_col c g r !! c = Some (g r).
Proof. apply lookup_insert_eq. Qed.

Lemma set_col_lookup_ne (c k : string) (g : gmap string cell → cell)
    (r : gmap string cell) :
  c ≠ k → set_col c g r !! k = r !! k.
Proof. apply lookup_insert_ne. Qed.

(** Read a column through the assignments made after it. *)
Ltac look :=
  repeat first [rewrite set_col_lookup_eq | rewrite set_col_lookup_ne by str_ne].

(** ** Steps of the store *)

Lemma with_column_lookup (c : string) (g : gmap string cell → cell) (df : DataFrame) :
  setcol c (g <$> rows df) df = Ok (with_column c g df).
Proof. apply setcol_fmap. Qed.

Lemma col_step {A} (l : Ref) (c : string) (df : DataFrame) (h : Heap)
    (K : Series → SE Heap A) (s : Series) :
  h !! l = Some df → getcol c df = Ok s →
  (col l c ≫= K) h = K s h.
Proof.
  intros Hl Hs. unfold col. se_unfold. cbv beta iota. rewrite Hl. cbn. by rewrite Hs.
Qed.

Lemma assign_step {A} (l : Ref) (c : string) (g : gmap string cell → cell)
    (df : DataFrame) (h : Heap) (K : SE Heap A) :
  h !! l = Some df →
  (assign l c (g <$> rows df) ≫= λ _, K) h = K (<[l := with_column c g df]> h).
Proof.
  intros Hl. unfold assign. se_unfold. cbv beta iota. rewrite Hl. cbn.
  by rewrite with_column_lookup.
Qed.

Lemma lift_step {S A B} (r : result A) (a : A) (K : A → SE S B) (s : S) :
  r = Ok a → (lift r ≫= K) s = K a s.
Proof. intros ->. reflexivity. Qed.

(** [df[c] = f(df[c0])] for an elementwise [f]. *)
Lemma map_assign_step {A} (l : Ref) (c0 c : string) (f : cell → result cell)
    (df : DataFrame) (h : Heap) (K : SE Heap A) :
  h !! l = Some df → c0 ∈ columns df → Forall (col_ok c0 f) (rows df) →
  (s0 ← col l c0; s ← lift (mapR f s0); assign l c s;; K) h =
    K (<[l := with_column c (cell_via c0 f) df]> h).
Proof.
  intros Hl Hc Hok.
  erewrite col_step; [|done|].
  2:{ apply (getcol_total c0 df (λ r, default (CInt 0) (r !! c0))); [done|].
      eapply Forall_impl; [exact Hok|]. by intros r (v & w & -> & _). }
  erewrite (lift_step _ (cell_via c0 f <$> rows df)).
  - by apply assign_step.
  - apply mapR_Ok, Forall2_fmap, Forall_Forall2_diag.
    eapply Forall_impl; [exact Hok|]. intros r (v & w & Hv & Hw).
    unfold cell_via. rewrite Hv. cbn. by rewrite Hw.
Qed.

Lemma mapR_compose {A B C} (f1 : A → result B) (f2 : B → result C)
    (l : list A) (k : list C) :
  Forall2 (λ x y, f1 x ≫= f2 = Ok y) l k →
  ∃ mid, mapR f1 l = Ok mid ∧ mapR f2 mid = Ok k.
Proof.
  induction 1 as [|x y l k Hxy _ (mid & Hmid & Hk)].
  - by exists [].
  - destruct (f1 x) as [b|] eqn:Hb; [|done]. cbn in Hxy.
    exists (b :: mid). apply mapR_Ok in Hmid, Hk.
    split; apply mapR_Ok; by constructor.
Qed.

Lemma cell_via_Forall2 (c0 : string) (f : cell → result cell)
    (rs : list (gmap string cell)) :
  Forall (col_ok c0 f) rs →
  Forall2 (λ v w, f v = Ok w)
    ((λ r : gmap string cell, default (CInt 0) (r !! c0)) <$> rs) (cell_via c0 f <$> rs).
Proof.
  intros Hok. apply Forall2_fmap, Forall_Forall2_diag.
  eapply Forall_impl; [exact Hok|]. intros r (v & w & Hv & Hw).
  unfold cell_via. rewrite Hv. cbn. by rewrite Hw.
Qed.

Lemma col_ok_getcol (c0 : string) (f : cell → result cell) (df : DataFrame) :
  c0 ∈ columns df → Forall (col_ok c0 f) (rows df) →
  getcol c0 df = Ok ((λ r : gmap string cell, default (CInt 0) (r !! c0)) <$> rows df).
Proof.
  intros Hc Hok. apply getcol_total; [done|].
  eapply Forall_impl; [exact Hok|]. by intros r (v & w & -> & _).
Qed.

(** [df[c] = f2(f1(df[c0]))] *)
Lemma map2_assign_step {A} (l : Ref) (c0 c : string) (f1 f2 : cell → result cell)
    (df : DataFrame) (h : Heap) (K : SE Heap A) :
  h !! l = Some df → c0 ∈ columns df →
  Forall (col_ok c0 (λ v, f1 v ≫= f2)) (rows df) →
  (s0 ← col l c0; b ← lift (mapR f1 s0); s ← lift (mapR f2 b); assign l c s;; K) h =
    K (<[l := with_column c (cell_via c0 (λ v, f1 v ≫= f2)) df]> h).
Proof.
  intros Hl Hc Hok.
  erewrite col_step; [|done|by eapply col_ok_getcol].
  destruct (mapR_compose f1 f2 _ _ (cell_via_Forall2 _ _ _ Hok)) as (mid & Hmid & Hs).
  erewrite (lift_step _ mid); [|done].
  erewrite (lift_step _ _); [|exact Hs].
  by apply assign_step.
Qed.

(** [df[c] = f3(f2(f1(df[c0])))] *)
Lemma map3_assign_step {A} (l : Ref) (c0 c : string) (f1 f2 f3 : cell → result cell)
    (df : DataFrame) (h : Heap) (K : SE Heap A) :
  h !! l = Some df → c0 ∈ columns df →
  Forall (col_ok c0 (λ v, (f1 v ≫= f2) ≫= f3)) (rows df) →
  (s0 ← col l c0; a ← lift (mapR f1 s0); b ← lift (mapR f2 a);
   s ← lift (mapR f3 b); assign l c s;; K) h =
    K (<[l := with_column c (cell_via c0 (λ v, (f1 v ≫= f2) ≫= f3)) df]> h).
Proof.
  intros Hl Hc Hok.
  erewrite col_step; [|done|by eapply col_ok_getcol].
  destruct (mapR_compose (λ v, f1 v ≫= f2) f3 _ _ (cell_via_Forall2 _ _ _ Hok))
    as (mid2 & Hmid2 & Hs).
  apply mapR_Ok in Hmid2.
  destruct (mapR_compose f1 f2 _ _ Hmid2) as (mid1 & Hmid1 & Hmid2').
  erewrite (lift_step _ mid1); [|done].
  erewrite (lift_step _ mid2); [|done].
  erewrite (lift_step _ _); [|exact Hs].
  by apply assign_step.
Qed.

(** [df[c] = df[c0]] *)
Lemma copy_assign_step {A} (l : Ref) (c0 c : string)
    (df : DataFrame) (h : Heap) (K : SE Heap A) :
  h !! l = Some df → c0 ∈ columns df →
  Forall (col_ok c0 Ok) (rows df) →
  (s ← col l c0; assign l c s;; K) h =
    K (<[l := with_column c (cell_via c0 Ok) df]> h).
Proof.
  intros Hl Hc Hok.
  erewrite col_step; [|done|by eapply col_ok_getcol].
  replace ((λ r : gmap string cell, default (CInt 0) (r !! c0)) <$> rows df)
    with (cell_via c0 Ok <$> rows df).
  - by apply assign_step.
  - apply Forall_fmap_ext. eapply Forall_impl; [exact Hok|].
    intros r (v & w & Hv & _). unfold cell_via. by rewrite Hv.
Qed.

Lemma zip_fmap_same {A B C} (f : A → B) (g : A → C) (l : list A) :
  zip (f <$> l) (g <$> l) = (λ x, (f x, g x)) <$> l.
Proof. induction l as [|x l IH]; cbn; [done | by rewrite IH]. Qed.

(** [df[c] = df[c1] / df[c2]] *)
Lemma div_assign_step {A} (l : Ref) (c1 c2 c : string)
    (df : DataFrame) (h : Heap) (K : SE Heap A) :
  h !! l = Some df → c1 ∈ columns df → c2 ∈ columns df →
  Forall (div_ok c1 c2) (rows df) →
  (s1 ← col l c1; s2 ← col l c2; s ← lift (series_div s1 s2); assign l c s;; K) h =
    K (<[l := with_column c (cell_div c1 c2) df]> h).
Proof.
  intros Hl Hc1 Hc2 Hok.
  erewrite col_step; [|done|].
  2:{ apply (getcol_total c1 df (λ r, default (CInt 0) (r !! c1))); [done|].
      eapply Forall_impl; [exact Hok|]. by intros r (a & b & w & -> & _). }
  erewrite col_step; [|done|].
  2:{ apply (getcol_total c2 df (λ r, default (CInt 0) (r !! c2))); [done|].
      eapply Forall_impl; [exact Hok|]. by intros r (a & b & w & _ & -> & _). }
  erewrite (lift_step _ (cell_div c1 c2 <$> rows df)).
  - by apply assign_step.
  - unfold series_div. rewrite !length_fmap. case_decide; [|done].
    rewrite zip_fmap_same.
    apply mapR_Ok, Forall2_fmap, Forall_Forall2_diag.
    eapply Forall_impl; [exact Hok|]. intros r (a & b & w & Ha & Hb & Hw).
    cbn. unfold cell_div. rewrite Ha, Hb. cbn. by rewrite Hw.
Qed.

Lemma df_copy_step {A} (l : Ref) (df : DataFrame) (h : Heap) (K : Ref → SE Heap A) :
  h !! l = Some df →
  (df_copy l ≫= K) h = K (fresh (dom h)) (<[fresh (dom h) := df]> h).
Proof.
  intros Hl. unfold df_copy. se_unfold. cbv beta iota. rewrite Hl. reflexivity.
Qed.

Lemma new_frame_step {A} (df : DataFrame) (h : Heap) (K : Ref → SE Heap A) :
  (new_frame df ≫= K) h = K (fresh (dom h)) (<[fresh (dom h) := df]> h).
Proof. reflexivity. Qed.

Lemma sort_values_ds (df : DataFrame) :
  "ds" ∈ columns df → Forall (has_time "ds") (rows df) →
  sort_values "ds" df = Ok {| columns := columns df; rows := sorted_by_ds (rows df) |}.
Proof.
  intros Hc Hok. unfold sort_values.
  rewrite (getcol_total "ds" df (λ r, default (CInt 0) (r !! "ds"))); [|done|].
  2:{ eapply Forall_impl; [exact Hok|]. by intros r (t & ->). }
  cbn.
  assert (mapR cell_time ((λ r : gmap string cell, default (CInt 0) (r !! "ds")) <$> rows df)
          = Ok (time_of <$> rows df)) as ->.
  { apply mapR_Ok, Forall2_fmap, Forall_Forall2_diag.
    eapply Forall_impl; [exact Hok|]. intros r (t & Ht).
    unfold time_of. by rewrite Ht. }
  reflexivity.
Qed.

Lemma sort_step {A} (l : Ref) (df : DataFrame) (h : Heap) (K : DataFrame → SE Heap A) :
  h !! l = Some df → "ds" ∈ columns df → Forall (has_time "ds") (rows df) →
  ((d ← deref l; lift (sort_values "ds" d)) ≫= K) h =
    K {| columns := columns df; rows := sorted_by_ds (rows df) |} h.
Proof.
  intros Hl Hc Hok. se_unfold. cbv beta iota. rewrite Hl. cbn.
  by rewrite sort_values_ds.
Qed.

(** ** The preprocessor, run on the store *)

Lemma sorted_by_ds_perm (rs : list (gmap string cell)) : sorted_by_ds rs ≡ₚ rs.
Proof.
  unfold sorted_by_ds. rewrite merge_sort_Permutation.
  rewrite snd_zip; [done|]. by rewrite length_fmap.
Qed.

Lemma sorted_by_ds_length (rs : list (gmap string cell)) :
  length (sorted_by_ds rs) = length rs.
Proof. by rewrite sorted_by_ds_perm. Qed.

Lemma sorted_by_ds_Forall (P : gmap string cell → Prop) (rs : list (gmap string cell)) :
  Forall P rs → Forall P (sorted_by_ds rs).
Proof. by rewrite sorted_by_ds_perm. Qed.

#[local] Instance key_le_total : Total key_le.
Proof. intros a b. unfold key_le. lia. Qed.

(** The rows come out in nondecreasing order of their timestamp. *)
Lemma sorted_by_ds_sorted (rs : list (gmap string cell)) :
  Sorted (λ r1 r2, time_of r1 ≤ time_of r2) (sorted_by_ds rs).
Proof.
  unfold sorted_by_ds.
  pose proof (Sorted_merge_sort key_le (zip (time_of <$> rs) rs)) as Hsorted.
  assert (Forall (λ p, p.1 = time_of p.2) (merge_sort key_le (zip (time_of <$> rs) rs)))
    as Hkeys.
  { rewrite merge_sort_Permutation. clear.
    induction rs; cbn; by constructor. }
  induction Hsorted as [|p ps Hps IH Hhd]; cbn; [constructor|].
  inversion Hkeys as [|? ? Hp Hps']; subst.
  constructor; [by apply IH|].
  destruct Hhd as [|q qs Hpq]; cbn; constructor.
  inversion Hps' as [|? ? Hq _]; subst.
  unfold key_le in Hpq. rewrite Hp, Hq in Hpq. exact Hpq.
Qed.

Lemma dt_via_ok (g : Timestamp → cell) (r : gmap string cell) :
  has_time "ds" r → col_ok "ds" (dt_cell g) r.
Proof. intros (t & Ht). by exists (CTime t), (g t). Qed.

Lemma dt_int_via_ok (g : Timestamp → bool) (r : gmap string cell) :
  has_time "ds" r → col_ok "ds" (λ v, dt_cell (CBool ∘ g) v ≫= astype_int_cell) r.
Proof. intros (t & Ht). by exists (CTime t), (CInt (if g t then 1 else 0)). Qed.

Lemma div_cell_ok (a b : cell) (x y : float) :
  cell_float a = Ok x → cell_float b = Ok y → div_cell a b = Ok (CFloat (fdiv x y)).
Proof. intros Ha Hb. unfold div_cell. by rewrite Ha, Hb. Qed.

Ltac col_tac :=
  cbn [columns with_column]; rewrite ?add_column_elem; tauto.

Ltac on_rows H :=
  cbn [rows with_column]; rewrite ?Forall_fmap; eapply Forall_impl; [exact H|];
  let r := fresh "r" in intros r (Hds & Hy & Himp & Hpos); unfold compose.

Ltac keep_time Hds :=
  let t := fresh "t" in let Ht := fresh "Ht" in
  destruct Hds as (t & Ht); exists t; look; done.

Lemma add_features_run (l : Ref) (df : DataFrame) (h : Heap) :
  h !! l = Some df →
  ["ds"; "y"; "Impressions"; "position"] ⊆ columns df →
  Forall base_row_ok (rows df) →
  _add_features l h =
    (Ok l, <[l := {| columns := features_columns (columns df);
                     rows := features_row <$> rows df |}]> h).
Proof.
  intros Hl Hcols Hok. unfold _add_features.
  assert ("ds" ∈ columns df ∧ "y" ∈ columns df ∧ "Impressions" ∈ columns df ∧
          "position" ∈ columns df) as (Hcds & Hcy & Hcimp & Hcpos).
  { repeat split; apply Hcols; set_solver. }
  rewrite (map_assign_step l "ds" "day_of_week" _ df h); [|done|done|].
  2:{ on_rows Hok. by apply dt_via_ok. }
  erewrite (map_assign_step l "ds" "day_of_month");
    [rewrite insert_insert_eq | apply lookup_insert_eq | col_tac |].
  2:{ on_rows Hok. apply dt_via_ok. keep_time Hds. }
  erewrite (map_assign_step l "ds" "week_of_year");
    [rewrite insert_insert_eq | apply lookup_insert_eq | col_tac |].
  2:{ on_rows Hok. apply dt_via_ok. keep_time Hds. }
  erewrite (map_assign_step l "ds" "month");
    [rewrite insert_insert_eq | apply lookup_insert_eq | col_tac |].
  2:{ on_rows Hok. apply dt_via_ok. keep_time Hds. }
  erewrite (map_assign_step l "ds" "quarter");
    [rewrite insert_insert_eq | apply lookup_insert_eq | col_tac |].
  2:{ on_rows Hok. apply dt_via_ok. keep_time Hds. }
  erewrite (map_assign_step l "ds" "year");
    [rewrite insert_insert_eq | apply lookup_insert_eq | col_tac |].
  2:{ on_rows Hok. apply dt_via_ok. keep_time Hds. }
  erewrite (map2_assign_step l "day_of_week" "is_weekend");
    [rewrite insert_insert_eq | apply lookup_insert_eq | col_tac |].
  2:{ on_rows Hok. destruct Hds as (t & Ht).
      exists (CInt (dayofweek t)), (CInt (if 5 <=? dayofweek t then 1 else 0)).
      split; [|done]. look.
      unfold cell_via. by rewrite Ht. }
  erewrite (map2_assign_step l "ds" "is_month_end");
    [rewrite insert_insert_eq | apply lookup_insert_eq | col_tac |].
  2:{ on_rows Hok. apply dt_int_via_ok. keep_time Hds. }
  erewrite (map2_assign_step l "ds" "is_month_start");
    [rewrite insert_insert_eq | apply lookup_insert_eq | col_tac |].
  2:{ on_rows Hok. apply dt_int_via_ok. keep_time Hds. }
  erewrite (div_assign_step l "y" "Impressions" "clicks_per_impression");
    [rewrite insert_insert_eq | apply lookup_insert_eq | col_tac | col_tac |].
  2:{ on_rows Hok. destruct Hy as (a & x & Ha & Hx), Himp as (b & y & Hb & Hy).
      exists a, b, (CFloat (fdiv x y)). look.
      split; [done|]. split; [done|]. by apply div_cell_ok. }
  erewrite (map_assign_step l "position" "position_impact");
    [rewrite insert_insert_eq | apply lookup_insert_eq | col_tac |].
  2:{ on_rows Hok. destruct Hpos as (b & y & Hb & Hby).
      exists b, (CFloat (fdiv (Fin (inject_Z 1)) y)). look.
      split; [done|]. by apply div_cell_ok. }
  cbn [mret SE_ret]. apply (f_equal (λ d, (Ok l, <[l := d]> h))).
  unfold with_column. cbn [rows columns].
  apply (f_equal2 mkDataFrame).
  - unfold features_columns. cbn [foldl]. reflexivity.
  - rewrite <- !list_fmap_compose.
    apply (f_equal (λ f, f <$> rows df)).
    cbv beta delta [features_row compose set_col]. reflexivity.
Qed.


Section Preprocessor_run.
Context `{Pandas}.

Lemma to_datetime_cell_time (v w : cell) :
  to_datetime_cell v = Ok w → ∃ t, w = CTime t.
Proof.
  destruct v as [z|x|s|t|b]; cbn; try done.
  - intros [= <-]. by eexists.
  - destruct (to_datetime s); cbn; [|done]. intros [= <-]. by eexists.
  - intros [= <-]. by eexists.
Qed.

Lemma ctr_of_str (s : string) :
  ctr_of (CStr s) = Ok (CFloat (fdiv (to_numeric_coerce (rstrip "%" s)) (Fin (inject_Z 100)))).
Proof. reflexivity. Qed.

Lemma base_row_is_ok (r : gmap string cell) : raw_row_ok r → base_row_ok (base_row r).
Proof.
  intros ((d & w & Hd & Hw) & (c & x & Hc & Hx) & (i & y & Hi & Hy) & _ &
          (p & z & Hp & Hz)).
  destruct (to_datetime_cell_time _ _ Hw) as (t & ->).
  unfold base_row_ok, base_row. cbv zeta. repeat split.
  - exists t. look.
    unfold cell_via. by rewrite Hd, Hw.
  - exists c, x. look.
    unfold cell_via. look. by rewrite Hc.
  - exists i, y. by look.
  - exists p, z. look.
    unfold cell_via. look. by rewrite Hp.
Qed.

Ltac on_raw H :=
  cbn [rows with_column]; rewrite ?Forall_fmap; eapply Forall_impl; [exact H|];
  let r := fresh "r" in
  intros r ((d & w & Hd & Hw) & (c & x & Hc & Hx) & (i & y & Hi & Hy) & (s & Hs) &
            (p & z & Hp & Hz));
  unfold compose.

(** What [process] does: it copies the frame at [l1], adds the four base
    columns to the copy, puts the sorted rows in a new frame at [l2], and
    adds the features there. *)
Lemma process_run (l : Ref) (df : DataFrame) (h : Heap) :
  h !! l = Some df →
  ["Date"; "Clicks"; "Impressions"; "CTR"; "Position"] ⊆ columns df →
  Forall raw_row_ok (rows df) →
  let l1 := fresh (dom h) in
  let base := {| columns := base_columns (columns df);
                 rows := base_row <$> rows df |} in
  let h1 := <[l1 := base]> h in
  let l2 := fresh (dom h1) in
  process l h =
    (Ok l2, <[l2 := {| columns := features_columns (columns base);
                       rows := features_row <$> sorted_by_ds (rows base) |}]> h1).
Proof.
  intros Hl Hcols Hok l1 base h1 l2. unfold process.
  assert ("Date" ∈ columns df ∧ "Clicks" ∈ columns df ∧ "Impressions" ∈ columns df ∧
          "CTR" ∈ columns df ∧ "Position" ∈ columns df) as (HcD & HcC & HcI & HcR & HcP).
  { repeat split; apply Hcols; set_solver. }
  erewrite df_copy_step; [|done]. fold l1.
  erewrite (map_assign_step l1 "Date" "ds");
    [rewrite insert_insert_eq | apply lookup_insert_eq | done |].
  2:{ on_raw Hok. by exists d, w. }
  erewrite (copy_assign_step l1 "Clicks" "y");
    [rewrite insert_insert_eq | apply lookup_insert_eq | col_tac |].
  2:{ on_raw Hok. exists c, c. by look. }
  erewrite (map3_assign_step l1 "CTR" "ctr");
    [rewrite insert_insert_eq | apply lookup_insert_eq | col_tac |].
  2:{ on_raw Hok. eexists (CStr s), _. look.
      split; [done|]. apply ctr_of_str. }
  erewrite (copy_assign_step l1 "Position" "position");
    [rewrite insert_insert_eq | apply lookup_insert_eq | col_tac |].
  2:{ on_raw Hok. exists p, p. by look. }
  set (base' := with_column "position" _ _).
  assert (base' = base) as ->.
  { unfold base', base, with_column. cbn [rows columns].
    apply (f_equal2 mkDataFrame).
    - unfold base_columns. cbn [foldl]. reflexivity.
    - rewrite <- !list_fmap_compose.
      apply (f_equal (λ f, f <$> rows df)).
      cbv beta delta [base_row compose set_col]. reflexivity. }
  fold h1.
  assert (Forall base_row_ok (rows base)) as Hbase.
  { cbn [rows base]. rewrite Forall_fmap. eapply Forall_impl; [exact Hok|].
    intros r Hr. by apply base_row_is_ok. }
  assert ("ds" ∈ columns base ∧ "y" ∈ columns base ∧ "Impressions" ∈ columns base ∧
          "position" ∈ columns base) as (Hbds & Hby & Hbi & Hbp).
  { unfold base, base_columns. cbn [columns foldl]. rewrite !add_column_elem. tauto. }
  erewrite (sort_step l1 base); [|apply lookup_insert_eq|done|].
  2:{ eapply Forall_impl; [exact Hbase|]. by intros r (? & _). }
  rewrite new_frame_step. fold l2. unfold reset_index_drop.
  erewrite add_features_run; [|apply lookup_insert_eq| |].
  - by rewrite insert_insert_eq.
  - cbn [columns]. intros c Hc.
    repeat (apply elem_of_cons in Hc as [->|Hc]); [done..|by apply elem_of_nil in Hc].
  - cbn [rows]. by apply sorted_by_ds_Forall.
Qed.
End Preprocessor_run.

(** ** Frames that a computation leaves alone *)

Lemma keeps_bind {A B} (l : Ref) (m : SE Heap A) (k : A → SE Heap B)
    (Q : A → Prop) (R : B → Prop) :
  keeps l m Q → (∀ a, Q a → keeps l (k a) R) → keeps l (m ≫= k) R.
Proof.
  intros Hm Hk h Hl. destruct (Hm h Hl) as (Hfr & Hq).
  unfold mbind, SE_bind. destruct (m h) as [[a|e] h1] eqn:Hmh; cbn in *.
  - assert (is_Some (h1 !! l)) as Hl1 by (by rewrite Hfr).
    destruct (Hk a (Hq a eq_refl) h1 Hl1) as (Hfr' & Hr).
    split; [by rewrite Hfr', Hfr | done].
  - split; [done | by intros].
Qed.

Lemma keeps_weaken {A} (l : Ref) (m : SE Heap A) (Q Q' : A → Prop) :
  keeps l m Q → (∀ a, Q a → Q' a) → keeps l m Q'.
Proof. intros Hm HQ h Hl. destruct (Hm h Hl). naive_solver. Qed.

Lemma keeps_lift {A} (l : Ref) (r : result A) : keeps l (lift r) (λ _, True).
Proof. by intros h Hl. Qed.

Lemma keeps_ret {A} (l : Ref) (a : A) (Q : A → Prop) : Q a → keeps l (mret a) Q.
Proof. intros Ha h Hl. split; [done|]. by intros ? [= <-]. Qed.

Lemma keeps_deref (l l' : Ref) : keeps l (deref l') (λ _, True).
Proof. by intros h Hl. Qed.

Lemma keeps_col (l l' : Ref) (c : string) : keeps l (col l' c) (λ _, True).
Proof.
  unfold col. eapply keeps_bind; [apply keeps_deref|]. intros d _. apply keeps_lift.
Qed.

Lemma keeps_new_frame (l : Ref) (df : DataFrame) : keeps l (new_frame df) (λ l', l' ≠ l).
Proof.
  intros h Hl. unfold new_frame. cbn.
  assert (fresh (dom h) ≠ l) as Hne.
  { intros Heq. apply (is_fresh (dom h)). rewrite Heq. by apply elem_of_dom. }
  split; [by rewrite lookup_insert_ne | by intros ? [= <-]].
Qed.

Lemma keeps_df_copy (l l' : Ref) : keeps l (df_copy l') (λ l1, l1 ≠ l).
Proof.
  unfold df_copy. eapply keeps_bind; [apply keeps_deref|].
  intros d _. apply keeps_new_frame.
Qed.

Lemma keeps_assign (l l' : Ref) (c : string) (s : Series) :
  l' ≠ l → keeps l (assign l' c s) (λ _, True).
Proof.
  intros Hne. unfold assign.
  eapply keeps_bind; [apply keeps_deref|]. intros d _.
  eapply keeps_bind; [apply keeps_lift|]. intros d' _.
  intros h Hl. unfold store. cbn. split; [by rewrite lookup_insert_ne | done].
Qed.

Ltac keeps_tac :=
  lazymatch goal with
  | |- keeps _ (mbind _ _) _ => eapply keeps_bind; [keeps_tac | intros ? ?; keeps_tac]
  | |- keeps _ (col _ _) _ => apply keeps_col
  | |- keeps _ (lift _) _ => apply keeps_lift
  | |- keeps _ (deref _) _ => apply keeps_deref
  | |- keeps _ (assign _ _ _) _ => apply keeps_assign; assumption
  | |- keeps _ (mret _) _ => apply keeps_ret; assumption
  | |- keeps _ (df_copy _) _ => apply keeps_df_copy
  | |- keeps _ (new_frame _) _ => apply keeps_new_frame
  end.

Lemma keeps_add_features (l l' : Ref) :
  l' ≠ l → keeps l (_add_features l') (λ l2, l2 ≠ l).
Proof. intros Hne. unfold _add_features. keeps_tac. Qed.

Section Preprocessor_frame.
Context `{Pandas}.

Lemma keeps_process (l l' : Ref) : keeps l (process l') (λ l2, l2 ≠ l).
Proof.
  unfold process, _add_features. keeps_tac.
Qed.
End Preprocessor_frame.

Lemma keeps_handle_outliers (l l' : Ref) (z_threshold : Q) :
  keeps l (handle_outliers l' z_threshold) (λ l2, l2 ≠ l).
Proof.
  unfold handle_outliers. keeps_tac.
Qed.

(** ** The derived features *)






Lemma Qeqb_false (x y : Q) : Qeqb x y = false ↔ ¬ (x == y)%Q.
Proof.
  unfold Qeqb. rewrite <- Qeq_bool_iff. by destruct (Qeq_bool x y).
Qed.

Section Features_spec.
Context `{Pandas}.


(** Every row of the output of [process] is the output row of an input
    row. *)
Lemma process_rows (df : DataFrame) (o : gmap string cell) :
  o ∈ features_row <$> sorted_by_ds (base_row <$> rows df) →
  ∃ r, r ∈ rows df ∧ o = features_row (base_row r).
Proof.
  intros (b & -> & Hb)%list_elem_of_fmap.
  rewrite sorted_by_ds_perm in Hb.
  apply list_elem_of_fmap in Hb as (r & -> & Hr). by exists r.
Qed.
End Features_spec.

Lemma time_of_features_row (b : gmap string cell) : time_of (features_row b) = time_of b.
Proof. unfold time_of, features_row. by look. Qed.

Lemma has_time_features_row (b : gmap string cell) :
  has_time "ds" b → has_time "ds" (features_row b).
Proof. intros (t & Ht). exists t. unfold features_row. by look. Qed.

(** ** The preprocessor: claims *)

(** C10. A frame that is in the store when [process] or [handle_outliers]
    is called, its own argument in particular, is the same afterwards,
    however the call ends: both work on a copy. And on a frame that has the
    five raw columns, with a date that parses, numbers and a rate string in
    every row, [process] returns a new frame with as many rows as its input,
    which are in nondecreasing order of 'ds'. *)
Theorem process_works_on_a_copy `{Pandas} (l : Ref) (df : DataFrame) (h : Heap) :
  h !! l = Some df →
  (∀ arg, (process arg h).2 !! l = Some df) ∧
  (∀ arg z_threshold, (handle_outliers arg z_threshold h).2 !! l = Some df) ∧
  (["Date"; "Clicks"; "Impressions"; "CTR"; "Position"] ⊆ columns df →
   Forall raw_row_ok (rows df) →
   ∃ l' h' out,
     process l h = (Ok l', h') ∧ l' ≠ l ∧ h' !! l' = Some out ∧
     len out = len df ∧
     Forall (has_time "ds") (rows out) ∧
     Sorted (λ r1 r2, time_of r1 ≤ time_of r2) (rows out)).
Proof.
  intros Hl. split; [|split].
  - intros arg. destruct (keeps_process l arg h) as [-> _]; done.
  - intros arg T. destruct (keeps_handle_outliers l arg T h) as [-> _]; done.
  - intros Hcols Hok.
    pose proof (process_run l df h Hl Hcols Hok) as Hrun. cbv zeta in Hrun.
    destruct (keeps_process l l h) as [_ Hne]; [done|].
    rewrite Hrun in Hne. specialize (Hne _ eq_refl).
    eexists _, _, _. split; [exact Hrun|]. split; [exact Hne|].
    split; [apply lookup_insert_eq|]. cbn [rows]. split; [|split].
    + unfold len. cbn [rows]. by rewrite length_fmap, sorted_by_ds_length, length_fmap.
    + rewrite Forall_fmap. apply sorted_by_ds_Forall. rewrite Forall_fmap.
      eapply Forall_impl; [exact Hok|]. intros r Hr. cbn.
      apply has_time_features_row. by apply base_row_is_ok.
    + eapply Sorted_fmap; [|apply sorted_by_ds_sorted].
      intros b1 b2. by rewrite !time_of_features_row.
Qed.



Lemma raw_row_ok_intro `{Pandas} (r : gmap string cell)
    (d w c i p : cell) (y imp pos : float) (s : string) :
  r !! "Date" = Some d → to_datetime_cell d = Ok w →
  r !! "Clicks" = Some c → cell_float c = Ok y →
  r !! "Impressions" = Some i → cell_float i = Ok imp →
  r !! "CTR" = Some (CStr s) →
  r !! "Position" = Some p → cell_float p = Ok pos →
  raw_row_ok r.
Proof.
  intros. split; [by exists d, w|]. split; [by exists c, y|].
  split; [by exists i, imp|]. split; [by exists s|]. by exists p, pos.
Qed.

Ltac raw_rows_ok :=
  repeat first
    [ apply Forall_nil_2
    | apply Forall_cons_2; [eapply raw_row_ok_intro; vm_compute; reflexivity|] ].

Lemma example_columns_ok :
  ["Date"; "Clicks"; "Impressions"; "CTR"; "Position"] ⊆ columns example_csv.
Proof. done. Qed.


Lemma example_csv_ok : Forall (raw_row_ok (H := example_pandas)) (rows example_csv).
Proof. unfold example_csv, table. cbn [rows fmap list_fmap]. raw_rows_ok. Qed.



(** ** Standard scores *)













(** ** Anomalies and outliers *)





Lemma y_column (df : DataFrame) :
  "y" ∈ columns df → Forall (has_num "y") (rows df) →
  getcol "y" df = Ok (cell_at "y" <$> rows df) ∧
  mapR cell_num (cell_at "y" <$> rows df) = Ok (num_of "y" <$> rows df).
Proof.
  intros Hc Hok. split.
  - apply getcol_total; [done|]. eapply Forall_impl; [exact Hok|].
    intros r (v & q & Hv & _). unfold cell_at. by rewrite Hv.
  - apply mapR_Ok, Forall2_fmap, Forall_Forall2_diag.
    eapply Forall_impl; [exact Hok|]. intros r (v & q & Hv & Hq).
    unfold cell_at, num_of. rewrite Hv. cbn. by rewrite Hq.
Qed.









Lemma example_series_ok :
  "ds" ∈ columns example_series ∧ "y" ∈ columns example_series ∧
  Forall (λ r : gmap string cell, is_Some (r !! "ds")) (rows example_series) ∧
  Forall (has_num "y") (rows example_series).
Proof.
  split; [set_solver|]. split; [set_solver|].
  unfold example_series, table. cbn [rows fmap list_fmap]. split.
  - repeat (apply Forall_cons_2; [by eexists|]). apply Forall_nil_2.
  - repeat (apply Forall_cons_2; [eexists _, _; by split|]). apply Forall_nil_2.
Qed.



(** * Weekly and monthly patterns *)

(** ** Group averages *)

Lemma deref_step {A} (l : Ref) (df : DataFrame) (h : Heap) (K : DataFrame → SE Heap A) :
  h !! l = Some df → (deref l ≫= K) h = K df h.
Proof. intros Hl. se_unfold. cbv beta iota. by rewrite Hl. Qed.


Lemma group_values_fmap {A} (key : A → cell) (val : A → Q) (rs : list A) (k : cell) :
  group_values (key <$> rs) (val <$> rs) k = val <$> filter (λ r, key r = k) rs.
Proof.
  unfold group_values. rewrite zip_fmap_same.
  induction rs as [|r rs IH]; [done|].
  rewrite fmap_cons, !filter_cons. cbn [fst]. case_decide; cbn; by rewrite IH.
Qed.

Lemma series_get_fmap (F : cell → Q) (ks : list cell) (k : cell) :
  series_get k ((λ k', (k', F k')) <$> ks) = if decide (k ∈ ks) then Some (F k) else None.
Proof.
  induction ks as [|k' ks IH]; cbn.
  - by rewrite decide_False by apply not_elem_of_nil.
  - destruct (decide (k' = k)) as [->|Hk].
    + by rewrite decide_True by left.
    + rewrite IH. destruct (decide (k ∈ ks)) as [Hin|Hin].
      * by rewrite decide_True by (by right).
      * rewrite decide_False; [done|]. by intros [->|?]%elem_of_cons.
Qed.

(** [df.groupby(c)['y'].mean()] holds, for each key that occurs, the average
    of 'y' over the rows with that key. *)
Lemma groupby_mean_run (c : string) (df : DataFrame) :
  c ∈ columns df → "y" ∈ columns df →
  Forall (λ r : gmap string cell, is_Some (r !! c)) (rows df) →
  Forall (has_num "y") (rows df) →
  groupby_mean c "y" df =
    Ok ((λ k, (k, group_average (cell_at c) k (rows df))) <$>
          group_keys (cell_at c) (rows df)).
Proof.
  intros Hc Hcy Hkey Hy. unfold groupby_mean.
  rewrite (getcol_total c df (cell_at c)); [|done|].
  2:{ eapply Forall_impl; [exact Hkey|]. intros r [v Hv]. unfold cell_at. by rewrite Hv. }
  cbn [mbind result_bind].
  destruct (y_column df Hcy Hy) as (-> & Hnum). cbn [mbind result_bind].
  rewrite Hnum. cbn [mbind result_bind]. f_equal.
  apply list_fmap_ext. intros _ k _. f_equal. unfold group_average.
  by rewrite group_values_fmap.
Qed.

Lemma foldr_fadd_Fin (qs : list Q) : foldr fadd (Fin 0) (Fin <$> qs) = Fin (Qsum qs).
Proof.
  induction qs as [|q qs IH]; [done|].
  rewrite fmap_cons. cbn [foldr]. rewrite IH. reflexivity.
Qed.

Lemma Qeqb_of_nat_S (n : nat) : Qeqb (inject_Z (Z.of_nat (S n))) 0 = false.
Proof.
  apply Qeqb_false. intros Heq. unfold Qeq, inject_Z in Heq. cbn in Heq. lia.
Qed.

Lemma filter_nan_Fin (qs : list Q) : filter (λ x, x ≠ NaN) (Fin <$> qs) = Fin <$> qs.
Proof.
  induction qs as [|q qs IH]; [done|].
  rewrite fmap_cons, filter_cons_True by done. by rewrite IH.
Qed.

(** The mean of a column of finite floats. *)
Lemma mean_skipna_Fin (qs : list Q) :
  qs ≠ [] → mean_skipna (Fin <$> qs) = Fin (Qmean qs).
Proof.
  intros Hne. unfold mean_skipna.
  rewrite filter_nan_Fin, foldr_fadd_Fin, length_fmap. destruct qs as [|q qs]; [done|].
  unfold fdiv. cbn [length]. by rewrite Qeqb_of_nat_S.
Qed.


Lemma relative_strength_finite (m a : Q) :
  ¬ (m == 0)%Q →
  relative_strength_of (Fin m) (Fin a) = Fin ((a / m - 1) * 100).
Proof.
  intros Hm%Qeqb_false. unfold relative_strength_of, fdiv. rewrite Hm. reflexivity.
Qed.

(** The rows of a frame made of three columns of one length. *)
Lemma DataFrame_of_dict3_lookup (c1 c2 c3 : string) (s1 s2 s3 : Series)
    (i : nat) (x y z : cell) :
  s1 !! i = Some x → s2 !! i = Some y → s3 !! i = Some z →
  rows (DataFrame_of_dict [(c1, s1); (c2, s2); (c3, s3)]) !! i
  = Some (<[c3 := z]> (<[c2 := y]> (<[c1 := x]> ∅))).
Proof.
  intros H1 H2 H3. unfold DataFrame_of_dict. cbn [rows head from_option foldl fst snd].
  apply lookup_zip_with_Some. eexists _, z. split; [done|]. split; [|done].
  apply lookup_zip_with_Some. eexists _, y. split; [done|]. split; [|done].
  apply lookup_zip_with_Some. exists ∅, x. split; [done|]. split; [|done].
  apply lookup_replicate_2. by eapply lookup_lt_Some.
Qed.

Lemma group_average_fmap (key key' : gmap string cell → cell)
    (f : gmap string cell → gmap string cell) (rs : list (gmap string cell)) (k : cell) :
  Forall (λ r, key' (f r) = key r ∧ num_of "y" (f r) = num_of "y" r) rs →
  group_average key' k (f <$> rs) = group_average key k rs.
Proof.
  intros Hrs. unfold group_average. f_equal.
  induction Hrs as [|r rs [Hkey Hnum] _ IH]; [done|].
  rewrite fmap_cons, !filter_cons, Hkey.
  case_decide; [rewrite !fmap_cons, Hnum|]; by rewrite IH.
Qed.

Lemma group_keys_fmap (key key' : gmap string cell → cell)
    (f : gmap string cell → gmap string cell) (rs : list (gmap string cell)) :
  Forall (λ r, key' (f r) = key r) rs →
  group_keys key' (f <$> rs) = group_keys key rs.
Proof.
  intros Hrs. unfold group_keys. f_equal. rewrite <- list_fmap_compose.
  apply Forall_fmap_ext. eapply Forall_impl; [exact Hrs|].
  intros r Hr. exact Hr.
Qed.

(** What [reindex] makes of a grouped mean. *)
Lemma reindex_groupby (key : gmap string cell → cell) (rs : list (gmap string cell))
    (labels : list cell) :
  reindex labels ((λ k, (k, group_average key k rs)) <$> group_keys key rs)
  = (λ k, if decide (k ∈ key <$> rs) then Fin (group_average key k rs) else NaN)
      <$> labels.
Proof.
  unfold reindex. apply list_fmap_ext. intros _ k _.
  rewrite series_get_fmap. unfold group_keys.
  destruct (decide (k ∈ remove_dups (key <$> rs))) as [Hin|Hin].
  - rewrite elem_of_remove_dups in Hin. by rewrite decide_True by done.
  - rewrite elem_of_remove_dups in Hin. by rewrite decide_False by done.
Qed.

Lemma weekly_pattern_run (l : Ref) (df : DataFrame) (h : Heap) :
  h !! l = Some df → "ds" ∈ columns df → "y" ∈ columns df →
  Forall (has_time "ds") (rows df) → Forall (has_num "y") (rows df) →
  _analyze_weekly_pattern l h =
    (Ok (weekly_pattern_of (rows df)),
     <[l := with_column "day_name" (cell_via "ds" (dt_cell (CStr ∘ day_name))) df]> h).
Proof.
  intros Hl Hcds Hcy Hds Hy. unfold _analyze_weekly_pattern.
  erewrite (map_assign_step l "ds" "day_name"); [|done|done|].
  2:{ eapply Forall_impl; [exact Hds|]. intros r (t & Ht). by exists (CTime t), (CStr (day_name t)). }
  assert (Forall (λ r, cell_at "day_name" (set_col "day_name"
                         (cell_via "ds" (dt_cell (CStr ∘ day_name))) r) = weekday_key r ∧
                       num_of "y" (set_col "day_name"
                         (cell_via "ds" (dt_cell (CStr ∘ day_name))) r) = num_of "y" r)
            (rows df)) as Hrows.
  { eapply Forall_impl; [exact Hds|]. intros r (t & Ht). split.
    - unfold cell_at. rewrite set_col_lookup_eq. unfold cell_via, weekday_key, time_of.
      by rewrite Ht.
    - unfold num_of. by rewrite set_col_lookup_ne. }
  assert (groupby_mean "day_name" "y"
            (with_column "day_name" (cell_via "ds" (dt_cell (CStr ∘ day_name))) df)
          = Ok ((λ k, (k, group_average weekday_key k (rows df))) <$>
                  group_keys weekday_key (rows df))) as Hgb.
  { rewrite groupby_mean_run;
      [|apply add_column_elem; by left | apply add_column_elem; by right | |].
    - cbn [rows with_column]. f_equal.
      rewrite (group_keys_fmap weekday_key);
        [|eapply Forall_impl; [exact Hrows|]; by intros r [? _]].
      apply list_fmap_ext. intros _ k _.
      by rewrite (group_average_fmap weekday_key) by exact Hrows.
    - cbn [rows with_column]. rewrite Forall_fmap. apply Forall_forall. intros r _.
      unfold compose. by rewrite set_col_lookup_eq.
    - cbn [rows with_column]. rewrite Forall_fmap.
      eapply Forall_impl; [exact Hy|]. intros r (v & q & Hv & Hq).
      exists v, q. unfold compose. by rewrite set_col_lookup_ne. }
  erewrite deref_step; [|apply lookup_insert_eq].
  erewrite lift_step; [|exact Hgb].
  cbn [mret SE_ret]. by rewrite reindex_groupby.
Qed.

Lemma monthly_pattern_run (df : DataFrame) :
  "month" ∈ columns df → "y" ∈ columns df →
  Forall (λ r : gmap string cell, is_Some (r !! "month")) (rows df) →
  Forall (has_num "y") (rows df) →
  _analyze_monthly_pattern df = Ok (monthly_pattern_of (rows df)).
Proof.
  intros Hcm Hcy Hm Hy. unfold _analyze_monthly_pattern.
  rewrite groupby_mean_run by done. cbn [mbind result_bind].
  change (cell_at "month") with month_key.
  set (G := (λ k, (k, group_average month_key k (rows df))) <$> group_keys month_key (rows df)).
  assert (∀ i, get_or_0 G i = month_average (rows df) i) as Hget.
  { intros i. unfold get_or_0, G, month_average. rewrite series_get_fmap.
    unfold group_keys. destruct (decide (CInt i ∈ remove_dups _)) as [Hin|Hin].
    - rewrite elem_of_remove_dups in Hin. by rewrite decide_True by done.
    - rewrite elem_of_remove_dups in Hin. by rewrite decide_False by done. }
  assert (G.*2 = (λ k, group_average month_key k (rows df)) <$> group_keys month_key (rows df))
    as HG2.
  { unfold G. by rewrite <- list_fmap_compose. }
  rewrite HG2.
  erewrite (mapR_total _ (λ i, CFloat (relative_strength_of _
                                 (match month_average (rows df) (i + 1) with
                                  | CFloat x => x
                                  | _ => Fin 0
                                  end)))); cycle 1.
  { apply Forall_forall. intros i _. rewrite Hget.
    unfold month_average. by case_decide. }
  cbn [mbind result_bind]. unfold monthly_pattern_of.
  replace ((λ i, get_or_0 G (i + 1)) <$> range 12)
    with ((λ i, month_average (rows df) (i + 1)) <$> range 12); [done|].
  apply list_fmap_ext. intros _ i _. symmetry. apply Hget.
Qed.





Lemma example_week_ok :
  "ds" ∈ columns example_week ∧ "y" ∈ columns example_week ∧
  "month" ∈ columns example_week ∧
  Forall (has_time "ds") (rows example_week) ∧
  Forall (has_num "y") (rows example_week) ∧
  Forall (λ r : gmap string cell, is_Some (r !! "month")) (rows example_week).
Proof.
  split; [set_solver|]. split; [set_solver|]. split; [set_solver|].
  unfold example_week, table. cbn [rows fmap list_fmap]. split; [|split].
  - repeat (apply Forall_cons_2; [by eexists|]). apply Forall_nil_2.
  - repeat (apply Forall_cons_2; [eexists _, _; by split|]). apply Forall_nil_2.
  - repeat (apply Forall_cons_2; [by eexists|]). apply Forall_nil_2.
Qed.



(** * The statements on the example data *)

Section Examples.
#[local] Existing Instance example_pandas.
#[local] Existing Instance example_prophet.
#[local] Existing Instance example_metrics.

(** The file of [example_pandas] has the five columns: [load] returns it. *)
Lemma load_example :
  read_csv (file_path example_loader) = Done example_csv ∧
  ((∃ e, load example_loader = Raise e ∧ is_ValueError e = true) ↔
   (∃ c, c ∈ ["Date"; "Clicks"; "Impressions"; "CTR"; "Position"] ∧
         c ∉ columns example_csv)) ∧
  ((∀ c, c ∈ ["Date"; "Clicks"; "Impressions"; "CTR"; "Position"] →
         c ∈ columns example_csv) →
   load example_loader = Ok example_csv).
Proof.
  split; [reflexivity|].
  apply (load_raises_iff_column_missing example_loader example_csv). reflexivity.
Defined.

Lemma fit_example_returns : fit example_series example_model = (Ok tt, example_fitted).
Proof.
  assert ((fit example_series example_model).1 = Ok tt) as Hret
    by (vm_compute; reflexivity).
  unfold example_fitted. rewrite <- Hret. apply surjective_pairing.
Qed.




(** [process] on [example_csv] leaves it as it was, and returns its four
    rows in date order. *)
Lemma process_example_copy :
  (∀ arg, (process arg (example_heap example_csv)).2 !! 1%positive = Some example_csv) ∧
  (∀ arg z_threshold,
     (handle_outliers arg z_threshold (example_heap example_csv)).2 !! 1%positive
     = Some example_csv) ∧
  (["Date"; "Clicks"; "Impressions"; "CTR"; "Position"] ⊆ columns example_csv →
   Forall raw_row_ok (rows example_csv) →
   ∃ l' h' out,
     process 1%positive (example_heap example_csv) = (Ok l', h') ∧ l' ≠ 1%positive ∧
     h' !! l' = Some out ∧ len out = len example_csv ∧
     Forall (has_time "ds") (rows out) ∧
     Sorted (λ r1 r2, time_of r1 ≤ time_of r2) (rows out)).
Proof.
  apply (process_works_on_a_copy 1%positive example_csv (example_heap example_csv)).
  reflexivity.
Defined.





End Examples.

(** ** Further properties of the model object *)

Section Model_more.
Context `{ProphetLib} `{MetricsLib}.

Lemma split_data_lengths (self : TrafficProphetModel) (df : DataFrame) :
  let n := Z.of_nat (len df) in
  let vd := validation_days (config self) in
  Z.of_nat (len (_split_data self df).1) = Z.min n (Z.max (n - vd) (int_mul_0_8 n)) ∧
  Z.of_nat (len (_split_data self df).2) = n - Z.min n (Z.max (n - vd) (int_mul_0_8 n)).
Proof.
  intros n vd. unfold _split_data, iloc_to, iloc_from, slice_bound, len.
  cbn [fst snd rows]. fold (len df). fold n. fold vd.
  assert (0 ≤ int_mul_0_8 n) as H08.
  { unfold int_mul_0_8. apply Z.div_pos; lia. }
  destruct (Z.ltb_spec (Z.max (n - vd) (int_mul_0_8 n)) 0) as [Hneg|_]; [lia|].
  rewrite length_take, length_drop. fold (len df). unfold n in *. lia.
Qed.

(** X1. The hold-out of [_split_data]: with a validation_days that is not
    negative, the test rows are the last min(validation_days, n - floor(0.8 n))
    rows, so never more than a fifth of the table, rounded up; the training
    rows are never fewer than floor(0.8 n). *)
Theorem split_data_holdout_size (self : TrafficProphetModel) (df : DataFrame) :
  0 ≤ validation_days (config self) →
  let n := Z.of_nat (len df) in
  let train_df := (_split_data self df).1 in
  let test_df := (_split_data self df).2 in
  Z.of_nat (len test_df)
    = Z.min (validation_days (config self)) (n - Qfloor ((8 # 10) * inject_Z n)) ∧
  5 * Z.of_nat (len test_df) ≤ n + 4 ∧
  Qfloor ((8 # 10) * inject_Z n) ≤ Z.of_nat (len train_df) ∧
  Z.of_nat (len train_df) + Z.of_nat (len test_df) = n.
Proof.
  intros Hvd n train_df test_df.
  destruct (split_data_lengths self df) as [Htr Hte].
  fold n train_df test_df in Htr, Hte. rewrite floor_0_8.
  assert (0 ≤ int_mul_0_8 n ≤ n ∧ 4 * n ≤ 5 * int_mul_0_8 n + 4) as H08.
  { unfold int_mul_0_8. pose proof (Z.div_mod (n * 4) 5).
    pose proof (Z.mod_pos_bound (n * 4) 5). unfold n in *. lia. }
  lia.
Qed.

(** X2. [fit] validates unless there is nothing to validate on: the test
    part is empty exactly when the table is empty or validation_days is 0
    or negative, and a [fit] that returns normally then leaves the
    validation metrics as they were. *)
Theorem fit_skips_validation_iff (self self' : TrafficProphetModel) (df : DataFrame) :
  (rows (_split_data self df).2 = [] ↔
   len df = 0%nat ∨ validation_days (config self) ≤ 0) ∧
  (fit df self = (Ok tt, self') →
   len df = 0%nat ∨ validation_days (config self) ≤ 0 →
   validation_metrics self' = validation_metrics self).
Proof.
  assert (rows (_split_data self df).2 = [] ↔
          len df = 0%nat ∨ validation_days (config self) ≤ 0) as Hiff.
  { destruct (split_data_lengths self df) as [_ Hte].
    assert (0 ≤ int_mul_0_8 (Z.of_nat (len df)) ∧
            (0 < Z.of_nat (len df) → int_mul_0_8 (Z.of_nat (len df)) < Z.of_nat (len df)))
      as H08.
    { unfold int_mul_0_8. pose proof (Z.div_mod (Z.of_nat (len df) * 4) 5).
      pose proof (Z.mod_pos_bound (Z.of_nat (len df) * 4) 5). lia. }
    rewrite <- length_zero_iff_nil. fold (len (_split_data self df).2). lia. }
  split; [exact Hiff|].
  intros Hfit Hempty. apply fit_inv in Hfit as (_ & _ & _ & Hval).
  apply Hiff in Hempty. unfold len in Hval. rewrite Hempty in Hval.
  by rewrite decide_False in Hval by (cbn; lia).
Qed.

Lemma create_model_config (s1 s2 : TrafficProphetModel) :
  config s1 = config s2 → _create_model s1 = _create_model s2.
Proof. unfold _create_model. by intros ->. Qed.

Lemma split_data_config (s1 s2 : TrafficProphetModel) (df : DataFrame) :
  config s1 = config s2 → _split_data s1 df = _split_data s2 df.
Proof. unfold _split_data. by intros ->. Qed.

Lemma fitted_on_config (s1 s2 : TrafficProphetModel) (df : DataFrame) (m : Prophet) :
  config s1 = config s2 → fitted_on s1 df m → fitted_on s2 df m.
Proof.
  intros Hc (m0 & ds_y & Hm0 & Hsel & Hfit). exists m0, ds_y.
  by rewrite <- (create_model_config s1 s2 Hc).
Qed.

Lemma validated_on_config (s1 s2 : TrafficProphetModel) (train_df test_df : DataFrame)
    (vm : gmap string float) :
  config s1 = config s2 → validated_on s1 train_df test_df vm →
  validated_on s2 train_df test_df vm.
Proof.
  intros Hc (m & ds & fc & Hfit & Hds & Hfc & Hvm). exists m, ds, fc.
  split; [by eapply fitted_on_config|done].
Qed.

Lemma validated_on_inj (self : TrafficProphetModel) (train_df test_df : DataFrame)
    (vm vm' : gmap string float) :
  validated_on self train_df test_df vm → validated_on self train_df test_df vm' →
  vm = vm'.
Proof.
  intros (m & ds & fc & Hfit & Hds & Hfc & Hvm) (m' & ds' & fc' & Hfit' & Hds' & Hfc' & Hvm').
  assert (m' = m) as -> by (by eapply fitted_on_inj).
  congruence.
Qed.

(** X3. What [fit] leaves behind does not depend on what the object held:
    on two objects with the same configuration, [fit] on the same table
    returns normally on both or on neither, and leaves the same model (and
    the same validation metrics when there are test rows). In particular a
    second [fit] on the same table changes nothing. *)
Theorem fit_forgets_earlier_fits (s1 s2 s1' : TrafficProphetModel) (df : DataFrame) :
  config s1 = config s2 →
  fit df s1 = (Ok tt, s1') →
  (∃ s2', fit df s2 = (Ok tt, s2') ∧ config s2' = config s2 ∧ model s2' = model s1' ∧
          (rows (_split_data s1 df).2 ≠ [] →
           validation_metrics s2' = validation_metrics s1')) ∧
  fit df s1' = (Ok tt, s1').
Proof.
  intros Hc Hfit.
  pose proof (fit_inv _ _ _ Hfit) as (Hc' & (m & Hm & Hmodel) & (m1 & Hm1) & Hval).
  cbv zeta in Hval. split.
  - pose proof (split_data_config s1 s2 df Hc) as Hsplit.
    set (vm := if decide (0 < len (_split_data s1 df).2)%nat
               then validation_metrics s1' else validation_metrics s2).
    exists {| config := config s2; model := Some m; validation_metrics := vm |}.
    split; [|split; [done|split; [done|]]].
    + apply fit_intro; rewrite <- ?Hsplit.
      * by eapply fitted_on_config.
      * exists m1. by eapply fitted_on_config.
      * unfold vm. destruct (decide (0 < len (_split_data s1 df).2)%nat); [|done].
        by eapply validated_on_config.
    + intros Hne. cbn. unfold vm. rewrite decide_True; [done|].
      unfold len. destruct (rows (_split_data s1 df).2); [done|cbn; lia].
  - assert (config s1 = config s1') as Hc1 by done.
    pose proof (split_data_config s1 s1' df Hc1) as Hsplit.
    replace s1' with {| config := config s1'; model := Some m;
                        validation_metrics := validation_metrics s1' |} at 2
      by (destruct s1'; cbn in *; by subst).
    apply fit_intro; rewrite <- ?Hsplit.
    + by eapply fitted_on_config.
    + exists m1. by eapply fitted_on_config.
    + destruct (decide (0 < len (_split_data s1 df).2)%nat); [|done].
      by eapply validated_on_config.
Qed.

(** X4. A [fit] that raises leaves the model set unless it was
    [_create_model] that failed: the object then holds a model that was
    created but not fitted, or one fitted on the training rows only, and
    the guard of [predict] no longer fires. *)
Theorem failed_fit_leaves_a_model
    (self self' : TrafficProphetModel) (df : DataFrame) (e : exn) :
  fit df self = (Raise e, self') →
  config self' = config self ∧
  ((_create_model self = Raise e ∧ self' = self) ∨
   (∃ m0, _create_model self = Ok m0 ∧
          (model self' = Some m0 ∨
           ∃ m1, fitted_on self (_split_data self df).1 m1 ∧ model self' = Some m1) ∧
          ∀ periods, (predict periods self').1 ≠ Raise not_fitted_predict)).
Proof.
  unfold fit, _validate. se_unfold. cbv beta iota.
  destruct (_split_data self df) as [train_df test_df] eqn:Hsplit.
  cbn [fst snd]. intros Hfit.
  assert (∀ (s : TrafficProphetModel) m periods,
            model s = Some m → (predict periods s).1 ≠ Raise not_fitted_predict) as Hguard.
  { intros s m periods Hm. rewrite (predict_fitted s m) by done. cbn.
    destruct (make_future_dataframe periods m) as [future|]; cbn; [|done].
    by destruct (Prophet_predict future m). }
  destruct (_create_model self) as [m0|] eqn:Hm0; cbv beta iota in Hfit.
  2:{ inversion Hfit; subst. split; [done|]. by left. }
  assert (∀ s : TrafficProphetModel, config s = config self → model s = Some m0 →
            ∃ m0', Ok (A := Prophet) m0 = Ok m0' ∧
                (model s = Some m0' ∨
                 ∃ m1, fitted_on self train_df m1 ∧ model s = Some m1) ∧
                ∀ periods, (predict periods s).1 ≠ Raise not_fitted_predict) as Hunfit.
  { intros s Hc Hm. exists m0. split; [done|].
    split; [by left|]. intros p. by eapply Hguard. }
  destruct (select ["ds"; "y"] train_df) as [tr|] eqn:Htr; cbv beta iota in Hfit.
  2:{ inversion Hfit; subst. split; [done|]. right. by apply Hunfit. }
  destruct (Prophet_fit tr m0) as [m1|] eqn:Hm1; cbv beta iota in Hfit; cbn [from_lib] in Hfit.
  2:{ inversion Hfit; subst. split; [done|]. right. by apply Hunfit. }
  assert (fitted_on self train_df m1) as Htrain by (by exists m0, tr).
  assert (∀ s : TrafficProphetModel, config s = config self → model s = Some m1 →
            ∃ m0', Ok (A := Prophet) m0 = Ok m0' ∧
                (model s = Some m0' ∨
                 ∃ m1, fitted_on self train_df m1 ∧ model s = Some m1) ∧
                ∀ periods, (predict periods s).1 ≠ Raise not_fitted_predict) as Hfitted.
  { intros s Hc Hm. exists m0. split; [done|].
    split; [right; by exists m1|]. intros p. by eapply Hguard. }
  destruct (decide (0 < len test_df)%nat) as [Hpos|Hpos].
  - cbn [model or_raise] in Hfit.
    destruct (select ["ds"] test_df) as [ds|] eqn:Hds; cbv beta iota in Hfit.
    2:{ inversion Hfit; subst. split; [done|]. right. by apply Hfitted. }
    destruct (Prophet_predict ds m1) as [fc|] eqn:Hfc; cbv beta iota in Hfit;
      cbn [from_lib] in Hfit.
    2:{ inversion Hfit; subst. split; [done|]. right. by apply Hfitted. }
    destruct (validation_of (len train_df) fc test_df) as [vm|] eqn:Hvm;
      cbv beta iota in Hfit.
    2:{ inversion Hfit; subst. split; [done|]. right. by apply Hfitted. }
    destruct (select ["ds"; "y"] df) as [full|] eqn:Hfull; cbv beta iota in Hfit.
    2:{ inversion Hfit; subst. split; [done|]. right. by apply Hunfit. }
    destruct (Prophet_fit full m0) as [m2|] eqn:Hm2; cbv beta iota in Hfit;
      cbn [from_lib] in Hfit; [discriminate|].
    inversion Hfit; subst. split; [done|]. right. by apply Hunfit.
  - destruct (select ["ds"; "y"] df) as [full|] eqn:Hfull; cbv beta iota in Hfit.
    2:{ inversion Hfit; subst. split; [done|]. right. by apply Hunfit. }
    destruct (Prophet_fit full m0) as [m2|] eqn:Hm2; cbv beta iota in Hfit;
      cbn [from_lib] in Hfit; [discriminate|].
    inversion Hfit; subst. split; [done|]. right. by apply Hunfit.
Qed.

Lemma project_row_twice (cs cs' : list string) (r : gmap string cell) :
  cs ⊆ cs' → project_row cs (project_row cs' r) = project_row cs r.
Proof.
  intros Hsub. apply map_eq. intros k. rewrite !project_row_lookup.
  destruct (decide (k ∈ cs)) as [Hk|]; [|done].
  by rewrite decide_True by (by apply Hsub).
Qed.

Lemma select_of_projection (cs cs' : list string) (df1 df2 : DataFrame) :
  cs ⊆ cs' → cs ⊆ columns df1 → cs ⊆ columns df2 →
  project_row cs' <$> rows df1 = project_row cs' <$> rows df2 →
  select cs df1 = select cs df2.
Proof.
  intros Hsub H1 H2 Hrows. rewrite !select_Ok by done. do 2 f_equal.
  transitivity (project_row cs <$> (project_row cs' <$> rows df1)).
  - rewrite <- list_fmap_compose. apply list_fmap_ext. intros _ r _. cbn.
    by rewrite project_row_twice.
  - rewrite Hrows, <- list_fmap_compose. apply list_fmap_ext. intros _ r _. cbn.
    by rewrite project_row_twice.
Qed.

Lemma getcol_of_projection (c : string) (cs : list string) (df1 df2 : DataFrame) :
  c ∈ cs → c ∈ columns df1 → c ∈ columns df2 →
  project_row cs <$> rows df1 = project_row cs <$> rows df2 →
  getcol c df1 = getcol c df2.
Proof.
  intros Hc H1 H2 Hrows. unfold getcol. rewrite !decide_True by done. f_equal.
  transitivity (mapM (λ r : gmap string cell, r !! c) (project_row cs <$> rows df1)).
  - generalize (rows df1). intros l. induction l as [|r l IH]; [done|].
    cbn. rewrite project_row_lookup, decide_True by done. by rewrite IH.
  - rewrite Hrows. generalize (rows df2). intros l. induction l as [|r l IH]; [done|].
    cbn. rewrite project_row_lookup, decide_True by done. by rewrite IH.
Qed.

(** X5. [fit] reads the 'ds' and 'y' columns of its table and nothing
    else: on two tables with the same 'ds' and 'y' in every row it does the
    same, so a column added to the table (the 'day_name' that the analyzer
    adds, say) makes no difference. *)
Theorem fit_reads_ds_and_y (self : TrafficProphetModel) (df1 df2 : DataFrame) :
  ["ds"; "y"] ⊆ columns df1 → ["ds"; "y"] ⊆ columns df2 →
  project_row ["ds"; "y"] <$> rows df1 = project_row ["ds"; "y"] <$> rows df2 →
  fit df1 self = fit df2 self.
Proof.
  intros Hc1 Hc2 Hrows.
  assert (len df1 = len df2) as Hlen.
  { unfold len. by rewrite <- (length_fmap (project_row ["ds"; "y"]) (rows df1)), Hrows,
      length_fmap. }
  pose (k := slice_bound (Z.max (Z.of_nat (len df1) - validation_days (config self))
                            (int_mul_0_8 (Z.of_nat (len df1)))) (len df1)).
  assert (∀ df, len df = len df1 →
            _split_data self df = ({| columns := columns df; rows := take k (rows df) |},
                                   {| columns := columns df; rows := drop k (rows df) |}))
    as Hsplit.
  { intros df Hl. unfold _split_data, iloc_to, iloc_from, k. by rewrite Hl. }
  unfold fit, _validate, validation_of. se_unfold. cbv beta iota.
  rewrite (Hsplit df1 eq_refl), (Hsplit df2 (eq_sym Hlen)).
  set (tr1 := {| columns := columns df1; rows := take k (rows df1) |}).
  set (te1 := {| columns := columns df1; rows := drop k (rows df1) |}).
  set (tr2 := {| columns := columns df2; rows := take k (rows df2) |}).
  set (te2 := {| columns := columns df2; rows := drop k (rows df2) |}).
  assert (project_row ["ds"; "y"] <$> rows tr1 = project_row ["ds"; "y"] <$> rows tr2)
    as Htr by (cbn; by rewrite !fmap_take, Hrows).
  assert (project_row ["ds"; "y"] <$> rows te1 = project_row ["ds"; "y"] <$> rows te2)
    as Hte by (cbn; by rewrite !fmap_drop, Hrows).
  assert (len tr1 = len tr2) as ->.
  { unfold len. cbn. rewrite !length_take. fold (len df1) (len df2). by rewrite Hlen. }
  assert (len te1 = len te2) as ->.
  { unfold len. cbn. rewrite !length_drop. fold (len df1) (len df2). by rewrite Hlen. }
  rewrite (select_of_projection ["ds"; "y"] ["ds"; "y"] tr1 tr2) by done.
  assert ("ds" ∈ columns df1 ∧ "y" ∈ columns df1 ∧ "ds" ∈ columns df2 ∧ "y" ∈ columns df2)
    as (Hds1 & Hy1 & Hds2 & Hy2) by (repeat split; (apply Hc1 || apply Hc2); in_list).
  assert (∀ cols : list string, "ds" ∈ cols → ["ds"] ⊆ cols) as Hsub.
  { intros cols Hin x Hx. apply list_elem_of_singleton in Hx. by subst. }
  rewrite (select_of_projection ["ds"] ["ds"; "y"] te1 te2)
    by (done || (apply Hsub; (done || in_list))).
  rewrite (getcol_of_projection "y" ["ds"; "y"] te1 te2) by (done || in_list).
  rewrite (select_of_projection ["ds"; "y"] ["ds"; "y"] df1 df2) by done.
  reflexivity.
Qed.

(** X6. [predict] and [cross_validate] change nothing in the object, however
    they end. What [predict] returns is the library's forecast for the
    future frame the library made for [periods] days; what [cross_validate]
    returns is the library's cross-validation frame, and it returns only if
    the metrics the library computes from that frame have a 'mape' and a
    'coverage' column. *)
Theorem predict_and_cross_validate_only_read
    (self : TrafficProphetModel) (periods initial_days period_days horizon_days : Z) :
  (predict periods self).2 = self ∧
  (cross_validate initial_days period_days horizon_days self).2 = self ∧
  (∀ forecast, (predict periods self).1 = Ok forecast →
     ∃ m future, model self = Some m ∧
       make_future_dataframe periods m = Done future ∧
       Prophet_predict future m = Done forecast) ∧
  (∀ cv_results,
     (cross_validate initial_days period_days horizon_days self).1 = Ok cv_results →
     ∃ m metrics_df, model self = Some m ∧
       cross_validation m (pretty initial_days +:+ " days")
         (pretty period_days +:+ " days") (pretty horizon_days +:+ " days")
       = Done cv_results ∧
       performance_metrics cv_results = Done metrics_df ∧
       "mape" ∈ columns metrics_df ∧ "coverage" ∈ columns metrics_df).
Proof.
  destruct (model self) as [m|] eqn:Hm.
  - rewrite (predict_fitted self m) by done.
    rewrite (cross_validate_fitted self m) by done. cbn [fst snd].
    split; [done|]. split; [done|]. split.
    + intros forecast.
      destruct (make_future_dataframe periods m) as [future|] eqn:Hf; cbn; [|done].
      destruct (Prophet_predict future m) as [fc|] eqn:Hp; cbn; [|done].
      intros [= <-]. by exists m, future.
    + intros cv_results.
      destruct (cross_validation _ _ _ _) as [cv|] eqn:Hcv; cbn; [|done].
      destruct (performance_metrics cv) as [md|] eqn:Hmd; cbn; [|done].
      destruct (getcol "mape" md) as [s1|] eqn:H1; cbn; [|done].
      destruct (getcol "coverage" md) as [s2|] eqn:H2; cbn; [|done].
      intros [= <-]. exists m, md.
      apply getcol_Ok in H1 as [H1 _]. apply getcol_Ok in H2 as [H2 _]. done.
  - unfold predict, cross_validate. se_unfold. cbv beta iota. rewrite Hm. cbn.
    split; [done|]. split; [done|]. split; intros ?; discriminate.
Qed.

End Model_more.

(** ** Further properties of [get_future_predictions] *)

(** The 'ds' column of a frame whose rows are dated. *)
Lemma ds_column (df : DataFrame) :
  "ds" ∈ columns df → Forall (has_time "ds") (rows df) →
  getcol "ds" df ≫= mapR cell_time = Ok (time_of <$> rows df).
Proof.
  intros Hc Hr.
  rewrite (getcol_total "ds" df (λ r, default (CInt 0) (r !! "ds")));
    [|done | eapply Forall_impl; [exact Hr|]; intros r (t & Ht); by rewrite Ht].
  cbn. apply mapR_Ok, Forall2_fmap, Forall_Forall2_diag.
  eapply Forall_impl; [exact Hr|].
  intros r (t & Ht). unfold time_of. by rewrite Ht.
Qed.

(** The rows a bound selects: those dated after it, none when the bound is
    NaT. *)
Lemma gt_mask_filter (bound : option Timestamp) (rs : list (gmap string cell)) :
  Forall (has_time "ds") rs →
  mask_filter (gt_mask (time_of <$> rs) bound) rs
  = filter (λ r, from_option (λ m, is_future m r) false bound) rs.
Proof.
  intros Hrs. destruct bound as [m|]; cbn.
  - rewrite <- list_fmap_compose, <- mask_filter_fmap. f_equal.
    apply Forall_fmap_ext. eapply Forall_impl; [exact Hrs|].
    intros r (t & Ht). cbn. unfold time_of, is_future. by rewrite Ht.
  - rewrite <- list_fmap_compose.
    by rewrite <- (mask_filter_fmap (λ _ : gmap string cell, false)).
Qed.

(** [get_future_predictions], after its selection of the future rows. *)
Lemma get_future_predictions_selected (forecast historical_df : DataFrame) :
  "ds" ∈ columns historical_df → Forall (has_time "ds") (rows historical_df) →
  "ds" ∈ columns forecast → Forall (has_time "ds") (rows forecast) →
  get_future_predictions forecast historical_df =
    (let bound := series_max (time_of <$> rows historical_df) in
     let ff := {| columns := columns forecast;
                  rows := filter (λ r, from_option (λ m, is_future m r) false bound)
                            (rows forecast) |} in
     predicted ← getcol "yhat" ff ≫= round_astype_int;
     f1 ← setcol "predicted" predicted ff;
     lower_bound ← getcol "yhat_lower" f1 ≫= round_astype_int;
     f2 ← setcol "lower_bound" lower_bound f1;
     upper_bound ← getcol "yhat_upper" f2 ≫= round_astype_int;
     f3 ← setcol "upper_bound" upper_bound f2;
     select ["ds"; "predicted"; "lower_bound"; "upper_bound"] f3).
Proof.
  intros Hhc Hhr Hfc Hfr. unfold get_future_predictions.
  pose proof (ds_column historical_df Hhc Hhr) as Hh.
  destruct (getcol "ds" historical_df) as [hist_ds|]; [|done]. cbn in Hh |- *.
  rewrite Hh. cbn.
  pose proof (ds_column forecast Hfc Hfr) as Hf.
  destruct (getcol "ds" forecast) as [forecast_ds|]; [|done]. cbn in Hf |- *.
  rewrite Hf. cbn.
  unfold bool_index at 1.
  rewrite decide_True.
  2:{ unfold len. destruct (series_max _); cbn; by rewrite !length_fmap. }
  cbn [mbind result_bind]. by rewrite gt_mask_filter.
Qed.


Lemma mapR_error_of {A B} (f : A → result B) (l : list A) (e e' : exn) :
  Forall (λ x, ∀ e'', f x = Raise e'' → e'' = e) l →
  mapR f l = Raise e' → e' = e.
Proof.
  unfold mapR. induction 1 as [|x l Hx _ IH]; cbn; [done|].
  destruct (f x) as [y|ex] eqn:Hfx; cbn.
  - destruct (mapM f l) as [k|el]; cbn; [done|].
    intros [= <-]. by apply IH.
  - intros [= <-]. by apply Hx.
Qed.

Lemma round_cell_number (v : cell) (x : float) :
  cell_float v = Ok x → ∃ w y, round_cell v = Ok w ∧ cell_float w = Ok y.
Proof.
  destruct v as [z|[q| | |]| | |]; cbn; intros [= <-]; eauto.
Qed.

Lemma astype_int_number (w : cell) (y : float) :
  cell_float w = Ok y →
  ∀ e, astype_int_cell w = Raise e →
       e = ValueError "Cannot convert non-finite values (NA or inf) to integer".
Proof.
  destruct w as [z|[q| | |]| | |]; cbn; intros [= <-] e; by intros [= <-].
Qed.

Lemma round_astype_int_finite (v o : cell) (x : float) :
  cell_float v = Ok x → round_cell v ≫= astype_int_cell = Ok o →
  ∃ q, cell_num v = Ok q.
Proof.
  destruct v as [z|[q| | |]| | |]; cbn; intros [= <-]; try done; eauto.
Qed.

(** [df[src].round().astype(int)] on a column of numbers: it raises when an
    entry is NaN or infinite. *)
Lemma rounding_step (src : string) (df : DataFrame) :
  src ∈ columns df → Forall (has_float src) (rows df) →
  (Forall (has_num src) (rows df) ∧
   getcol src df ≫= round_astype_int = Ok (A := Series) (rounded_at src <$> rows df))
  ∨ (¬ Forall (has_num src) (rows df) ∧
     getcol src df ≫= round_astype_int
     = Raise (ValueError "Cannot convert non-finite values (NA or inf) to integer")).
Proof.
  intros Hsrc Hfl.
  set (cell_of := λ r : gmap string cell, default (CInt 0) (r !! src)).
  assert (getcol src df = Ok (cell_of <$> rows df)) as Hcol.
  { apply getcol_total; [done|]. eapply Forall_impl; [exact Hfl|].
    intros r (v & x & Hv & _). unfold cell_of. by rewrite Hv. }
  assert (Forall (λ v, ∃ x, cell_float v = Ok x) (cell_of <$> rows df)) as Hnums.
  { apply Forall_fmap. eapply Forall_impl; [exact Hfl|].
    intros r (v & x & Hv & Hx). exists x. unfold cell_of. cbn. by rewrite Hv. }
  destruct (getcol src df ≫= round_astype_int) as [k|e] eqn:Hres.
  - left. assert (Forall (has_num src) (rows df)) as Hnum.
    { rewrite Hcol in Hres. cbn in Hres. unfold round_astype_int in Hres.
      destruct (mapR round_cell (cell_of <$> rows df)) as [mid|] eqn:Hmid; [|done].
      cbn in Hres. apply mapR_Ok in Hmid, Hres.
      apply Forall2_fmap_l in Hmid.
      apply Forall_forall. intros r Hr.
      apply list_elem_of_lookup in Hr as (i & Hi).
      destruct (Forall2_lookup_l _ _ _ _ _ Hmid Hi) as (w & Hw & Hrw).
      destruct (Forall2_lookup_l _ _ _ _ _ Hres Hw) as (o & Ho & Hwo).
      rewrite Forall_forall in Hfl.
      destruct (Hfl r (list_elem_of_lookup_2 _ _ _ Hi)) as (v & x & Hv & Hx).
      cbn in Hrw. unfold cell_of in Hrw. rewrite Hv in Hrw. cbn in Hrw.
      destruct (round_astype_int_finite v o x Hx) as (q & Hq).
      { by rewrite Hrw. }
      by exists v, q. }
    split; [done|]. first [by apply round_column | rewrite <- Hres; by apply round_column].
  - right. split.
    + intros Hnum. by rewrite round_column in Hres.
    + f_equal. rewrite Hcol in Hres. cbn in Hres.
      unfold round_astype_int in Hres.
      destruct (mapR round_cell (cell_of <$> rows df)) as [mid|e0] eqn:Hmid.
      * cbn in Hres. eapply mapR_error_of; [|exact Hres].
        apply mapR_Ok in Hmid. apply Forall_forall. intros w Hw.
        apply list_elem_of_lookup in Hw as (i & Hi).
        destruct (Forall2_lookup_r _ _ _ _ _ Hmid Hi) as (v & Hv & Hvw).
        rewrite Forall_forall in Hnums.
        destruct (Hnums v (list_elem_of_lookup_2 _ _ _ Hv)) as (x & Hx).
        destruct (round_cell_number v x Hx) as (w' & y & Hw' & Hy).
        assert (w' = w) as -> by congruence.
        by eapply astype_int_number.
      * exfalso. cbn in Hres.
        assert (∃ mid, mapR round_cell (cell_of <$> rows df) = Ok mid) as [mid Hmid'];
          [|congruence].
        exists ((λ v, match round_cell v with Ok w => w | _ => v end) <$> (cell_of <$> rows df)).
        apply mapR_total. eapply Forall_impl; [exact Hnums|].
        intros v (x & Hx). destruct (round_cell_number v x Hx) as (w & _ & -> & _). done.
Qed.

Lemma has_float_insert (c c' : string) (w : cell) (r : gmap string cell) :
  c ≠ c' → has_float c r → has_float c (<[c' := w]> r).
Proof. intros Hne (v & x & Hv & Hx). exists v, x. by rewrite lookup_insert_ne. Qed.

Lemma has_num_insert (c c' : string) (w : cell) (r : gmap string cell) :
  c ≠ c' → has_num c (<[c' := w]> r) ↔ has_num c r.
Proof.
  intros Hne. unfold has_num. by setoid_rewrite lookup_insert_ne.
Qed.

(** X8. The estimates of the rows [get_future_predictions] keeps must be
    finite: when every forecast row dated after the latest historical date
    has finite 'yhat', 'yhat_lower' and 'yhat_upper' it returns one row for
    each of them, and when one of them holds a NaN or an infinity it raises
    the ValueError of [astype(int)]. What the other rows hold does not
    matter. *)
Theorem get_future_predictions_needs_finite_estimates
    (forecast historical_df : DataFrame) :
  ["ds"; "yhat"; "yhat_lower"; "yhat_upper"] ⊆ columns forecast →
  Forall (λ r, has_time "ds" r ∧ has_float "yhat" r ∧ has_float "yhat_lower" r ∧
               has_float "yhat_upper" r) (rows forecast) →
  "ds" ∈ columns historical_df →
  Forall (has_time "ds") (rows historical_df) →
  rows historical_df ≠ [] →
  ∃ m, series_max (time_of <$> rows historical_df) = Some m ∧
    let future := filter (λ r, is_future m r) (rows forecast) in
    (Forall forecast_row future ∧
     ∃ out, get_future_predictions forecast historical_df = Ok out ∧
            len out = length future)
    ∨ (¬ Forall forecast_row future ∧
       get_future_predictions forecast historical_df
       = Raise (ValueError "Cannot convert non-finite values (NA or inf) to integer")).
Proof.
  intros Hcols Hrows Hhc Hhr Hne.
  destruct (series_max_spec (time_of <$> rows historical_df)) as (m & Hmax & _).
  { by destruct (rows historical_df). }
  exists m. split; [done|]. intros future.
  assert ("ds" ∈ columns forecast ∧ "yhat" ∈ columns forecast ∧
          "yhat_lower" ∈ columns forecast ∧ "yhat_upper" ∈ columns forecast)
    as (Hd & Hy & Hl & Hu) by (repeat split; apply Hcols; in_list).
  set (ff := {| columns := columns forecast; rows := future |}).
  assert (get_future_predictions forecast historical_df =
            (predicted ← getcol "yhat" ff ≫= round_astype_int;
             f1 ← setcol "predicted" predicted ff;
             lower_bound ← getcol "yhat_lower" f1 ≫= round_astype_int;
             f2 ← setcol "lower_bound" lower_bound f1;
             upper_bound ← getcol "yhat_upper" f2 ≫= round_astype_int;
             f3 ← setcol "upper_bound" upper_bound f2;
             select ["ds"; "predicted"; "lower_bound"; "upper_bound"] f3)) as ->.
  { rewrite get_future_predictions_selected;
      [| done | done | done | eapply Forall_impl; [exact Hrows|]; by intros r [? _]].
    by rewrite Hmax. }
  assert (Forall (λ r, has_time "ds" r ∧ has_float "yhat" r ∧ has_float "yhat_lower" r ∧
                       has_float "yhat_upper" r) future) as Hfut.
  { apply Forall_forall. intros r Hr%list_elem_of_filter.
    rewrite Forall_forall in Hrows. apply Hrows, Hr. }
  destruct (rounding_step "yhat" ff) as [[Hn1 E1]|[Hn1 E1]];
    [done | eapply Forall_impl; [exact Hfut|]; by intros r (_ & ? & _) | |].
  all: rewrite E1.
  2:{ right. split; [|done]. intros Hall. apply Hn1.
      eapply Forall_impl; [exact Hall|]. by intros r (_ & ? & _). }
  cbn [mbind result_bind]. rewrite setcol_fmap. cbn [mbind result_bind].
  set (f1 := {| columns := _; rows := _ |}).
  destruct (rounding_step "yhat_lower" f1) as [[Hn2 E2]|[Hn2 E2]].
  { apply add_column_elem. by right. }
  { apply Forall_fmap. eapply Forall_impl; [exact Hfut|].
    intros r (_ & _ & ? & _). by apply has_float_insert. }
  2:{ rewrite E2. right. split; [|done]. intros Hall. apply Hn2.
      apply Forall_fmap. eapply Forall_impl; [exact Hall|].
      intros r (_ & _ & ? & _). cbn. apply has_num_insert; done. }
  rewrite E2. cbn [mbind result_bind]. rewrite setcol_fmap. cbn [mbind result_bind].
  set (f2 := {| columns := _; rows := _ |}).
  destruct (rounding_step "yhat_upper" f2) as [[Hn3 E3]|[Hn3 E3]].
  { do 2 (apply add_column_elem; right). done. }
  { cbn. rewrite <- list_fmap_compose. apply Forall_fmap.
    eapply Forall_impl; [exact Hfut|].
    intros r (_ & _ & _ & ?). cbn. do 2 (apply has_float_insert; [done|]). done. }
  2:{ rewrite E3. right. split; [|done]. intros Hall. apply Hn3.
      cbn. rewrite <- list_fmap_compose. apply Forall_fmap.
      eapply Forall_impl; [exact Hall|].
      intros r (_ & _ & _ & ?). cbn. do 2 (apply has_num_insert; [done|]). done. }
  rewrite E3. cbn [mbind result_bind]. rewrite setcol_fmap. cbn [mbind result_bind].
  left. split.
  - apply Forall_forall. intros r Hr.
    rewrite Forall_forall in Hfut. destruct (Hfut r Hr) as (Ht & _).
    split; [done|].
    rewrite Forall_forall in Hn1. split; [by apply Hn1|].
    assert (has_num "yhat_lower" r ∧ has_num "yhat_upper" r) as [? ?]; [|done].
    split.
    + cbn in Hn2. rewrite Forall_fmap, Forall_forall in Hn2.
      specialize (Hn2 r Hr). cbn in Hn2. by apply has_num_insert in Hn2; [|done].
    + cbn in Hn3. rewrite <- list_fmap_compose, Forall_fmap, Forall_forall in Hn3.
      specialize (Hn3 r Hr). cbn in Hn3.
      do 2 (apply has_num_insert in Hn3; [|done]). done.
  - eexists. split.
    + apply select_Ok. intros c Hc. unfold f2, f1, ff. cbn [columns].
      rewrite !add_column_elem.
      repeat (apply elem_of_cons in Hc as [->|Hc]); [..|by apply elem_of_nil in Hc]; auto.
    + unfold len. cbn. by rewrite !length_fmap.
Qed.

(** ** The validation metrics *)

Lemma mean_skipna_all_nan (l : list float) :
  Forall (λ x, x = NaN) l → mean_skipna l = NaN.
Proof.
  intros Hl. unfold mean_skipna.
  assert (filter (λ x, x ≠ NaN) l = []) as ->; [|done].
  induction Hl as [|x l -> _ IH]; [done|].
  by rewrite filter_cons_False by (by intros []).
Qed.

Lemma label_get_Some (i : nat) (s : list (nat * float)) (x : float) :
  label_get i s = Some x → i ∈ s.*1.
Proof.
  unfold label_get. intros Hx.
  destruct (decide (i ∈ s.*1)) as [|Hn]; [done|].
  apply (not_elem_of_list_to_map_1 (M := gmap nat)) in Hn. congruence.
Qed.

(** The difference of two Series that share no label is NaN throughout. *)
Lemma series_sub_disjoint (a b : list (nat * float)) :
  (∀ i, i ∈ a.*1 → i ∉ b.*1) →
  Forall (λ x, x = NaN) (fabs <$> (series_sub_aligned a b).*2).
Proof.
  intros Hdisj. unfold series_sub_aligned.
  rewrite <- !list_fmap_compose. apply Forall_fmap, Forall_forall.
  intros i _. cbn.
  destruct (label_get i a) as [x|] eqn:Ha; [|done].
  destruct (label_get i b) as [y|] eqn:Hb; [|done].
  apply label_get_Some in Ha, Hb. by destruct (Hdisj i).
Qed.

Lemma zip_fst_elem {A B} (l : list A) (k : list B) (x : A) :
  x ∈ (zip l k).*1 → x ∈ l.
Proof.
  intros ([x' y] & -> & Hxy)%list_elem_of_fmap. cbn.
  by apply elem_of_zip_l in Hxy.
Qed.

Lemma pandas_mean_abs_sub_disjoint (a b : list (nat * cell)) (x : float) :
  (∀ i, i ∈ a.*1 → i ∉ b.*1) →
  pandas_mean_abs_sub a b = Done x → x = NaN.
Proof.
  intros Hdisj. unfold pandas_mean_abs_sub.
  destruct (mapR cell_float a.*2) as [xs|]; [|done].
  destruct (mapR cell_float b.*2) as [ys|]; [|done].
  intros [= <-]. apply mean_skipna_all_nan, series_sub_disjoint.
  intros i Ha Hb. apply zip_fst_elem in Ha, Hb. by destruct (Hdisj i).
Qed.

Lemma with_index_labels (start : nat) (s : Series) :
  (with_index start s).*1 = seq start (length s).
Proof. unfold with_index. apply fst_zip. by rewrite length_seq. Qed.

Lemma select_rows (cs : list string) (df out : DataFrame) :
  select cs df = Ok out → rows out = project_row cs <$> rows df.
Proof.
  unfold select. destruct (list_find _ cs) as [[i c]|]; [done|]. by intros [= <-].
Qed.

Section Validation_spec.
Context `{ProphetLib} `{MetricsLib}.

(** X9. The mean absolute error that [fit] keeps is NaN for every table of
    two rows or more. [_validate] subtracts the test rows' 'y', which keep
    the labels they have in the table (from the training size on), from the
    forecast's 'yhat', which the library labels from 0; as the test part is
    never longer than the training part, no label is in both, and the
    difference that [np.mean] averages holds NaN only. *)
Theorem validation_mae_is_nan (self self' : TrafficProphetModel) (df : DataFrame) :
  (∀ a b, np_mean_abs_sub a b = pandas_mean_abs_sub a b) →
  (∀ ds m forecast, Prophet_predict ds m = Done forecast → len forecast = len ds) →
  0 < validation_days (config self) →
  (2 ≤ len df)%nat →
  fit df self = (Ok tt, self') →
  validation_metrics self' !! "mae" = Some NaN.
Proof.
  intros Hnp Hpredict Hvd Hn Hfit.
  apply fit_inv in Hfit as (_ & _ & _ & Hval). cbv zeta in Hval.
  destruct (split_data_lengths self df) as [Htr Hte].
  set (train_df := (_split_data self df).1) in *.
  set (test_df := (_split_data self df).2) in *.
  assert (0 ≤ int_mul_0_8 (Z.of_nat (len df)) ≤ Z.of_nat (len df) ∧
          Z.of_nat (len df) ≤ 2 * int_mul_0_8 (Z.of_nat (len df)) ∧
          int_mul_0_8 (Z.of_nat (len df)) < Z.of_nat (len df)) as H08.
  { unfold int_mul_0_8. pose proof (Z.div_mod (Z.of_nat (len df) * 4) 5).
    pose proof (Z.mod_pos_bound (Z.of_nat (len df) * 4) 5). lia. }
  assert (0 < len test_df ≤ len train_df)%nat as Hsizes by lia.
  rewrite decide_True in Hval by lia.
  destruct Hval as (m & ds & fc & _ & Hds & Hfc & Hvm).
  apply select_rows in Hds. apply Hpredict in Hfc.
  assert (len fc = len test_df) as Hlen.
  { rewrite Hfc. unfold len. by rewrite Hds, length_fmap. }
  unfold validation_of in Hvm.
  destruct (getcol "yhat" fc) as [yhat|] eqn:Hyhat; [|done].
  destruct (getcol "y" test_df) as [y|] eqn:Hy; [|done].
  cbn [mbind result_bind] in Hvm.
  rewrite Hnp in Hvm.
  destruct (pandas_mean_abs_sub _ _) as [mae|] eqn:Hmae; [|done].
  apply pandas_mean_abs_sub_disjoint in Hmae as ->.
  - cbn [from_lib mbind result_bind] in Hvm.
    destruct (mean_absolute_percentage_error y yhat); [|done].
    destruct (mean_squared_error y yhat); [|done].
    cbn in Hvm. injection Hvm as <-. apply lookup_insert_eq.
  - intros i. rewrite !with_index_labels, !elem_of_seq.
    apply getcol_length in Hyhat, Hy. lia.
Qed.

End Validation_spec.

(** ** The calendar features *)

Ltac zdiv := Z.to_euclidean_division_equations; lia.

Lemma era_year_of_day (doe : Z) :
  0 ≤ doe ≤ 146096 →
  let yoe := (doe - doe / 1460 + doe / 36524 - doe / 146096) / 365 in
  in_era_year doe yoe (doe - (365 * yoe + yoe / 4 - yoe / 100)).
Proof. intros Hdoe yoe. unfold in_era_year, era_year_start, leap_end. subst yoe. zdiv. Qed.

Lemma era_year_start_mono (a b : Z) :
  0 ≤ a → a < b → era_year_start (a + 1) ≤ era_year_start b.
Proof. unfold era_year_start. intros. zdiv. Qed.

Lemma era_year_length (y : Z) :
  0 ≤ y ≤ 399 →
  (leap_end y → y < 399 → era_year_start (y + 1) = era_year_start y + 366) ∧
  (¬ leap_end y → era_year_start (y + 1) = era_year_start y + 365) ∧
  era_year_start y + 365 ≤ era_year_start (y + 1).
Proof. intros Hy. unfold era_year_start, leap_end. zdiv. Qed.

Lemma in_era_year_unique (doe y1 d1 y2 d2 : Z) :
  in_era_year doe y1 d1 → in_era_year doe y2 d2 → y1 = y2 ∧ d1 = d2.
Proof.
  intros (Hy1 & Hd1 & Hb1 & Hl1) (Hy2 & Hd2 & Hb2 & Hl2).
  assert (y1 = y2) as ->; [|lia].
  destruct (Z.lt_trichotomy y1 y2) as [Hlt|[?|Hlt]]; [exfalso|done|exfalso].
  - pose proof (era_year_start_mono y1 y2 ltac:(lia) Hlt) as Hmono.
    destruct (era_year_length y1 Hy1) as (Hleap & Hnot & Hge).
    destruct (decide (d1 = 365)) as [->|].
    + specialize (Hleap (Hl1 eq_refl) ltac:(lia)). lia.
    + lia.
  - pose proof (era_year_start_mono y2 y1 ltac:(lia) Hlt) as Hmono.
    destruct (era_year_length y2 Hy2) as (Hleap & Hnot & Hge).
    destruct (decide (d2 = 365)) as [->|].
    + specialize (Hleap (Hl2 eq_refl) ltac:(lia)). lia.
    + lia.
Qed.

(** The day after day [doy] of year [yoe]. *)
Lemma in_era_year_succ (doe yoe doy yoe' doy' : Z) :
  doe < 146096 →
  in_era_year doe yoe doy → in_era_year (doe + 1) yoe' doy' →
  (yoe' = yoe ∧ doy' = doy + 1 ∧ (doy' = 365 → leap_end yoe)) ∨
  (yoe' = yoe + 1 ∧ doy' = 0 ∧ (doy = 365 ∨ (doy = 364 ∧ ¬ leap_end yoe))).
Proof.
  intros Hdoe H1 H2.
  pose proof H1 as (Hy & Hd & Hb & Hl).
  destruct (era_year_length yoe Hy) as (Hleap & Hnot & _).
  destruct (decide (doy < 364 ∨ (doy = 364 ∧ leap_end yoe))) as [Hin|Hout].
  - left. assert (in_era_year (doe + 1) yoe (doy + 1)) as H3.
    { unfold in_era_year. split; [done|]. split; [lia|]. split; [lia|].
      intros ?. destruct Hin as [?|[_ ?]]; [lia|done]. }
    destruct (in_era_year_unique _ _ _ _ _ H2 H3) as [-> ->].
    split; [done|]. split; [done|]. intros ?. destruct Hin as [?|[_ ?]]; [lia|done].
  - right. assert (doy = 365 ∨ (doy = 364 ∧ ¬ leap_end yoe)) as Hlast.
    { destruct (decide (leap_end yoe)) as [Hle|Hle].
      - left. destruct (decide (doy < 364)); [tauto|].
        destruct (decide (doy = 364)); [tauto|lia].
      - right. split; [|done]. destruct (decide (doy < 364)); [tauto|].
        destruct (decide (doy = 365)) as [E|]; [|lia]. by destruct (Hle (Hl E)). }
    assert (yoe < 399) as Hlt.
    { destruct (decide (yoe = 399)) as [->|]; [|lia]. exfalso.
      assert (leap_end 399) as H399 by (unfold leap_end; split; [done | by right]).
      destruct Hlast as [->|[_ ?]]; [|done].
      clear Hnot Hleap. unfold era_year_start in Hd. zdiv. }
    assert (in_era_year (doe + 1) (yoe + 1) 0) as H3.
    { unfold in_era_year. split; [lia|]. split; [|split; [lia|lia]].
      destruct Hlast as [->|[-> Hn]].
      - specialize (Hleap (Hl eq_refl) Hlt). lia.
      - specialize (Hnot Hn). lia. }
    destruct (in_era_year_unique _ _ _ _ _ H2 H3) as [-> ->]. done.
Qed.

Lemma month_of_day_cases (doy : Z) :
  0 ≤ doy ≤ 365 →
  let mp := (5 * doy + 2) / 153 in
  let first := (153 * mp + 2) / 5 in
  (mp = 0 ∧ first = 0 ∧ doy ≤ 30) ∨ (mp = 1 ∧ first = 31 ∧ doy ≤ 60) ∨
  (mp = 2 ∧ first = 61 ∧ doy ≤ 91) ∨ (mp = 3 ∧ first = 92 ∧ doy ≤ 121) ∨
  (mp = 4 ∧ first = 122 ∧ doy ≤ 152) ∨ (mp = 5 ∧ first = 153 ∧ doy ≤ 183) ∨
  (mp = 6 ∧ first = 184 ∧ doy ≤ 213) ∨ (mp = 7 ∧ first = 214 ∧ doy ≤ 244) ∨
  (mp = 8 ∧ first = 245 ∧ doy ≤ 274) ∨ (mp = 9 ∧ first = 275 ∧ doy ≤ 305) ∨
  (mp = 10 ∧ first = 306 ∧ doy ≤ 336) ∨ (mp = 11 ∧ first = 337 ∧ doy ≤ 365).
Proof.
  intros Hdoy mp first.
  assert (0 ≤ mp ≤ 11 ∧ 153 * mp ≤ 5 * doy + 2 < 153 * mp + 153) as [Hmp Hmpdoy]
    by (subst mp; zdiv).
  subst first. clearbody mp.
  assert (mp = 0 ∨ mp = 1 ∨ mp = 2 ∨ mp = 3 ∨ mp = 4 ∨ mp = 5 ∨ mp = 6 ∨ mp = 7 ∨
          mp = 8 ∨ mp = 9 ∨ mp = 10 ∨ mp = 11) as Hcases by lia.
  destruct Hcases as [E|[E|[E|[E|[E|[E|[E|[E|[E|[E|[E|E]]]]]]]]]]]; subst mp;
    [left | do 1 right; left | do 2 right; left | do 3 right; left
    | do 4 right; left | do 5 right; left | do 6 right; left | do 7 right; left
    | do 8 right; left | do 9 right; left | do 10 right; left | do 11 right];
    (split; [done|]; split; [reflexivity|lia]).
Qed.

Lemma civil_of_days_era (days : Z) :
  ∃ era doe yoe doy,
    days + 719468 = era * 146097 + doe ∧ 0 ≤ doe ≤ 146096 ∧
    in_era_year doe yoe doy ∧ civil_of_days days = date_in_era era yoe doy.
Proof.
  set (z := days + 719468). set (era := z / 146097).
  set (doe := z - era * 146097).
  assert (0 ≤ doe ≤ 146096) as Hdoe by (subst doe era; zdiv).
  exists era, doe. eexists _, _. split; [lia|]. split; [done|].
  split; [exact (era_year_of_day doe Hdoe)|]. reflexivity.
Qed.

Lemma date_in_era_cases (era yoe doy : Z) :
  0 ≤ doy ≤ 365 →
  let y := yoe + era * 400 in
  (doy ≤ 30 ∧ date_in_era era yoe doy = (y, 3, doy + 1)) ∨
  (31 ≤ doy ≤ 60 ∧ date_in_era era yoe doy = (y, 4, doy - 30)) ∨
  (61 ≤ doy ≤ 91 ∧ date_in_era era yoe doy = (y, 5, doy - 60)) ∨
  (92 ≤ doy ≤ 121 ∧ date_in_era era yoe doy = (y, 6, doy - 91)) ∨
  (122 ≤ doy ≤ 152 ∧ date_in_era era yoe doy = (y, 7, doy - 121)) ∨
  (153 ≤ doy ≤ 183 ∧ date_in_era era yoe doy = (y, 8, doy - 152)) ∨
  (184 ≤ doy ≤ 213 ∧ date_in_era era yoe doy = (y, 9, doy - 183)) ∨
  (214 ≤ doy ≤ 244 ∧ date_in_era era yoe doy = (y, 10, doy - 213)) ∨
  (245 ≤ doy ≤ 274 ∧ date_in_era era yoe doy = (y, 11, doy - 244)) ∨
  (275 ≤ doy ≤ 305 ∧ date_in_era era yoe doy = (y, 12, doy - 274)) ∨
  (306 ≤ doy ≤ 336 ∧ date_in_era era yoe doy = (y + 1, 1, doy - 305)) ∨
  (337 ≤ doy ≤ 365 ∧ date_in_era era yoe doy = (y + 1, 2, doy - 336)).
Proof.
  intros Hdoy y. unfold date_in_era.
  assert (∀ a b c a' b' c' : Z, a = a' → b = b' → c = c' → (a, b, c) = (a', b', c'))
    as Htriple by (by intros; subst).
  assert (153 * ((5 * doy + 2) / 153) ≤ 5 * doy + 2 < 153 * ((5 * doy + 2) / 153) + 153)
    as Hmp by zdiv.
  destruct (month_of_day_cases doy Hdoy)
    as [(E & F & ?)|[(E & F & ?)|[(E & F & ?)|[(E & F & ?)|[(E & F & ?)|[(E & F & ?)|
       [(E & F & ?)|[(E & F & ?)|[(E & F & ?)|[(E & F & ?)|[(E & F & ?)|(E & F & ?)]]]]]]]]]]];
    cbv zeta in F; rewrite F; rewrite E in Hmp |- *; cbv zeta;
    [left | do 1 right; left | do 2 right; left | do 3 right; left
    | do 4 right; left | do 5 right; left | do 6 right; left | do 7 right; left
    | do 8 right; left | do 9 right; left | do 10 right; left | do 11 right];
    (split; [lia|]; apply Htriple; subst y;
     repeat match goal with
       | |- context [Z.ltb ?a ?b] => destruct (Z.ltb_spec a b)
       | |- context [Z.leb ?a ?b] => destruct (Z.leb_spec a b)
       end; lia).
Qed.

Lemma is_leap_year_era (era yoe : Z) :
  0 ≤ yoe ≤ 399 →
  is_leap_year (yoe + era * 400 + 1) = true ↔ leap_end yoe.
Proof.
  intros Hy. unfold is_leap_year, leap_end.
  rewrite andb_true_iff, orb_true_iff, negb_true_iff, !Z.eqb_eq, Z.eqb_neq. zdiv.
Qed.

Lemma days_in_february (era yoe : Z) :
  0 ≤ yoe ≤ 399 →
  (leap_end yoe ∧ days_in_month (yoe + era * 400 + 1) 2 = 29) ∨
  (¬ leap_end yoe ∧ days_in_month (yoe + era * 400 + 1) 2 = 28).
Proof.
  intros Hy. unfold days_in_month. change (2 =? 2) with true. cbv iota.
  pose proof (is_leap_year_era era yoe Hy) as Hleap.
  destruct (is_leap_year _); [left|right]; (split; [|done]).
  - by apply Hleap.
  - intros Hl. apply Hleap in Hl. done.
Qed.

Lemma days_in_month_31 (y m : Z) :
  m = 1 ∨ m = 3 ∨ m = 5 ∨ m = 7 ∨ m = 8 ∨ m = 10 ∨ m = 12 → days_in_month y m = 31.
Proof. intros [->|[->|[->|[->|[->|[->| ->]]]]]]; reflexivity. Qed.

Lemma days_in_month_30 (y m : Z) :
  m = 4 ∨ m = 6 ∨ m = 9 ∨ m = 11 → days_in_month y m = 30.
Proof. intros [->|[->|[->| ->]]]; reflexivity. Qed.

Lemma triple_eq (a b c a' b' c' : Z) :
  a = a' → b = b' → c = c' → (a, b, c) = (a', b', c').
Proof. by intros -> -> ->. Qed.

Ltac next_date_case :=
  unfold next_date;
  rewrite ?days_in_month_31 by lia; rewrite ?days_in_month_30 by lia;
  repeat match goal with
    | |- context [Z.ltb ?a ?b] => destruct (Z.ltb_spec a b)
    end;
  first [ lia | apply triple_eq; lia
        | match goal with
          | Hn : ¬ leap_end ?y, Hl : _ → leap_end ?y |- _ => exfalso; apply Hn, Hl; lia
          end ].

(** The calendar advances day by day. *)
Lemma civil_of_days_succ (days : Z) :
  civil_of_days (days + 1) = next_date (civil_of_days days).
Proof.
  destruct (civil_of_days_era days) as (era & doe & yoe & doy & Hz & Hdoe & Hin & ->).
  destruct (civil_of_days_era (days + 1))
    as (era' & doe' & yoe' & doy' & Hz' & Hdoe' & Hin' & ->).
  pose proof Hin as (Hy & _ & Hb & Hl). pose proof Hin' as (Hy' & _ & Hb' & Hl').
  assert ((doe < 146096 ∧ era' = era ∧ doe' = doe + 1) ∨
          (doe = 146096 ∧ era' = era + 1 ∧ doe' = 0)) as [(Hlt & -> & ->)|(-> & -> & ->)]
    by lia.
  - destruct (in_era_year_succ doe yoe doy yoe' doy' Hlt Hin Hin')
      as [(-> & -> & Hleap)|(-> & -> & Hlast)].
    + destruct (date_in_era_cases era yoe doy Hb)
        as [(? & ->)|[(? & ->)|[(? & ->)|[(? & ->)|[(? & ->)|[(? & ->)|
           [(? & ->)|[(? & ->)|[(? & ->)|[(? & ->)|[(? & ->)|(? & ->)]]]]]]]]]]];
      destruct (date_in_era_cases era yoe (doy + 1) Hb')
        as [(? & ->)|[(? & ->)|[(? & ->)|[(? & ->)|[(? & ->)|[(? & ->)|
           [(? & ->)|[(? & ->)|[(? & ->)|[(? & ->)|[(? & ->)|(? & ->)]]]]]]]]]]];
      try lia;
      try (destruct (days_in_february era yoe Hy) as [[Hle E]|[Hle E]];
           unfold next_date; rewrite ?E);
      next_date_case.
    + destruct (date_in_era_cases era yoe doy Hb)
        as [(? & ->)|[(? & ->)|[(? & ->)|[(? & ->)|[(? & ->)|[(? & ->)|
           [(? & ->)|[(? & ->)|[(? & ->)|[(? & ->)|[(? & ->)|(? & ->)]]]]]]]]]]];
      try lia.
      destruct (date_in_era_cases era (yoe + 1) 0 Hb')
        as [(? & ->)|[(? & ->)|[(? & ->)|[(? & ->)|[(? & ->)|[(? & ->)|
           [(? & ->)|[(? & ->)|[(? & ->)|[(? & ->)|[(? & ->)|(? & ->)]]]]]]]]]]];
      try lia.
      destruct (days_in_february era yoe Hy) as [[Hle E]|[Hle E]];
        unfold next_date; rewrite E;
        (assert (doy = 365 ∨ doy = 364) as [-> | ->] by lia);
        try (by destruct Hlast as [?|[? ?]]; [lia|done]);
        try (by destruct Hle; apply Hl);
        next_date_case.
  - assert (in_era_year 146096 399 365) as H1.
    { unfold in_era_year, era_year_start, leap_end. zdiv. }
    assert (in_era_year (0 + 0) 0 0) as H2.
    { unfold in_era_year, era_year_start, leap_end. zdiv. }
    destruct (in_era_year_unique _ _ _ _ _ Hin H1) as [-> ->].
    destruct (in_era_year_unique _ _ _ _ _ Hin' H2) as [-> ->].
    destruct (date_in_era_cases era 399 365 Hb)
      as [(? & ->)|[(? & ->)|[(? & ->)|[(? & ->)|[(? & ->)|[(? & ->)|
         [(? & ->)|[(? & ->)|[(? & ->)|[(? & ->)|[(? & ->)|(? & ->)]]]]]]]]]]];
      try lia.
    destruct (date_in_era_cases (era + 1) 0 0 Hb')
      as [(? & ->)|[(? & ->)|[(? & ->)|[(? & ->)|[(? & ->)|[(? & ->)|
         [(? & ->)|[(? & ->)|[(? & ->)|[(? & ->)|[(? & ->)|(? & ->)]]]]]]]]]]];
      try lia.
    destruct (days_in_february era 399 Hy) as [[Hle E]|[Hle E]].
    + unfold next_date. rewrite E. next_date_case.
    + destruct Hle. by apply Hl.
Qed.

Lemma civil_bounds (days : Z) :
  let '(y, m, d) := civil_of_days days in
  1 ≤ m ≤ 12 ∧ 1 ≤ d ≤ days_in_month y m.
Proof.
  unfold civil_of_days. cbv zeta.
  set (z := days + 719468). set (era := z / 146097).
  set (doe := z - era * 146097).
  assert (0 ≤ doe ≤ 146096) as Hdoe by (subst doe era; zdiv).
  clearbody doe. clearbody era. clear z.
  set (yoe := (doe - doe / 1460 + doe / 36524 - doe / 146096) / 365).
  set (doy := doe - (365 * yoe + yoe / 4 - yoe / 100)).
  assert (0 ≤ yoe ≤ 399 ∧ 0 ≤ doy ≤ 365 ∧
          (doy = 365 → (yoe + 1) mod 4 = 0 ∧ ((yoe + 1) mod 100 ≠ 0 ∨ yoe = 399)))
    as (Hyoe & Hdoy & Hleap) by (subst doy yoe; zdiv).
  clearbody doy. clearbody yoe. clear doe Hdoe.
  set (mp := (5 * doy + 2) / 153).
  assert (0 ≤ mp ≤ 11 ∧ 153 * mp ≤ 5 * doy + 2 < 153 * mp + 153) as [Hmp Hmpdoy]
    by (subst mp; zdiv).
  clearbody mp.
  unfold days_in_month, is_leap_year.
  assert (mp = 0 ∨ mp = 1 ∨ mp = 2 ∨ mp = 3 ∨ mp = 4 ∨ mp = 5 ∨ mp = 6 ∨ mp = 7 ∨
          mp = 8 ∨ mp = 9 ∨ mp = 10 ∨ mp = 11) as Hcases by lia.
  destruct Hcases as [E|[E|[E|[E|[E|[E|[E|[E|[E|[E|[E|E]]]]]]]]]]];
    subst mp; simpl; try (split; [lia|]; zdiv).
  split; [lia|].
  destruct (_ mod 4 =? 0) eqn:H4; destruct (_ mod 100 =? 0) eqn:H100;
    destruct (_ mod 400 =? 0) eqn:H400; cbn [andb orb negb];
    rewrite ?Z.eqb_eq, ?Z.eqb_neq in *; zdiv.
Qed.

Lemma days_of_jan1_era (era yoe : Z) :
  0 ≤ yoe ≤ 399 →
  days_of_jan1 (yoe + era * 400 + 1) = era * 146097 + era_year_start yoe + 306 - 719468.
Proof. intros Hy. unfold days_of_jan1, era_year_start. cbv zeta. zdiv. Qed.

(** The day of the year, counted from 1. *)
Lemma ordinal_bounds (days : Z) :
  let y := (civil_of_days days).1.1 in
  1 ≤ days - days_of_jan1 y + 1 ≤ 366.
Proof.
  destruct (civil_of_days_era days) as (era & doe & yoe & doy & Hz & Hdoe & Hin & ->).
  pose proof Hin as (Hy & Hd & Hb & Hl).
  assert (days = era * 146097 + era_year_start yoe + doy - 719468) as -> by lia.
  destruct (date_in_era_cases era yoe doy Hb)
    as [(? & ->)|[(? & ->)|[(? & ->)|[(? & ->)|[(? & ->)|[(? & ->)|
       [(? & ->)|[(? & ->)|[(? & ->)|[(? & ->)|[(? & ->)|(? & ->)]]]]]]]]]]];
    cbn [fst snd]; rewrite ?days_of_jan1_era by done; try lia.
  all: destruct (decide (yoe = 0)) as [->|Hne];
    [ replace (0 + era * 400) with (399 + (era - 1) * 400 + 1) by lia;
      rewrite days_of_jan1_era by lia;
      assert (era_year_start 399 = 145731 ∧ era_year_start 0 = 0) as [-> ->]
        by (unfold era_year_start; split; reflexivity); lia
    | replace (yoe + era * 400) with (yoe - 1 + era * 400 + 1) by lia;
      rewrite days_of_jan1_era by lia;
      pose proof (era_year_length (yoe - 1) ltac:(lia)) as (_ & _ & Hlen);
      pose proof (era_year_start_mono (yoe - 1) (yoe + 1) ltac:(lia) ltac:(lia)) as Hmono;
      replace (yoe - 1 + 1) with yoe in * by lia;
      pose proof (era_year_length yoe Hy) as (Hleap & Hnot & _);
      destruct (decide (leap_end (yoe - 1))) as [Hle|Hle];
      [ pose proof (proj1 (era_year_length (yoe - 1) ltac:(lia)) Hle ltac:(lia)) as E
      | pose proof (proj1 (proj2 (era_year_length (yoe - 1) ltac:(lia))) Hle) as E ];
      replace (yoe - 1 + 1) with yoe in E by lia; lia ].
Qed.

Lemma iso_weeks_in_year_cases (y : Z) : iso_weeks_in_year y = 52 ∨ iso_weeks_in_year y = 53.
Proof. unfold iso_weeks_in_year. destruct (_ || _); auto. Qed.

Lemma iso_week_bounds (t : Timestamp) : 1 ≤ iso_week t ≤ 53.
Proof.
  unfold iso_week. cbv zeta.
  pose proof (ordinal_bounds (days_of t)) as Hord. cbv zeta in Hord.
  fold (dt_year t) in Hord.
  assert (0 ≤ dayofweek t < 7) as Hdow by (unfold dayofweek; apply Z.mod_pos_bound; lia).
  set (w := (days_of t - days_of_jan1 (dt_year t) + 1 - (dayofweek t + 1) + 10) / 7).
  assert (0 ≤ w ≤ 53) as Hw by (subst w; zdiv).
  destruct (iso_weeks_in_year_cases (dt_year t - 1)) as [E1|E1];
    destruct (iso_weeks_in_year_cases (dt_year t)) as [E2|E2];
    rewrite E1, E2;
    repeat match goal with
      | |- context [Z.ltb ?a ?b] => destruct (Z.ltb_spec a b)
      end; lia.
Qed.

Lemma days_of_next_day (t : Timestamp) : days_of (t + ns_per_day) = days_of t + 1.
Proof.
  unfold days_of. replace (t + ns_per_day) with (t + 1 * ns_per_day) by lia.
  apply Z.div_add. done.
Qed.

(** X10. The date that [_add_features] takes apart is a date of the
    Gregorian calendar: timestamp 0 is Thursday 1970-01-01, and a day later
    'year', 'month' and 'day_of_month' are those of the next date, and
    'day_of_week' is the next weekday; 'is_month_end' holds exactly on the
    day before an 'is_month_start'. *)
Theorem date_features_follow_the_calendar (t : Timestamp) :
  (dt_year 0, dt_month 0, dt_day 0) = (1970, 1, 1) ∧ dayofweek 0 = 3 ∧
  (dt_year (t + ns_per_day), dt_month (t + ns_per_day), dt_day (t + ns_per_day))
    = next_date (dt_year t, dt_month t, dt_day t) ∧
  dayofweek (t + ns_per_day) = (dayofweek t + 1) mod 7 ∧
  (is_month_end t = true ↔ is_month_start (t + ns_per_day) = true) ∧
  (is_month_start t = true ↔ dt_day t = 1).
Proof.
  split; [reflexivity|]. split; [reflexivity|].
  assert ((dt_year (t + ns_per_day), dt_month (t + ns_per_day), dt_day (t + ns_per_day))
          = next_date (dt_year t, dt_month t, dt_day t)) as Hnext.
  { unfold dt_year, dt_month, dt_day. rewrite days_of_next_day, civil_of_days_succ.
    destruct (civil_of_days (days_of t)) as [[y m] d]. cbn [fst snd].
    by destruct (next_date (y, m, d)) as [[? ?] ?]. }
  split; [exact Hnext|]. split.
  - unfold dayofweek. rewrite days_of_next_day. zdiv.
  - split; [|unfold is_month_start; apply Z.eqb_eq].
    unfold is_month_end, is_month_start.
    pose proof (civil_bounds (days_of t)) as Hb.
    unfold dt_year, dt_month, dt_day in *.
    destruct (civil_of_days (days_of t)) as [[y m] d]. cbn [fst snd] in *.
    destruct (civil_of_days (days_of (t + ns_per_day))) as [[y' m'] d'].
    cbn [fst snd] in *. unfold next_date in Hnext.
    rewrite !Z.eqb_eq.
    destruct (Z.ltb_spec d (days_in_month y m)); [injection Hnext as -> -> ->; lia|].
    destruct (Z.ltb_spec m 12); injection Hnext as -> -> ->; lia.
Qed.

(** The calendar columns of a row that [_add_features] has made. *)
Lemma calendar_features (b : gmap string cell) (t : Timestamp) :
  b !! "ds" = Some (CTime t) →
  let o := features_row b in
  o !! "ds" = Some (CTime t) ∧
  o !! "day_of_week" = Some (CInt (dayofweek t)) ∧
  o !! "day_of_month" = Some (CInt (dt_day t)) ∧
  o !! "week_of_year" = Some (CInt (iso_week t)) ∧
  o !! "month" = Some (CInt (dt_month t)) ∧
  o !! "quarter" = Some (CInt (dt_quarter t)) ∧
  o !! "year" = Some (CInt (dt_year t)) ∧
  o !! "is_month_end" = Some (CInt (if is_month_end t then 1 else 0)) ∧
  o !! "is_month_start" = Some (CInt (if is_month_start t then 1 else 0)).
Proof.
  intros Ht o. unfold o, features_row.
  repeat split; look; unfold cell_via; look; rewrite ?Ht; done.
Qed.

Section Calendar_spec.
Context `{Pandas}.

(** X11. The calendar columns of every row that [process] returns are in
    range and agree with each other: 'day_of_week' is 0 to 6, 'month' 1 to
    12, 'day_of_month' 1 to the length of that month of that year,
    'quarter' the quarter 1 to 4 that holds the month, 'week_of_year' 1 to
    53, and 'is_month_start' and 'is_month_end' are 1 on the first and the
    last day of the month and 0 on the others. *)
Theorem process_calendar_features_in_range (l : Ref) (df : DataFrame) (h : Heap) :
  h !! l = Some df →
  ["Date"; "Clicks"; "Impressions"; "CTR"; "Position"] ⊆ columns df →
  Forall raw_row_ok (rows df) →
  ∃ l' h' out,
    process l h = (Ok l', h') ∧ h' !! l' = Some out ∧
    Forall (λ o : gmap string cell, ∃ y m d q dow w,
              o !! "year" = Some (CInt y) ∧ o !! "month" = Some (CInt m) ∧
              o !! "day_of_month" = Some (CInt d) ∧ o !! "quarter" = Some (CInt q) ∧
              o !! "day_of_week" = Some (CInt dow) ∧
              o !! "week_of_year" = Some (CInt w) ∧
              1 ≤ m ≤ 12 ∧ 1 ≤ d ≤ days_in_month y m ∧ days_in_month y m ≤ 31 ∧
              1 ≤ q ≤ 4 ∧ 3 * q - 2 ≤ m ≤ 3 * q ∧
              0 ≤ dow ≤ 6 ∧ 1 ≤ w ≤ 53 ∧
              o !! "is_month_start" = Some (CInt (if d =? 1 then 1 else 0)) ∧
              o !! "is_month_end"
                = Some (CInt (if d =? days_in_month y m then 1 else 0)))
      (rows out).
Proof.
  intros Hl Hcols Hok.
  pose proof (process_run l df h Hl Hcols Hok) as Hrun. cbv zeta in Hrun.
  eexists _, _, _. split; [exact Hrun|]. split; [apply lookup_insert_eq|].
  cbn [rows]. apply Forall_forall. intros o (r & Hr & ->)%process_rows.
  rewrite Forall_forall in Hok. specialize (Hok r Hr).
  destruct (base_row_is_ok r Hok) as ((t & Ht) & _).
  destruct (calendar_features (base_row r) t Ht)
    as (_ & Hdow & Hd & Hw & Hm & Hq & Hy & Hme & Hms).
  exists (dt_year t), (dt_month t), (dt_day t), (dt_quarter t), (dayofweek t), (iso_week t).
  do 6 (split; [done|]).
  pose proof (civil_bounds (days_of t)) as Hb.
  pose proof (iso_week_bounds t) as Hweek.
  assert (0 ≤ dayofweek t < 7) as Hdw by (unfold dayofweek; apply Z.mod_pos_bound; lia).
  unfold dt_quarter, is_month_end, is_month_start, dt_year, dt_month, dt_day in *.
  destruct (civil_of_days (days_of t)) as [[y m] d]. cbn [fst snd] in *.
  assert (days_in_month y m ≤ 31) as Hdim.
  { unfold days_in_month. repeat case_match; lia. }
  repeat split; try done; try lia; zdiv.
Qed.

End Calendar_spec.

(** ** Small tables have no outliers *)












(** ** Further properties of the preprocessor *)

Lemma Permutation_fmap_inv {A B} (f : A → B) (k : list B) (l : list A) :
  k ≡ₚ f <$> l → ∃ l', l' ≡ₚ l ∧ k = f <$> l'.
Proof.
  intros Hperm. remember (f <$> l) as fl eqn:Hfl. revert l Hfl.
  induction Hperm as [|y k k' _ IH|x y k|k1 k2 k3 _ IH1 _ IH2]; intros l Hfl.
  - exists []. by destruct l.
  - destruct l as [|a l]; [done|]. injection Hfl as -> ->.
    destruct (IH l eq_refl) as (l' & Hl' & ->). exists (a :: l'). split; [by constructor|done].
  - destruct l as [|a [|b l]]; try done. injection Hfl as -> -> ->.
    exists (b :: a :: l). split; [apply perm_swap|done].
  - destruct (IH2 l Hfl) as (l2 & Hl2 & ->).
    destruct (IH1 l2 eq_refl) as (l1 & Hl1 & ->).
    exists l1. split; [by etrans|done].
Qed.

(** [rstrip] drops the trailing run of the character, and nothing else. *)
Lemma rstrip_spec (ch : ascii) (s : string) :
  ∃ k, chars s = (chars (rstrip ch s) ++ replicate k ch)%list ∧
       last (chars (rstrip ch s)) ≠ Some ch.
Proof.
  induction s as [|a s (k & Hk & Hlast)]; [by exists 0%nat|].
  cbn [rstrip]. destruct (rstrip ch s) as [|b r] eqn:Hr.
  - destruct (Ascii.eqb_spec a ch) as [->|Hne].
    + exists (S k). cbn in *. by rewrite Hk.
    + exists k. cbn in *. rewrite Hk. split; [done|]. by intros [= ?].
  - exists k. cbn [chars] in *. rewrite Hk. split; [done|].
    by destruct (chars r).
Qed.

Section Processed_rows.
Context `{Pandas}.

(** [process] leaves the columns it does not add as they were. *)
Lemma processed_row_other (r : gmap string cell) (c : string) :
  c ∉ processed_columns → features_row (base_row r) !! c = r !! c.
Proof.
  intros Hc. unfold features_row, base_row.
  repeat (rewrite set_col_lookup_ne;
          [|intros E; apply Hc; rewrite <- E; unfold processed_columns; in_list]).
  done.
Qed.

Lemma processed_row_ctr (r : gmap string cell) (s : string) :
  r !! "CTR" = Some (CStr s) →
  features_row (base_row r) !! "ctr"
  = Some (CFloat (fdiv (to_numeric_coerce (rstrip "%" s)) (Fin 100))).
Proof.
  intros Hs. unfold features_row, base_row. look. unfold cell_via. look.
  rewrite Hs. by rewrite ctr_of_str.
Qed.

Lemma processed_columns_elem (cols : list string) (c : string) :
  c ∈ features_columns (base_columns cols) ↔ c ∈ cols ∨ c ∈ processed_columns.
Proof.
  unfold features_columns, base_columns, processed_columns. cbn [foldl].
  rewrite !add_column_elem, !elem_of_cons, elem_of_nil. tauto.
Qed.

(** X14. [process] keeps every row: up to their order, the rows of its
    result are the rows of its input, each with the cells of the columns it
    was given untouched, the parsed 'Date' as 'ds', 'Clicks' as 'y',
    'Position' as 'position', and 'CTR' without its trailing percent signs,
    parsed and divided by 100, as 'ctr' (NaN when it does not parse, since
    the parse coerces). The columns of the result are those of the input
    and the fifteen [process] adds. *)
Theorem process_keeps_every_row (l : Ref) (df : DataFrame) (h : Heap) :
  h !! l = Some df →
  ["Date"; "Clicks"; "Impressions"; "CTR"; "Position"] ⊆ columns df →
  Forall raw_row_ok (rows df) →
  ∃ l' h' out rs,
    process l h = (Ok l', h') ∧ h' !! l' = Some out ∧
    rs ≡ₚ rows df ∧
    (∀ c, c ∈ columns out ↔ c ∈ columns df ∨ c ∈ processed_columns) ∧
    Forall2 (λ r o : gmap string cell,
               (∀ c, c ∉ processed_columns → o !! c = r !! c) ∧
               o !! "y" = r !! "Clicks" ∧ o !! "position" = r !! "Position" ∧
               (∃ d t, r !! "Date" = Some d ∧ to_datetime_cell d = Ok (CTime t) ∧
                       o !! "ds" = Some (CTime t)) ∧
               (∃ s stripped k,
                  r !! "CTR" = Some (CStr s) ∧
                  chars s = (chars stripped ++ replicate k "%"%char)%list ∧
                  last (chars stripped) ≠ Some "%"%char ∧
                  o !! "ctr"
                    = Some (CFloat (fdiv (to_numeric_coerce stripped) (Fin 100))) ∧
                  (to_numeric_coerce stripped = NaN → o !! "ctr" = Some (CFloat NaN))))
      rs (rows out).
Proof.
  intros Hl Hcols Hok.
  pose proof (process_run l df h Hl Hcols Hok) as Hrun. cbv zeta in Hrun.
  destruct (Permutation_fmap_inv base_row (sorted_by_ds (base_row <$> rows df)) (rows df))
    as (rs & Hperm & Hrs); [apply sorted_by_ds_perm|].
  eexists _, _, _, rs. split; [exact Hrun|]. split; [apply lookup_insert_eq|].
  split; [done|]. split; [intros c; cbn [columns]; apply processed_columns_elem|].
  cbn [rows]. rewrite Hrs, <- list_fmap_compose.
  apply Forall2_fmap_r, Forall_Forall2_diag, Forall_forall. intros r Hr.
  rewrite Hperm in Hr. rewrite Forall_forall in Hok.
  destruct (Hok r Hr) as ((d & w & Hd & Hw) & (c & x & Hc & Hx) & _ & (s & Hs) &
                          (p & z & Hp & Hz)).
  destruct (to_datetime_cell_time _ _ Hw) as (t & ->).
  cbn [compose]. split; [intros c' Hc'; by apply processed_row_other|].
  destruct (rstrip_spec "%" s) as (k & Hk & Hlast).
  pose proof (processed_row_ctr r s Hs) as Hctr0.
  unfold features_row, base_row in *.
  split; [look; unfold cell_via; look; by rewrite Hc|].
  split; [look; unfold cell_via; look; by rewrite Hp|].
  split; [exists d, t; look; unfold cell_via; by rewrite Hd, Hw|].
  exists s, (rstrip "%" s), k.
  pose proof Hctr0 as Hctr.
  split; [done|]. split; [done|]. split; [done|]. split; [exact Hctr|].
  intros Hnan. rewrite Hctr, Hnan. done.
Qed.

End Processed_rows.

(** X15. [_add_features] works in place: it returns the reference it was
    given, the frame at that reference has the eleven feature columns
    afterwards, with as many rows, and every other frame of the store is as
    it was. (It is [process] that copies, before it calls it.) *)
Theorem add_features_works_in_place (l : Ref) (df : DataFrame) (h : Heap) :
  h !! l = Some df →
  ["ds"; "y"; "Impressions"; "position"] ⊆ columns df →
  Forall base_row_ok (rows df) →
  ∃ h' df',
    _add_features l h = (Ok l, h') ∧ h' !! l = Some df' ∧
    (∀ l2, l2 ≠ l → h' !! l2 = h !! l2) ∧
    len df' = len df ∧
    (∀ c, c ∈ columns df' ↔
          c ∈ columns df ∨
          c ∈ ["day_of_week"; "day_of_month"; "week_of_year"; "month"; "quarter"; "year";
               "is_weekend"; "is_month_end"; "is_month_start"; "clicks_per_impression";
               "position_impact"]) ∧
    Forall2 (λ r r' : gmap string cell,
               ∀ c, c ∈ ["ds"; "y"; "Impressions"; "position"] → r' !! c = r !! c)
      (rows df) (rows df').
Proof.
  intros Hl Hcols Hok.
  eexists _, _. split; [by apply add_features_run|].
  split; [apply lookup_insert_eq|].
  split; [intros l2 Hne; by apply lookup_insert_ne|].
  split; [unfold len; cbn; by rewrite length_fmap|]. split.
  - intros c. cbn [columns]. unfold features_columns. cbn [foldl].
    rewrite !add_column_elem, !elem_of_cons, elem_of_nil. tauto.
  - cbn [rows]. apply Forall2_fmap_r, Forall_Forall2_diag, Forall_forall.
    intros r _ c Hc. unfold features_row.
    repeat (apply elem_of_cons in Hc as [->|Hc]); [..|by apply elem_of_nil in Hc];
      by look.
Qed.

(** ** Further properties of the analyzer *)

(** The columns of a frame made of three columns of one length. *)
Lemma DataFrame_of_dict3_cols (c1 c2 c3 : string) (s1 s2 s3 : Series) :
  c1 ≠ c2 → c1 ≠ c3 → c2 ≠ c3 →
  length s2 = length s1 → length s3 = length s1 →
  let d := DataFrame_of_dict [(c1, s1); (c2, s2); (c3, s3)] in
  columns d = [c1; c2; c3] ∧ len d = length s1 ∧
  getcol c1 d = Ok s1 ∧ getcol c2 d = Ok s2 ∧ getcol c3 d = Ok s3.
Proof.
  intros H12 H13 H23 Hl2 Hl3 d.
  assert (len d = length s1) as Hlen.
  { unfold len, d, DataFrame_of_dict. cbn [rows head from_option foldl fst snd].
    rewrite !length_zip_with, length_replicate. lia. }
  assert (∀ i r, rows d !! i = Some r →
            ∃ x y z, s1 !! i = Some x ∧ s2 !! i = Some y ∧ s3 !! i = Some z ∧
                     r = <[c3 := z]> (<[c2 := y]> (<[c1 := x]> ∅))) as Hrow.
  { intros i r Hr. assert (i < length s1)%nat as Hi.
    { rewrite <- Hlen. unfold len. by eapply lookup_lt_Some. }
    destruct (lookup_lt_is_Some_2 s1 i Hi) as [x Hx].
    destruct (lookup_lt_is_Some_2 s2 i ltac:(lia)) as [y Hy].
    destruct (lookup_lt_is_Some_2 s3 i ltac:(lia)) as [z Hz].
    exists x, y, z. do 3 (split; [done|]).
    pose proof (DataFrame_of_dict3_lookup c1 c2 c3 s1 s2 s3 i x y z Hx Hy Hz) as Hd.
    fold d in Hd. congruence. }
  split; [done|]. split; [done|].
  split; [|split]; apply getcol_Ok; (split; [unfold d; cbn; in_list|]);
    apply Forall2_same_length_lookup; (split; [unfold len in Hlen; lia|]);
    intros i r v Hr Hv; destruct (Hrow i r Hr) as (x & y & z & Hx & Hy & Hz & ->);
    by simplify_map_eq.
Qed.

(** X16. [_analyze_weekly_pattern] writes to the table it is given: it
    adds the column 'day_name', the weekday name of each 'ds', in place,
    and leaves the other frames alone. What it returns always has the seven
    rows Monday to Sunday, whatever the table holds; for a table without
    rows every average and every strength in it is NaN. *)
Theorem weekly_pattern_shape_and_side_effect (l : Ref) (df : DataFrame) (h : Heap) :
  h !! l = Some df → "ds" ∈ columns df → "y" ∈ columns df →
  Forall (has_time "ds") (rows df) → Forall (has_num "y") (rows df) →
  ∃ weekly h' df' averages strengths,
    _analyze_weekly_pattern l h = (Ok weekly, h') ∧
    h' !! l = Some df' ∧ (∀ l2, l2 ≠ l → h' !! l2 = h !! l2) ∧
    (∀ c, c ∈ columns df' ↔ c = "day_name" ∨ c ∈ columns df) ∧
    Forall2 (λ r r' : gmap string cell,
               r' = <["day_name" := CStr (day_name (time_of r))]> r)
      (rows df) (rows df') ∧
    columns weekly = ["day"; "average_clicks"; "relative_strength"] ∧
    len weekly = 7%nat ∧
    getcol "day" weekly = Ok (CStr <$> day_order) ∧
    getcol "average_clicks" weekly = Ok (CFloat <$> averages) ∧
    getcol "relative_strength" weekly = Ok (CFloat <$> strengths) ∧
    (rows df = [] → Forall (λ x, x = NaN) averages ∧ Forall (λ x, x = NaN) strengths).
Proof.
  intros Hl Hcds Hcy Hds Hy.
  set (averages := weekday_average (rows df) <$> (CStr <$> day_order)).
  exists (weekly_pattern_of (rows df)). eexists. eexists.
  exists averages, (relative_strength_of (mean_skipna averages) <$> averages).
  split; [by apply weekly_pattern_run|].
  split; [apply lookup_insert_eq|].
  split; [intros l2 Hne; by apply lookup_insert_ne|].
  split; [intros c; cbn [columns with_column]; apply add_column_elem|].
  split.
  { cbn [rows with_column]. apply Forall2_fmap_r, Forall_Forall2_diag.
    eapply Forall_impl; [exact Hds|]. intros r (t & Ht).
    assert (cell_via "ds" (dt_cell (CStr ∘ day_name)) r = CStr (day_name t)) as Hv
      by (unfold cell_via; by rewrite Ht).
    assert (time_of r = t) as Ht' by (unfold time_of; by rewrite Ht).
    change (set_col "day_name" (cell_via "ds" (dt_cell (CStr ∘ day_name))) r =
            <["day_name" := CStr (day_name (time_of r))]> r).
    unfold set_col. by rewrite Hv, Ht'. }
  unfold weekly_pattern_of. cbv zeta. fold averages.
  rewrite (list_fmap_compose (relative_strength_of (mean_skipna averages)) CFloat).
  destruct (DataFrame_of_dict3_cols "day" "average_clicks" "relative_strength"
              (CStr <$> day_order) (CFloat <$> averages)
              (CFloat <$> (relative_strength_of (mean_skipna averages) <$> averages)))
    as (Hc & Hlen & H1 & H2 & H3); [done.. | |].
  { unfold averages. by rewrite !length_fmap. }
  do 5 (split; [done|]).
  intros Hempty. assert (Forall (λ x, x = NaN) averages) as Hnan.
  { unfold averages. rewrite Hempty. repeat constructor. }
  split; [done|]. rewrite Forall_fmap.
  eapply Forall_impl; [exact Hnan|]. by intros x ->.
Qed.




(** X18. [_analyze_monthly_pattern] always reports the twelve rows Jan to
    Dec. For a table without rows every average in them is the integer 0
    and every strength is NaN. *)
Theorem monthly_pattern_shape (df : DataFrame) :
  "month" ∈ columns df → "y" ∈ columns df →
  Forall (λ r : gmap string cell, is_Some (r !! "month")) (rows df) →
  Forall (has_num "y") (rows df) →
  ∃ monthly averages strengths,
    _analyze_monthly_pattern df = Ok monthly ∧
    columns monthly = ["month"; "average_clicks"; "relative_strength"] ∧
    len monthly = 12%nat ∧
    getcol "month" monthly = Ok (CStr <$> month_names) ∧
    getcol "average_clicks" monthly = Ok averages ∧
    getcol "relative_strength" monthly = Ok (CFloat <$> strengths) ∧
    (rows df = [] →
     Forall (λ x, x = CInt 0) averages ∧ Forall (λ x, x = NaN) strengths).
Proof.
  intros Hcm Hcy Hm Hy.
  set (M := mean_skipna (Fin <$> ((λ k, group_average month_key k (rows df)) <$>
                                     group_keys month_key (rows df)))).
  set (strength := λ i, relative_strength_of M
                          (match month_average (rows df) (i + 1) with
                           | CFloat x => x
                           | _ => Fin 0
                           end)).
  exists (monthly_pattern_of (rows df)),
    ((λ i, month_average (rows df) (i + 1)) <$> range 12), (strength <$> range 12).
  split; [by apply monthly_pattern_run|].
  unfold monthly_pattern_of. cbv zeta. fold M.
  change (λ i, CFloat (relative_strength_of M
                         (match month_average (rows df) (i + 1) with
                          | CFloat x => x
                          | _ => Fin 0
                          end))) with (CFloat ∘ strength).
  rewrite (list_fmap_compose strength CFloat).
  destruct (DataFrame_of_dict3_cols "month" "average_clicks" "relative_strength"
              (CStr <$> month_names) ((λ i, month_average (rows df) (i + 1)) <$> range 12)
              (CFloat <$> (strength <$> range 12)))
    as (Hc & Hlen & H1 & H2 & H3); [done.. | |].
  { by rewrite !length_fmap. }
  do 5 (split; [done|]).
  intros Hempty. unfold strength, M. rewrite Hempty. split; repeat constructor.
Qed.
(** ** Growth metrics *)

Lemma getcol_same_rows (c : string) (df df' : DataFrame) :
  columns df' = columns df → rows df' = rows df → getcol c df' = getcol c df.
Proof. destruct df, df'. cbn. by intros -> ->. Qed.

(** The mean of the 'y' of a frame whose rows are given. *)
Lemma y_mean (df : DataFrame) :
  "y" ∈ columns df → Forall (has_num "y") (rows df) →
  getcol "y" df ≫= series_mean = Ok (mean_skipna (Fin <$> (num_of "y" <$> rows df))).
Proof.
  intros Hc Hy. destruct (y_column df Hc Hy) as (-> & Hnum).
  cbn [mbind result_bind]. unfold series_mean. by rewrite Hnum.
Qed.

Lemma period_column (df : DataFrame) :
  "ds" ∈ columns df → Forall (has_time "ds") (rows df) →
  getcol "ds" df ≫= mapR period_cell = Ok (to_period_M ∘ time_of <$> rows df).
Proof.
  intros Hc Hr.
  rewrite (getcol_total "ds" df (λ r, default (CInt 0) (r !! "ds")));
    [|done | eapply Forall_impl; [exact Hr|]; intros r (t & Ht); by rewrite Ht].
  cbn. apply mapR_Ok, Forall2_fmap, Forall_Forall2_diag.
  eapply Forall_impl; [exact Hr|].
  intros r (t & Ht). unfold time_of, compose. by rewrite Ht.
Qed.

(** What [_calculate_growth_metrics] computes on a table with dates and
    numbers. *)
Lemma growth_metrics_run (df : DataFrame) :
  "ds" ∈ columns df → "y" ∈ columns df →
  Forall (has_time "ds") (rows df) → Forall (has_num "y") (rows df) →
  ∃ monthly : list (Z * Q),
    length monthly = length (remove_dups (to_period_M ∘ time_of <$> rows df)) ∧
    _calculate_growth_metrics df =
      let first := mean_skipna (Fin <$> (num_of "y" <$> take 30 (rows df))) in
      let last := mean_skipna (Fin <$> (num_of "y" <$> drop (len df - 30) (rows df))) in
      Ok {| total_growth_pct := fmul (fsub (fdiv last first) (Fin 1)) (Fin 100);
            avg_monthly_growth_pct :=
              fmul (mean_skipna (pct_change (Fin <$> monthly.*2))) (Fin 100);
            first_30_days_avg := first;
            last_30_days_avg := last |}.
Proof.
  intros Hcds Hcy Hds Hy.
  set (periods := to_period_M ∘ time_of <$> rows df).
  set (vals := num_of "y" <$> rows df).
  exists ((λ k, (k, Qmean (filter (λ kv : Z * Q, kv.1 = k) (zip periods vals)).*2)) <$>
            merge_sort Z.le (remove_dups periods)).
  split.
  { rewrite length_fmap. apply Permutation_length, merge_sort_Permutation. }
  unfold _calculate_growth_metrics.
  rewrite (y_mean (iloc_to 30 df)); [|done | by apply Forall_take].
  rewrite (y_mean (iloc_from (-30) df)); [|done | by apply Forall_drop].
  cbn [mbind result_bind].
  unfold groupby_period_mean. rewrite (period_column df Hcds Hds).
  cbn [mbind result_bind].
  destruct (y_column df Hcy Hy) as (-> & Hnum). cbn [mbind result_bind].
  rewrite Hnum. cbn [mbind result_bind].
  cbv zeta. do 2 f_equal.
  all: cbn [rows iloc_to iloc_from]; unfold slice_bound; cbn; try done.
  all: repeat f_equal; lia.
Qed.

Lemma remove_dups_constant {A} `{EqDecision A} (l : list A) :
  (∀ x y, x ∈ l → y ∈ l → x = y) → (length (remove_dups l) ≤ 1)%nat.
Proof.
  induction l as [|x l IH]; intros Heq; [cbn; lia|].
  cbn [remove_dups]. destruct l as [|y l].
  { case_decide as Hin; [by apply elem_of_nil in Hin | cbn; lia]. }
  case_decide as Hin.
  - apply IH. intros a b Ha Hb. apply Heq; by apply list_elem_of_further.
  - exfalso. apply Hin.
    assert (x = y) as -> by (apply Heq; [left | right; left]). left.
Qed.

Lemma pct_change_short (xs : list float) :
  (length xs ≤ 1)%nat → mean_skipna (pct_change xs) = NaN.
Proof.
  destruct xs as [|x [|y xs]]; cbn [length]; [done | | lia].
  intros _. reflexivity.
Qed.

(** X19. [_calculate_growth_metrics] on short tables. With at most 30 rows
    the first and the last 30 days are the same rows: both averages
    coincide, and total_growth_pct is 0, or NaN when the table is empty or
    its mean is 0. When all the dates fall in one calendar month there is
    no month-to-month change, and avg_monthly_growth_pct is NaN. *)
Theorem growth_metrics_of_short_tables (df : DataFrame) :
  "ds" ∈ columns df → "y" ∈ columns df →
  Forall (has_time "ds") (rows df) → Forall (has_num "y") (rows df) →
  ∃ g,
    _calculate_growth_metrics df = Ok g ∧
    ((len df ≤ 30)%nat →
     first_30_days_avg g = last_30_days_avg g ∧
     (rows df = [] ∨ (overall_mean (rows df) == 0)%Q → total_growth_pct g = NaN) ∧
     (rows df ≠ [] → ¬ (overall_mean (rows df) == 0)%Q →
      ∃ q, total_growth_pct g = Fin q ∧ (q == 0)%Q)) ∧
    ((∀ r r', r ∈ rows df → r' ∈ rows df →
        to_period_M (time_of r) = to_period_M (time_of r')) →
     avg_monthly_growth_pct g = NaN).
Proof.
  intros Hcds Hcy Hds Hy.
  destruct (growth_metrics_run df Hcds Hcy Hds Hy) as (monthly & Hlen & Hrun).
  eexists. split; [exact Hrun|]. cbv zeta. split.
  - intros Hshort. cbn [first_30_days_avg last_30_days_avg total_growth_pct].
    unfold len in Hshort.
    replace (len df - 30)%nat with 0%nat by (unfold len; lia).
    rewrite take_ge by lia. rewrite drop_0.
    split; [done|]. unfold overall_mean.
    destruct (rows df) as [|r rs] eqn:Hrows.
    { split; [intros _; reflexivity | done]. }
    rewrite mean_skipna_Fin by done.
    set (m := Qmean (num_of "y" <$> r :: rs)). split.
    + intros [?|Hm]; [done|]. unfold fdiv.
      rewrite (proj2 (Qeq_bool_iff m 0) Hm : Qeqb m 0 = true). reflexivity.
    + intros _ Hm. exists ((m / m - 1) * 100)%Q. split.
      * apply (relative_strength_finite m m Hm).
      * field. done.
  - intros Hsame. cbn [avg_monthly_growth_pct]. rewrite pct_change_short; [done|].
    rewrite length_fmap, length_fmap, Hlen. apply remove_dups_constant.
    intros x y (r & -> & Hr)%list_elem_of_fmap (r' & -> & Hr')%list_elem_of_fmap.
    by apply Hsame.
Qed.
(** ** Further examples *)

Section Further_examples.
#[local] Existing Instance example_pandas.
#[local] Existing Instance example_prophet.
#[local] Existing Instance example_metrics.

(** The split of the eleven rows of [example_series]. *)
Lemma split_data_example :
  Z.of_nat (len (_split_data example_model example_series).2)
    = Z.min (validation_days (config example_model))
        (Z.of_nat (len example_series)
         - Qfloor ((8 # 10) * inject_Z (Z.of_nat (len example_series)))) ∧
  5 * Z.of_nat (len (_split_data example_model example_series).2)
    ≤ Z.of_nat (len example_series) + 4 ∧
  Qfloor ((8 # 10) * inject_Z (Z.of_nat (len example_series)))
    ≤ Z.of_nat (len (_split_data example_model example_series).1) ∧
  Z.of_nat (len (_split_data example_model example_series).1)
    + Z.of_nat (len (_split_data example_model example_series).2)
    = Z.of_nat (len example_series).
Proof.
  assert (0 ≤ validation_days (config example_model)) as Hvd by (vm_compute; discriminate).
  exact (split_data_holdout_size example_model example_series Hvd).
Defined.

(** [fit] on [example_series], on the new object and on the fitted one. *)
Lemma fit_again_example :
  (∃ s2', fit example_series example_fitted = (Ok tt, s2') ∧
          config s2' = config example_fitted ∧ model s2' = model example_fitted ∧
          (rows (_split_data example_model example_series).2 ≠ [] →
           validation_metrics s2' = validation_metrics example_fitted)) ∧
  fit example_series example_fitted = (Ok tt, example_fitted).
Proof.
  apply (fit_forgets_earlier_fits example_model example_fitted example_fitted example_series).
  - vm_compute. reflexivity.
  - exact fit_example_returns.
Defined.

Lemma example_csv_fit_raises :
  fit example_csv example_model
  = (Raise (KeyError "ds"), (fit example_csv example_model).2).
Proof.
  assert ((fit example_csv example_model).1 = Raise (KeyError "ds")) as Hret
    by (vm_compute; reflexivity).
  rewrite <- Hret. apply surjective_pairing.
Qed.

(** [fit] on [example_csv], which has no 'ds' column. *)
Lemma failed_fit_example :
  config (fit example_csv example_model).2 = config example_model ∧
  ((_create_model example_model = Raise (KeyError "ds") ∧
    (fit example_csv example_model).2 = example_model) ∨
   (∃ m0, _create_model example_model = Ok m0 ∧
          (model (fit example_csv example_model).2 = Some m0 ∨
           ∃ m1, fitted_on example_model (_split_data example_model example_csv).1 m1 ∧
                 model (fit example_csv example_model).2 = Some m1) ∧
          ∀ periods,
            (predict periods (fit example_csv example_model).2).1
            ≠ Raise not_fitted_predict)).
Proof.
  exact (failed_fit_leaves_a_model example_model _ example_csv _ example_csv_fit_raises).
Defined.

Lemma example_named_columns : ["ds"; "y"] ⊆ columns example_named.
Proof.
  intros c Hc. apply list_elem_of_In. apply list_elem_of_In in Hc.
  vm_compute in Hc |- *. tauto.
Qed.

(** [fit] on [example_series] with and without the 'day_name' column. *)
Lemma fit_named_example :
  fit example_series example_model = fit example_named example_model.
Proof.
  apply (fit_reads_ds_and_y example_model example_series example_named).
  - destruct example_series_ok as (Hcds & Hcy & _).
    intros c Hc. repeat (apply elem_of_cons in Hc as [->|Hc]); [done..|].
    by apply elem_of_nil in Hc.
  - exact example_named_columns.
  - vm_compute. reflexivity.
Defined.

Lemma example_series_dates : Forall (has_time "ds") (rows example_series).
Proof.
  unfold example_series, table. cbn [rows fmap list_fmap].
  repeat (apply Forall_cons_2; [by eexists|]). apply Forall_nil_2.
Qed.

Lemma example_forecast_floats :
  Forall (λ r, has_time "ds" r ∧ has_float "yhat" r ∧ has_float "yhat_lower" r ∧
               has_float "yhat_upper" r) (rows example_forecast).
Proof.
  unfold example_forecast, table. cbn [rows fmap list_fmap].
  repeat (apply Forall_cons_2;
          [split; [by eexists | repeat split; eexists _, _; by split]|]).
  apply Forall_nil_2.
Qed.


(** The predictions of [example_forecast] after [example_series]. *)
Lemma get_future_predictions_finite_example :
  ∃ m, series_max (time_of <$> rows example_series) = Some m ∧
    ((Forall forecast_row (filter (λ r, is_future m r) (rows example_forecast)) ∧
      ∃ out, get_future_predictions example_forecast example_series = Ok out ∧
             len out = length (filter (λ r, is_future m r) (rows example_forecast)))
     ∨ (¬ Forall forecast_row (filter (λ r, is_future m r) (rows example_forecast)) ∧
        get_future_predictions example_forecast example_series
        = Raise (ValueError "Cannot convert non-finite values (NA or inf) to integer"))).
Proof.
  destruct example_series_ok as (Hcds & _ & _ & _).
  apply (get_future_predictions_needs_finite_estimates example_forecast example_series).
  - done.
  - exact example_forecast_floats.
  - exact Hcds.
  - exact example_series_dates.
  - discriminate.
Defined.

Lemma example_validated_returns :
  fit (H0 := pandas_metrics) example_series example_model = (Ok tt, example_validated).
Proof.
  assert ((fit (H0 := pandas_metrics) example_series example_model).1 = Ok tt) as Hret
    by (vm_compute; reflexivity).
  unfold example_validated. rewrite <- Hret. apply surjective_pairing.
Qed.

(** The mean absolute error of [fit] on [example_series], with pandas'
    arithmetic. *)
Lemma validation_mae_example :
  validation_metrics example_validated !! "mae" = Some NaN.
Proof.
  apply (validation_mae_is_nan (H0 := pandas_metrics)
           example_model example_validated example_series).
  - reflexivity.
  - intros ds m forecast [= <-]. unfold len. cbn [rows]. by rewrite length_fmap.
  - vm_compute. reflexivity.
  - vm_compute. lia.
  - exact example_validated_returns.
Defined.

(** The calendar columns of the four days of [example_csv]. *)
Lemma process_calendar_example :
  ∃ l' h' out,
    process 1%positive (example_heap example_csv) = (Ok l', h') ∧ h' !! l' = Some out ∧
    Forall (λ o : gmap string cell, ∃ y m d q dow w,
              o !! "year" = Some (CInt y) ∧ o !! "month" = Some (CInt m) ∧
              o !! "day_of_month" = Some (CInt d) ∧ o !! "quarter" = Some (CInt q) ∧
              o !! "day_of_week" = Some (CInt dow) ∧
              o !! "week_of_year" = Some (CInt w) ∧
              1 ≤ m ≤ 12 ∧ 1 ≤ d ≤ days_in_month y m ∧ days_in_month y m ≤ 31 ∧
              1 ≤ q ≤ 4 ∧ 3 * q - 2 ≤ m ≤ 3 * q ∧
              0 ≤ dow ≤ 6 ∧ 1 ≤ w ≤ 53 ∧
              o !! "is_month_start" = Some (CInt (if d =? 1 then 1 else 0)) ∧
              o !! "is_month_end"
                = Some (CInt (if d =? days_in_month y m then 1 else 0)))
      (rows out).
Proof.
  apply (process_calendar_features_in_range 1%positive example_csv
           (example_heap example_csv)).
  - reflexivity.
  - exact example_columns_ok.
  - exact example_csv_ok.
Defined.



(** The rows that [process] makes of [example_csv]. *)
Lemma process_rows_example :
  ∃ l' h' out rs,
    process 1%positive (example_heap example_csv) = (Ok l', h') ∧ h' !! l' = Some out ∧
    rs ≡ₚ rows example_csv ∧
    (∀ c, c ∈ columns out ↔ c ∈ columns example_csv ∨ c ∈ processed_columns) ∧
    Forall2 (λ r o : gmap string cell,
               (∀ c, c ∉ processed_columns → o !! c = r !! c) ∧
               o !! "y" = r !! "Clicks" ∧ o !! "position" = r !! "Position" ∧
               (∃ d t, r !! "Date" = Some d ∧ to_datetime_cell d = Ok (CTime t) ∧
                       o !! "ds" = Some (CTime t)) ∧
               (∃ s stripped k,
                  r !! "CTR" = Some (CStr s) ∧
                  chars s = (chars stripped ++ replicate k "%"%char)%list ∧
                  last (chars stripped) ≠ Some "%"%char ∧
                  o !! "ctr"
                    = Some (CFloat (fdiv (to_numeric_coerce stripped) (Fin 100))) ∧
                  (to_numeric_coerce stripped = NaN → o !! "ctr" = Some (CFloat NaN))))
      rs (rows out).
Proof.
  apply (process_keeps_every_row 1%positive example_csv (example_heap example_csv)).
  - reflexivity.
  - exact example_columns_ok.
  - exact example_csv_ok.
Defined.

Lemma example_base_columns :
  ["ds"; "y"; "Impressions"; "position"] ⊆ columns example_base.
Proof.
  intros c Hc. apply list_elem_of_In. apply list_elem_of_In in Hc.
  vm_compute in Hc |- *. tauto.
Qed.

Lemma example_base_ok : Forall base_row_ok (rows example_base).
Proof.
  unfold example_base. cbn [rows]. apply Forall_fmap.
  eapply Forall_impl; [exact example_csv_ok|]. intros r Hr. by apply base_row_is_ok.
Qed.

(** [_add_features] on [example_base]. *)
Lemma add_features_example :
  ∃ h' df',
    _add_features 1%positive (example_heap example_base) = (Ok 1%positive, h') ∧
    h' !! 1%positive = Some df' ∧
    (∀ l2, l2 ≠ 1%positive → h' !! l2 = example_heap example_base !! l2) ∧
    len df' = len example_base ∧
    (∀ c, c ∈ columns df' ↔
          c ∈ columns example_base ∨
          c ∈ ["day_of_week"; "day_of_month"; "week_of_year"; "month"; "quarter"; "year";
               "is_weekend"; "is_month_end"; "is_month_start"; "clicks_per_impression";
               "position_impact"]) ∧
    Forall2 (λ r r' : gmap string cell,
               ∀ c, c ∈ ["ds"; "y"; "Impressions"; "position"] → r' !! c = r !! c)
      (rows example_base) (rows df').
Proof.
  apply (add_features_works_in_place 1%positive example_base (example_heap example_base)).
  - reflexivity.
  - exact example_base_columns.
  - exact example_base_ok.
Defined.

(** The weekly pattern of [example_week], and what it does to the table. *)
Lemma weekly_pattern_example :
  ∃ weekly h' df' averages strengths,
    _analyze_weekly_pattern 1%positive (example_heap example_week) = (Ok weekly, h') ∧
    h' !! 1%positive = Some df' ∧
    (∀ l2, l2 ≠ 1%positive → h' !! l2 = example_heap example_week !! l2) ∧
    (∀ c, c ∈ columns df' ↔ c = "day_name" ∨ c ∈ columns example_week) ∧
    Forall2 (λ r r' : gmap string cell,
               r' = <["day_name" := CStr (day_name (time_of r))]> r)
      (rows example_week) (rows df') ∧
    columns weekly = ["day"; "average_clicks"; "relative_strength"] ∧
    len weekly = 7%nat ∧
    getcol "day" weekly = Ok (CStr <$> day_order) ∧
    getcol "average_clicks" weekly = Ok (CFloat <$> averages) ∧
    getcol "relative_strength" weekly = Ok (CFloat <$> strengths) ∧
    (rows example_week = [] →
     Forall (λ x, x = NaN) averages ∧ Forall (λ x, x = NaN) strengths).
Proof.
  destruct example_week_ok as (Hcds & Hcy & _ & Hds & Hy & _).
  apply (weekly_pattern_shape_and_side_effect 1%positive example_week
           (example_heap example_week)); [reflexivity | done..].
Defined.


(** The monthly pattern of [example_week]. *)
Lemma monthly_pattern_example :
  ∃ monthly averages strengths,
    _analyze_monthly_pattern example_week = Ok monthly ∧
    columns monthly = ["month"; "average_clicks"; "relative_strength"] ∧
    len monthly = 12%nat ∧
    getcol "month" monthly = Ok (CStr <$> month_names) ∧
    getcol "average_clicks" monthly = Ok averages ∧
    getcol "relative_strength" monthly = Ok (CFloat <$> strengths) ∧
    (rows example_week = [] →
     Forall (λ x, x = CInt 0) averages ∧ Forall (λ x, x = NaN) strengths).
Proof.
  destruct example_week_ok as (_ & Hcy & Hcm & _ & Hy & Hm).
  by apply (monthly_pattern_shape example_week).
Defined.

(** The growth metrics of the eight days of [example_week]. *)
Lemma growth_metrics_example :
  ∃ g,
    _calculate_growth_metrics example_week = Ok g ∧
    ((len example_week ≤ 30)%nat →
     first_30_days_avg g = last_30_days_avg g ∧
     (rows example_week = [] ∨ (overall_mean (rows example_week) == 0)%Q →
      total_growth_pct g = NaN) ∧
     (rows example_week ≠ [] → ¬ (overall_mean (rows example_week) == 0)%Q →
      ∃ q, total_growth_pct g = Fin q ∧ (q == 0)%Q)) ∧
    ((∀ r r', r ∈ rows example_week → r' ∈ rows example_week →
        to_period_M (time_of r) = to_period_M (time_of r')) →
     avg_monthly_growth_pct g = NaN).
Proof.
  destruct example_week_ok as (Hcds & Hcy & _ & Hds & Hy & _).
  by apply (growth_metrics_of_short_tables example_week).
Defined.

End Further_examples.
